(** * Gluco_ai: the monitoring core (data store, insulin decay, trend
      classification, reading generation, Guardian call, statistics)

    A shallow embedding of
      - [src/services/dataStore.ts]   (class [DataStore]),
      - [src/services/cgmSimulator.ts] (class [CGMSimulator]),
      - [src/services/agentService.ts] ([callGuardian], [sendEmergencyAlert]),
      - [supabase/functions/guardian/index.ts] (the Guardian edge function).

    Conventions of the embedding.
      - A JavaScript [number] is an exact rational ([Q]); NaN, the infinities
        and binary rounding are outside the model.  Equality of computed
        numbers is [Qeq] ([==]).
      - A [Date] is its epoch time in milliseconds; a date computed from a
        number may be an Invalid Date, which is [None].
      - The wall clock, [Math.random] and the network are inputs: every
        method that reads the clock takes the value it read as [now].
      - Mutable singleton fields become explicit records that are passed in
        and returned. *)

From Stdlib Require Import String ZArith QArith Qround Qminmax List Permutation
  Bool Lia Lqa.
Import ListNotations.
Open Scope Q_scope.

Set Implicit Arguments.

(** ** Numbers *)

Module Num.

Definition leb (x y : Q) : bool := Qle_bool x y.
Definition ltb (x y : Q) : bool := negb (Qle_bool y x).
Definition geb (x y : Q) : bool := leb y x.
Definition gtb (x y : Q) : bool := ltb y x.

(** [Math.round]: the nearest integer, halves towards plus infinity. *)
Definition Math_round (x : Q) : Z := Qfloor (x + (1 # 2)).

Definition Math_max (x y : Q) : Q := if leb x y then y else x.
Definition Math_min (x y : Q) : Q := if leb x y then x else y.

End Num.

Import Num.

(** ** The data model ([dataStore.ts], the exported interfaces) *)

Record Date := mkDate { getTime : Z }.

(** The time values a [Date] can hold: at most 8.64e15 milliseconds on
    either side of the epoch. *)
Definition maxTime : Z := 8640000000000000%Z.

(** [a >= b] for a stored [Date] [a] and a computed one [b]: the epoch times
    are compared; an Invalid Date ([None]) has the time value NaN, and every
    comparison with it is false. *)
Definition Date_geb (a : Date) (b : option Date) : bool :=
  match b with
  | Some b => (getTime b <=? getTime a)%Z
  | None => false
  end.

Definition msPerHour : Z := (60 * 60 * 1000)%Z.

(** [new Date(v)] for a finite number [v]: an Invalid Date when [v] is
    more than [maxTime] away from the epoch; otherwise the time value is [v]
    with its fraction dropped (towards zero). *)
Definition Qtrunc (v : Q) : Z := if leb 0 v then Qfloor v else Qceiling v.
Definition new_Date (v : Q) : option Date :=
  if leb (- inject_Z maxTime) v && leb v (inject_Z maxTime)
  then Some (mkDate (Qtrunc v))
  else None.

(** [new Date(Date.now() - hours * 60 * 60 * 1000)] *)
Definition cutoffDate (now : Z) (hours : Q) : option Date :=
  new_Date (inject_Z now - hours * 60 * 60 * 1000).

Record GlucoseReading := mkGlucoseReading {
  gr_timestamp : Date;
  bgl : Q;
  trend : string;
  insulinOnBoard : Q;
  gr_notes : option string
}.

Record MealLog := mkMealLog {
  ml_timestamp : Date;
  description : string;
  imageBase64 : option string;
  carbs : option Q;
  protein : option Q;
  fat : option Q;
  insulinDose : option Q
}.

Inductive MedicationType := basal | bolus.

Definition MedicationType_eqb (a b : MedicationType) : bool :=
  match a, b with
  | basal, basal | bolus, bolus => true
  | _, _ => false
  end.

Record MedicationLog := mkMedicationLog {
  med_timestamp : Date;
  type : MedicationType;
  units : Q;
  med_notes : option string
}.

Record UserProfile := mkUserProfile {
  name : string;
  icr : string;
  isf : Q;
  targetBGL : Q;
  basalRate : Q;
  doctorEmail : option string
}.

Record AgentInteraction := mkAgentInteraction {
  ai_timestamp : Date;
  agent : string;
  message : string;
  response : string
}.

(** The payload of an append: the record without its timestamp
    ([Omit<GlucoseReading, "timestamp">]). *)
Record NewGlucoseReading := mkNewGlucoseReading {
  new_bgl : Q;
  new_trend : string;
  new_insulinOnBoard : Q;
  new_notes : option string
}.

Record NewMealLog := mkNewMealLog {
  new_description : string;
  new_imageBase64 : option string;
  new_carbs : option Q;
  new_protein : option Q;
  new_fat : option Q;
  new_insulinDose : option Q
}.

Record NewMedicationLog := mkNewMedicationLog {
  new_type : MedicationType;
  new_units : Q;
  new_med_notes : option string
}.

Definition stampReading (now : Z) (r : NewGlucoseReading) : GlucoseReading :=
  {| gr_timestamp := mkDate now;
     bgl := new_bgl r;
     trend := new_trend r;
     insulinOnBoard := new_insulinOnBoard r;
     gr_notes := new_notes r |}.

(** ** class DataStore *)

Record DataStore := mkDataStore {
  glucoseReadings : list GlucoseReading;
  mealLogs : list MealLog;
  medicationLogs : list MedicationLog;
  agentInteractions : list AgentInteraction;
  userProfile : UserProfile;
  emergencyDoctors : list string
}.

Definition initialProfile : UserProfile :=
  {| name := "Patient";
     icr := "1:10";
     isf := 50;
     targetBGL := 120;
     basalRate := 1;
     doctorEmail := Some "ayatkhan1311@gmail.com"%string |}.

(** [new DataStore()] *)
Definition newDataStore : DataStore :=
  {| glucoseReadings := [];
     mealLogs := [];
     medicationLogs := [];
     agentInteractions := [];
     userProfile := initialProfile;
     emergencyDoctors :=
       ["ayatkhan1311@gmail.com"; "tafreed.ahmed787@gmail.com"]%string |}.

Definition set_glucoseReadings (l : list GlucoseReading) (d : DataStore) :=
  {| glucoseReadings := l;
     mealLogs := mealLogs d;
     medicationLogs := medicationLogs d;
     agentInteractions := agentInteractions d;
     userProfile := userProfile d;
     emergencyDoctors := emergencyDoctors d |}.

Definition set_mealLogs (l : list MealLog) (d : DataStore) :=
  {| glucoseReadings := glucoseReadings d;
     mealLogs := l;
     medicationLogs := medicationLogs d;
     agentInteractions := agentInteractions d;
     userProfile := userProfile d;
     emergencyDoctors := emergencyDoctors d |}.

Definition set_medicationLogs (l : list MedicationLog) (d : DataStore) :=
  {| glucoseReadings := glucoseReadings d;
     mealLogs := mealLogs d;
     medicationLogs := l;
     agentInteractions := agentInteractions d;
     userProfile := userProfile d;
     emergencyDoctors := emergencyDoctors d |}.

Definition set_agentInteractions (l : list AgentInteraction) (d : DataStore) :=
  {| glucoseReadings := glucoseReadings d;
     mealLogs := mealLogs d;
     medicationLogs := medicationLogs d;
     agentInteractions := l;
     userProfile := userProfile d;
     emergencyDoctors := emergencyDoctors d |}.

(** [Array.prototype.shift]: drop the first element. *)
Definition shift {A} (l : list A) : list A := tl l.

(** [addGlucoseReading]: push, then keep only the last 1000 readings. *)
Definition addGlucoseReading (now : Z) (reading : NewGlucoseReading)
    (d : DataStore) : DataStore :=
  let pushed := glucoseReadings d ++ [stampReading now reading] in
  if (1000 <? Z.of_nat (length pushed))%Z
  then set_glucoseReadings (shift pushed) d
  else set_glucoseReadings pushed d.

Definition getGlucoseReadings (now : Z) (hours : Q) (d : DataStore)
    : list GlucoseReading :=
  let cutoff := cutoffDate now hours in
  filter (fun r => Date_geb (gr_timestamp r) cutoff) (glucoseReadings d).

Definition getLatestGlucoseReading (d : DataStore) : option GlucoseReading :=
  if (0 <? Z.of_nat (length (glucoseReadings d)))%Z
  then nth_error (glucoseReadings d) (length (glucoseReadings d) - 1)
  else None.

Definition addMealLog (now : Z) (meal : NewMealLog) (d : DataStore)
    : DataStore :=
  set_mealLogs
    (mealLogs d ++
       [{| ml_timestamp := mkDate now;
           description := new_description meal;
           imageBase64 := new_imageBase64 meal;
           carbs := new_carbs meal;
           protein := new_protein meal;
           fat := new_fat meal;
           insulinDose := new_insulinDose meal |}]) d.

Definition getMealLogs (now : Z) (hours : Q) (d : DataStore) : list MealLog :=
  let cutoff := cutoffDate now hours in
  filter (fun m => Date_geb (ml_timestamp m) cutoff) (mealLogs d).

Definition addMedicationLog (now : Z) (medication : NewMedicationLog)
    (d : DataStore) : DataStore :=
  set_medicationLogs
    (medicationLogs d ++
       [{| med_timestamp := mkDate now;
           type := new_type medication;
           units := new_units medication;
           med_notes := new_med_notes medication |}]) d.

Definition getMedicationLogs (now : Z) (hours : Q) (d : DataStore)
    : list MedicationLog :=
  let cutoff := cutoffDate now hours in
  filter (fun m => Date_geb (med_timestamp m) cutoff) (medicationLogs d).

(** [(now.getTime() - m.timestamp.getTime()) / (1000 * 60 * 60)] *)
Definition hoursSince (now : Z) (m : MedicationLog) : Q :=
  inject_Z (now - getTime (med_timestamp m)) / (1000 * 60 * 60).

(** [getInsulinOnBoard]: linear decay of the recent bolus doses. *)
Definition getInsulinOnBoard (now : Z) (d : DataStore) : Q :=
  let recentMeds :=
    filter (fun m => leb (hoursSince now m) 5
                     && MedicationType_eqb (type m) bolus)
           (medicationLogs d) in
  fold_left
    (fun total med =>
       let remaining := units med * Math_max 0 ((5 - hoursSince now med) / 5) in
       total + remaining)
    recentMeds 0.

Definition addAgentInteraction (now : Z) (a m r : string) (d : DataStore)
    : DataStore :=
  set_agentInteractions
    (agentInteractions d ++
       [{| ai_timestamp := mkDate now; agent := a; message := m;
           response := r |}]) d.

Definition getUserProfile (d : DataStore) : UserProfile := userProfile d.

Definition getEmergencyDoctors (d : DataStore) : list string :=
  emergencyDoctors d.

(** *** Analytics: [getStatistics] *)

Record Statistics := mkStatistics {
  avgBGL : Z;
  timeInRange : Z;
  timeAboveRange : Z;
  timeBelowRange : Z;
  hypoEvents : nat;
  hyperEvents : nat;
  readings : nat;
  avgCarbs : Z;
  totalInsulin : Q
}.

(** [array.length] as a number *)
Definition len {A} (l : list A) : Q := inject_Z (Z.of_nat (length l)).

(** [m.carbs || 0] *)
Definition carbsOrZero (m : MealLog) : Q :=
  match carbs m with Some c => c | None => 0 end.

(** The sums, the quotients and [Math.round] are taken on exact numbers;
    the code takes them on binary floating point, which gives the same
    result where the operands and the intermediate values are exactly
    representable, and may round the other way elsewhere. *)
Definition getStatistics (now : Z) (hours : Q) (d : DataStore) : Statistics :=
  let readings := getGlucoseReadings now hours d in
  let meals := getMealLogs now hours d in
  let meds := getMedicationLogs now hours d in
  if (Z.of_nat (length readings) =? 0)%Z then
    {| avgBGL := 0; timeInRange := 0; timeAboveRange := 0;
       timeBelowRange := 0; hypoEvents := 0; hyperEvents := 0;
       readings := 0; avgCarbs := 0; totalInsulin := 0 |}
  else
    let total := fold_left (fun sum r => sum + bgl r) readings 0 in
    let avgBGL := total / len readings in
    let inRange :=
      filter (fun r => geb (bgl r) 70 && leb (bgl r) 180) readings in
    let aboveRange := filter (fun r => gtb (bgl r) 180) readings in
    let belowRange := filter (fun r => ltb (bgl r) 70) readings in
    let hypoEvents := filter (fun r => ltb (bgl r) 70) readings in
    let hyperEvents := filter (fun r => gtb (bgl r) 250) readings in
    let totalCarbs := fold_left (fun sum m => sum + carbsOrZero m) meals 0 in
    let avgCarbs :=
      if (0 <? Z.of_nat (length meals))%Z then totalCarbs / len meals else 0 in
    let totalInsulin := fold_left (fun sum m => sum + units m) meds 0 in
    {| avgBGL := Math_round avgBGL;
       timeInRange := Math_round (len inRange / len readings * 100);
       timeAboveRange := Math_round (len aboveRange / len readings * 100);
       timeBelowRange := Math_round (len belowRange / len readings * 100);
       hypoEvents := length hypoEvents;
       hyperEvents := length hyperEvents;
       readings := length readings;
       avgCarbs := Math_round avgCarbs;
       totalInsulin := inject_Z (Math_round (totalInsulin * 10)) / 10 |}.

(** *** Persistence: [exportData], [importData]

    The snapshot travels through [JSON.stringify] and [JSON.parse]: a [Date]
    is written as its ISO string and every other field as it is.  A stored
    event is therefore a serialized timestamp next to the remaining fields,
    and [{...r, timestamp: new Date(r.timestamp)}] puts a [Date] back. *)

Inductive IsoString := Iso (ms : Z).

(** [Date.prototype.toJSON] and [new Date(isoString)] *)
Definition toJSON (t : Date) : IsoString := Iso (getTime t).
Definition Date_parse (s : IsoString) : Date :=
  match s with Iso ms => mkDate ms end.

Definition payloadOfReading (r : GlucoseReading) : NewGlucoseReading :=
  {| new_bgl := bgl r; new_trend := trend r;
     new_insulinOnBoard := insulinOnBoard r; new_notes := gr_notes r |}.

Definition payloadOfMeal (m : MealLog) : NewMealLog :=
  {| new_description := description m; new_imageBase64 := imageBase64 m;
     new_carbs := carbs m; new_protein := protein m; new_fat := fat m;
     new_insulinDose := insulinDose m |}.

Definition payloadOfMedication (m : MedicationLog) : NewMedicationLog :=
  {| new_type := type m; new_units := units m; new_med_notes := med_notes m |}.

(** The parsed snapshot ([data: any]); an absent key is [None]. *)
Record Snapshot := mkSnapshot {
  snap_glucoseReadings : option (list (IsoString * NewGlucoseReading));
  snap_mealLogs : option (list (IsoString * NewMealLog));
  snap_medicationLogs : option (list (IsoString * NewMedicationLog));
  snap_agentInteractions : option (list (IsoString * (string * string * string)));
  snap_userProfile : option UserProfile;
  snap_emergencyDoctors : option (list string)
}.

(** [JSON.parse(JSON.stringify(dataStore.exportData()))] *)
Definition exportData (d : DataStore) : Snapshot :=
  {| snap_glucoseReadings :=
       Some (map (fun r => (toJSON (gr_timestamp r), payloadOfReading r))
                 (glucoseReadings d));
     snap_mealLogs :=
       Some (map (fun m => (toJSON (ml_timestamp m), payloadOfMeal m))
                 (mealLogs d));
     snap_medicationLogs :=
       Some (map (fun m => (toJSON (med_timestamp m), payloadOfMedication m))
                 (medicationLogs d));
     snap_agentInteractions :=
       Some (map (fun i => (toJSON (ai_timestamp i),
                            (agent i, message i, response i)))
                 (agentInteractions d));
     snap_userProfile := Some (userProfile d);
     snap_emergencyDoctors := Some (emergencyDoctors d) |}.

Definition restoreReading (e : IsoString * NewGlucoseReading) : GlucoseReading :=
  {| gr_timestamp := Date_parse (fst e);
     bgl := new_bgl (snd e);
     trend := new_trend (snd e);
     insulinOnBoard := new_insulinOnBoard (snd e);
     gr_notes := new_notes (snd e) |}.

Definition restoreMeal (e : IsoString * NewMealLog) : MealLog :=
  {| ml_timestamp := Date_parse (fst e);
     description := new_description (snd e);
     imageBase64 := new_imageBase64 (snd e);
     carbs := new_carbs (snd e);
     protein := new_protein (snd e);
     fat := new_fat (snd e);
     insulinDose := new_insulinDose (snd e) |}.

Definition restoreMedication (e : IsoString * NewMedicationLog) : MedicationLog :=
  {| med_timestamp := Date_parse (fst e);
     type := new_type (snd e);
     units := new_units (snd e);
     med_notes := new_med_notes (snd e) |}.

Definition restoreInteraction (e : IsoString * (string * string * string))
    : AgentInteraction :=
  let '(a, m, r) := snd e in
  {| ai_timestamp := Date_parse (fst e); agent := a; message := m;
     response := r |}.

(** [if (data.k) this.k = ...]: a present key replaces the field. *)
Definition orKeep {A B} (f : A -> B) (o : option A) (old : B) : B :=
  match o with Some v => f v | None => old end.

Definition importData (data : Snapshot) (d : DataStore) : DataStore :=
  {| glucoseReadings :=
       orKeep (map restoreReading) (snap_glucoseReadings data)
              (glucoseReadings d);
     mealLogs :=
       orKeep (map restoreMeal) (snap_mealLogs data) (mealLogs d);
     medicationLogs :=
       orKeep (map restoreMedication) (snap_medicationLogs data)
              (medicationLogs d);
     agentInteractions :=
       orKeep (map restoreInteraction) (snap_agentInteractions data)
              (agentInteractions d);
     userProfile := orKeep (fun p => p) (snap_userProfile data) (userProfile d);
     emergencyDoctors :=
       orKeep (fun l => l) (snap_emergencyDoctors data) (emergencyDoctors d) |}.

(** ** The Guardian: edge function and client ([guardian/index.ts],
       [agentService.ts]) *)

(** What the Guardian answers once [JSON.parse] has read it.  The fields are
    read dynamically, so each may be missing; [alert] is the truthiness of
    [analysis.alert]. *)
Record Analysis := mkAnalysis {
  alert : bool;
  severity : option string;
  prediction : option string;
  action : option string;
  reasoning : option string
}.

(** A text as [JSON.parse] sees it: a syntax error; a value whose
    properties can be read (an object, or a number, string, boolean or
    array, where every field is missing); or [null], which parses and whose
    properties cannot be read.  A message content that is itself [null]
    reaches the client as [null] and parses to [null] as well. *)
Inductive JsonText :=
| NotJSON (raw : string)
| JSONValue (a : Analysis)
| JSONNull.

(** The values interpolated into the user message of the chat request:
    [BGL=${bgl}], [Trend=${trend || "steady"}], [IOB=${insulinOnBoard || 0}]. *)
Record GuardianPrompt := mkGuardianPrompt {
  prompt_bgl : Q;
  prompt_trend : string;
  prompt_iob : Q
}.

(** The chat-completion service, an external collaborator: the request is
    rejected, or answered with a status and, when the status is ok, the
    message content. *)
Inductive GroqOutcome :=
| GroqRejected (reason : string)
| GroqReplied (status : Z) (content : JsonText).

(** [response.ok] *)
Definition ok (status : Z) : bool := ((200 <=? status) && (status <=? 299))%Z.

(** What a [fetch] of the client resolves to. *)
Inductive FetchOutcome (Body : Type) :=
| FetchRejected (reason : string)
| FetchResponse (status : Z) (body : Body).
Arguments FetchRejected {Body} reason.
Arguments FetchResponse {Body} status body.

Inductive GuardianBody :=
| body_analysis (analysis : JsonText)
| body_error (error : string).

Record GuardianRequest := mkGuardianRequest {
  req_bgl : Q;
  req_trend : string;
  req_insulinOnBoard : Q
}.

(** [x || "steady"] on a string *)
Definition orSteady (s : string) : string :=
  if String.eqb s "" then "steady"%string else s.

Section Runtime.

(** String conversions of the JavaScript runtime. *)
Variable Number_toString : Q -> string.
Variable JSON_stringify : Analysis -> string.

(** The handler passed to [serve] in [guardian/index.ts], for a POST
    request: every verdict is the chat model's, no threshold is applied
    here. *)
Definition guardianHandler (groq : GuardianPrompt -> GroqOutcome)
    (req : GuardianRequest) : Z * GuardianBody :=
  let prompt :=
    {| prompt_bgl := req_bgl req;
       prompt_trend := orSteady (req_trend req);
       prompt_iob := req_insulinOnBoard req |} in
  match groq prompt with
  | GroqRejected reason => (500%Z, body_error reason)
  | GroqReplied status content =>
      if negb (ok status)
      then (500%Z,
            body_error ("Groq API error: " ++ Number_toString (inject_Z status)))
      else (200%Z, body_analysis content)
  end.

(** The client reaches the deployed edge function. *)
Definition deployed (groq : GuardianPrompt -> GroqOutcome)
    (req : GuardianRequest) : FetchOutcome GuardianBody :=
  let '(status, body) := guardianHandler groq req in
  FetchResponse status body.

(** *** Effects of the client code

    Calls change the data store and the simulator, write to the console,
    post to the e-mail server and invoke the alert callback; they may
    throw.  What was done before a throw stays done. *)

Inductive Exn := Error (msg : string).

Inductive Level := error | warn | log.

Record EmailRequest := mkEmailRequest {
  patientName : string;
  email_bgl : Q;
  email_trend : string;
  alertType : string;
  email_timestamp : IsoString;
  doctorEmails : list string
}.

Record Alert := mkAlert {
  alert_severity : option string;
  alert_message : option string
}.

(** [type TrendType] and the fields of [class CGMSimulator].  The alert
    callback is given by what it does with an alert: return, or throw. *)
Inductive TrendType := steady | up | down | double_up | double_down.

Definition TrendType_toString (t : TrendType) : string :=
  match t with
  | steady => "steady"
  | up => "up"
  | down => "down"
  | double_up => "double_up"
  | double_down => "double_down"
  end.

Record CGMSimulator := mkCGMSimulator {
  isRunning : bool;
  currentBGL : Q;
  currentTrend : TrendType;
  intervalId : option Z;
  alertCallback : option (Alert -> option Exn)
}.

(** [new CGMSimulator()] *)
Definition newCGMSimulator : CGMSimulator :=
  {| isRunning := false; currentBGL := 120; currentTrend := steady;
     intervalId := None; alertCallback := None |}.

Record World := mkWorld {
  store : DataStore;
  simulator : CGMSimulator;
  console : list (Level * string);
  posted : list EmailRequest;
  notified : list Alert
}.

Definition Eff (A : Type) : Type := World -> (Exn + A) * World.

Definition ret {A} (a : A) : Eff A := fun w => (inr a, w).

Definition bind {A B} (c : Eff A) (k : A -> Eff B) : Eff B :=
  fun w =>
    match c w with
    | (inl e, w') => (inl e, w')
    | (inr a, w') => k a w'
    end.

Definition throw {A} (e : Exn) : Eff A := fun w => (inl e, w).

Definition tryCatch {A} (c : Eff A) (handler : Exn -> Eff A) : Eff A :=
  fun w =>
    match c w with
    | (inl e, w') => handler e w'
    | (inr a, w') => (inr a, w')
    end.

Definition onStore (f : DataStore -> DataStore) : Eff unit :=
  fun w => (inr tt, {| store := f (store w); simulator := simulator w;
                       console := console w; posted := posted w;
                       notified := notified w |}).

Definition readStore {A} (f : DataStore -> A) : Eff A :=
  fun w => (inr (f (store w)), w).

Definition onSimulator (f : CGMSimulator -> CGMSimulator) : Eff unit :=
  fun w => (inr tt, {| store := store w; simulator := f (simulator w);
                       console := console w; posted := posted w;
                       notified := notified w |}).

Definition readSimulator {A} (f : CGMSimulator -> A) : Eff A :=
  fun w => (inr (f (simulator w)), w).

Definition console_write (l : Level) (text : string) : Eff unit :=
  fun w => (inr tt, {| store := store w; simulator := simulator w;
                       console := console w ++ [(l, text)];
                       posted := posted w; notified := notified w |}).

Definition post (r : EmailRequest) : Eff unit :=
  fun w => (inr tt, {| store := store w; simulator := simulator w;
                       console := console w; posted := posted w ++ [r];
                       notified := notified w |}).

Definition notify (a : Alert) : Eff unit :=
  fun w => (inr tt, {| store := store w; simulator := simulator w;
                       console := console w; posted := posted w;
                       notified := notified w ++ [a] |}).

Definition when (b : bool) (c : Eff unit) : Eff unit :=
  if b then c else ret tt.

Notation "x <- c ;; k" := (bind c (fun x => k))
  (at level 61, c at next level, right associativity).
Notation "c ;;; k" := (bind c (fun _ => k))
  (at level 61, right associativity).

(** The inputs of one call: the clock, the local hour of day, the draws of
    [Math.random] in the order they are made, and what the two remote
    services answer. *)
Record Env := mkEnv {
  now : Z;
  getHours : Z;
  random : nat -> Q;
  guardian : GuardianRequest -> FetchOutcome GuardianBody;
  emailServer : EmailRequest -> FetchOutcome (option string)
}.

(** *** class AgentService *)

Record AgentResponse := mkAgentResponse {
  resp_agent : string;
  content : option string;
  metadata : option Analysis
}.

(** [a || b] on two optional strings: the empty string is falsy. *)
Definition orElse (a b : option string) : option string :=
  match a with
  | Some s => if String.eqb s "" then b else Some s
  | None => b
  end.

(** [x === "critical"] *)
Definition isCritical (s : option string) : bool :=
  match s with Some v => String.eqb v "critical" | None => false end.

(** [sendEmergencyAlert] (pictographs of the console texts left out).
    [None] as a response body is a body [response.json()] rejects. *)
Definition sendEmergencyAlert (env : Env) (bgl : Q) (trend : string)
    (analysis : Analysis) : Eff unit :=
  tryCatch
    (userProfile <- readStore getUserProfile ;;
     emergencyDoctors <- readStore getEmergencyDoctors ;;
     if (Z.of_nat (length emergencyDoctors) =? 0)%Z
     then console_write warn "No emergency doctors configured"
     else
       let alertType :=
         if ltb bgl 70 then "HYPOGLYCEMIA"%string else "HYPERGLYCEMIA"%string in
       let request :=
         {| patientName := name userProfile;
            email_bgl := bgl;
            email_trend := trend;
            alertType := alertType;
            email_timestamp := toJSON (mkDate (now env));
            doctorEmails := emergencyDoctors |} in
       post request ;;;
       match emailServer env request with
       | FetchRejected reason => throw (Error reason)
       | FetchResponse status body =>
           if ok status then
             match body with
             | None => throw (Error "SyntaxError")
             | Some result =>
                 console_write log "Emergency alert sent successfully:"
             end
           else
             console_write warn
               ("Email alert failed (HTTP "
                  ++ Number_toString (inject_Z status) ++ ")") ;;;
             console_write log
               "Make sure email server is running: npm run email-server"
       end)
    (fun _ =>
       console_write warn "Email server not running" ;;;
       console_write log "Emergency contacts:" ;;;
       console_write log "Critical alert:" ;;;
       console_write log "Start email server with: npm run email-server").

(** [callGuardian]: the verdict is read off the Guardian's answer.  The
    interaction is recorded as soon as the answer has parsed, before its
    fields are read. *)
Definition callGuardian (env : Env) (bgl : Q) (trend : string)
    (insulinOnBoard : Q) : Eff AgentResponse :=
  tryCatch
    (match guardian env {| req_bgl := bgl; req_trend := trend;
                           req_insulinOnBoard := insulinOnBoard |} with
     | FetchRejected reason => throw (Error reason)
     | FetchResponse status body =>
         if negb (ok status)
         then throw (Error ("Guardian error: "
                              ++ Number_toString (inject_Z status)))
         else
           match body with
           | body_error _ => throw (Error "SyntaxError")
           | body_analysis (NotJSON _) => throw (Error "SyntaxError")
           | body_analysis (JSONValue analysis) =>
               onStore
                 (addAgentInteraction (now env) "guardian"
                    ("BGL: " ++ Number_toString bgl ++ ", Trend: " ++ trend
                       ++ ", IOB: " ++ Number_toString insulinOnBoard)
                    (JSON_stringify analysis)) ;;;
               when (alert analysis && isCritical (severity analysis))
                    (sendEmergencyAlert env bgl trend analysis) ;;;
               ret {| resp_agent := "guardian";
                      content := orElse (action analysis) (prediction analysis);
                      metadata := Some analysis |}
           | body_analysis JSONNull =>
               (* [JSON.stringify(null)] is recorded, then [analysis.alert]
                  throws *)
               onStore
                 (addAgentInteraction (now env) "guardian"
                    ("BGL: " ++ Number_toString bgl ++ ", Trend: " ++ trend
                       ++ ", IOB: " ++ Number_toString insulinOnBoard)
                    "null") ;;;
               throw (Error "TypeError")
           end
     end)
    (fun e => console_write error "Guardian error:" ;;; throw e).

(** *** class CGMSimulator ([cgmSimulator.ts]) *)

(** The "time of day effects" of [calculateChange], drawn with [r]. *)
Definition baseChange (hour : Z) (r : Q) : Q :=
  if ((6 <=? hour) && (hour <=? 8))%Z then
    r * 3 + 1
  else if ((12 <=? hour) && (hour <=? 13))%Z then
    r * 2
  else
    (r - (1 # 2)) * 2.

Definition calculateChange (env : Env) (sim : CGMSimulator) (d : DataStore)
    : Q :=
  let hour := getHours env in
  let meals := getMealLogs (now env) 1 d in
  let recentMeal := (0 <? Z.of_nat (length meals))%Z in
  let change := baseChange hour (random env 0%nat) in
  let '(change, drawn) :=
    if recentMeal
    then (change + (random env 1%nat * 5 + 2), 2%nat)
    else (change, 1%nat) in
  let iob := getInsulinOnBoard (now env) d in
  let change := change - iob * (1 # 2) in
  let change :=
    if gtb (currentBGL sim) 180 then change - 1
    else if ltb (currentBGL sim) 80 then change + 1
    else change in
  change + (random env drawn - (1 # 2)) * 2.

Definition set_currentBGL (v : Q) (sim : CGMSimulator) : CGMSimulator :=
  {| isRunning := isRunning sim; currentBGL := v;
     currentTrend := currentTrend sim; intervalId := intervalId sim;
     alertCallback := alertCallback sim |}.

Definition set_currentTrend (t : TrendType) (sim : CGMSimulator)
    : CGMSimulator :=
  {| isRunning := isRunning sim; currentBGL := currentBGL sim;
     currentTrend := t; intervalId := intervalId sim;
     alertCallback := alertCallback sim |}.

Definition updateTrend (change : Q) (sim : CGMSimulator) : CGMSimulator :=
  let rate := change / 5 in
  if gtb rate 2 then
    set_currentTrend double_up sim
  else if gtb rate 1 then
    set_currentTrend up sim
  else if ltb rate (-2) then
    set_currentTrend double_down sim
  else if ltb rate (-1) then
    set_currentTrend down sim
  else
    set_currentTrend steady sim.

(** [if (response.metadata?.alert && this.alertCallback) this.alertCallback({...})] *)
Definition raiseAlert (response : AgentResponse) : Eff unit :=
  callback <- readSimulator alertCallback ;;
  match metadata response, callback with
  | Some m, Some f =>
      if alert m then
        let a := {| alert_severity := severity m;
                    alert_message := content response |} in
        notify a ;;;
        match f a with
        | Some e => throw e
        | None => ret tt
        end
      else ret tt
  | _, _ => ret tt
  end.

Definition generateReading (env : Env) : Eff unit :=
  sim <- readSimulator (fun s => s) ;;
  change <- readStore (calculateChange env sim) ;;
  onSimulator
    (set_currentBGL (Math_max 40 (Math_min 400 (currentBGL sim + change)))) ;;;
  onSimulator (updateTrend change) ;;;
  sim <- readSimulator (fun s => s) ;;
  iob <- readStore (getInsulinOnBoard (now env)) ;;
  let reading :=
    {| new_bgl := inject_Z (Math_round (currentBGL sim));
       new_trend := TrendType_toString (currentTrend sim);
       new_insulinOnBoard := iob;
       new_notes := None |} in
  onStore (addGlucoseReading (now env) reading) ;;;
  tryCatch
    (response <- callGuardian env (new_bgl reading) (new_trend reading)
                              (new_insulinOnBoard reading) ;;
     raiseAlert response)
    (fun _ => console_write error "Guardian check failed:").

(** [addManualReading]; the promise chain [.then(...).catch(...)] is run
    in place. *)
Definition addManualReading (env : Env) (bgl : Q) (trend : TrendType)
    (insulinOnBoard : Q) : Eff unit :=
  onSimulator (set_currentBGL bgl) ;;;
  onSimulator (set_currentTrend trend) ;;;
  onStore
    (addGlucoseReading (now env)
       {| new_bgl := bgl;
          new_trend := TrendType_toString trend;
          new_insulinOnBoard := insulinOnBoard;
          new_notes := None |}) ;;;
  tryCatch
    (response <- callGuardian env bgl (TrendType_toString trend)
                              insulinOnBoard ;;
     raiseAlert response)
    (fun _ => console_write error "Guardian check failed:").

End Runtime.

(** ** Sums and sequences of appends *)

(** Sum of [f] over a list, as [reduce((total, m) => total + f(m), 0)]
    computes it. *)
Fixpoint sumQ {A} (f : A -> Q) (l : list A) : Q :=
  match l with
  | [] => 0
  | x :: l' => f x + sumQ f l'
  end.

(** A sequence of [addGlucoseReading] calls, each with the clock value it
    read. *)
Definition appendAll (events : list (Z * NewGlucoseReading)) (d : DataStore)
    : DataStore :=
  fold_left (fun d e => addGlucoseReading (fst e) (snd e) d) events d.

Definition stampAll (events : list (Z * NewGlucoseReading))
    : list GlucoseReading :=
  map (fun e => stampReading (fst e) (snd e)) events.

(** Doses in whole steps: every dose is a non-negative whole number of
    [step]s and the total is at most a million units.  For steps of a half
    or a quarter unit, such amounts, their sums and ten times their sums
    are numbers that binary floating point holds exactly. *)
Definition stepsOf (step : Q) (meds : list MedicationLog) : Prop :=
  Forall (fun m => exists k : Z, (0 <= k)%Z /\ units m == inject_Z k * step)
         meds /\
  sumQ units meds <= 1000000.

(** The newest 1000 entries of a list in storage order. *)
Definition newest1000 {A} (l : list A) : list A :=
  skipn (length l - 1000) l.

(** ** The insulin decay estimator in the words of the specification *)

Module IOB.

(** The estimator as the specification words it. *)

(** [ACTIVE_WINDOW]: five hours, in milliseconds. *)
Definition ACTIVE_WINDOW : Z := (5 * msPerHour)%Z.

(** [now - dose.timestamp] *)
Definition age (now : Z) (dose : MedicationLog) : Z :=
  (now - getTime (med_timestamp dose))%Z.

(** A dose counts when it is a bolus whose age is at most the window. *)
Definition qualifies (now : Z) (dose : MedicationLog) : bool :=
  MedicationType_eqb (type dose) bolus && (age now dose <=? ACTIVE_WINDOW)%Z.

(** [units * max(0, (ACTIVE_WINDOW - age) / ACTIVE_WINDOW)] *)
Definition remaining (now : Z) (dose : MedicationLog) : Q :=
  units dose *
  Qmax 0 ((inject_Z ACTIVE_WINDOW - inject_Z (age now dose))
            / inject_Z ACTIVE_WINDOW).

(** What one dose adds to the total. *)
Definition contribution (now : Z) (dose : MedicationLog) : Q :=
  if qualifies now dose then remaining now dose else 0.

(** The total over the qualifying doses. *)
Definition computeIOB (now : Z) (doseHistory : list MedicationLog) : Q :=
  sumQ (remaining now) (filter (qualifies now) doseHistory).

End IOB.

(** ** Outcomes of a call *)

(** A call that threw [e] after writing the console line [line], with
    the store, the simulator and the alerts as they were. *)
Definition threw {A} (r : (Exn + A) * World) (w : World) (line : string)
    : Prop :=
  exists e w',
    r = (inl e, w') /\ store w' = store w /\ simulator w' = simulator w /\
    notified w' = notified w /\ posted w' = posted w /\
    console w' = console w ++ [(error, line)].

(** A call that threw after writing [line] and left [recorded] as the
    store, with the simulator, the alerts and the posted requests as they
    were. *)
Definition threwRecorded {A} (r : (Exn + A) * World) (w : World)
    (line : string) (recorded : DataStore) : Prop :=
  exists e w',
    r = (inl e, w') /\ store w' = recorded /\ simulator w' = simulator w /\
    notified w' = notified w /\ posted w' = posted w /\
    console w' = console w ++ [(error, line)].

(** A call that threw after writing [line]; the store is as it was except,
    possibly, for its agent interactions. *)
Definition failed {A} (r : (Exn + A) * World) (w : World) (line : string)
    : Prop :=
  exists e w',
    r = (inl e, w') /\
    glucoseReadings (store w') = glucoseReadings (store w) /\
    mealLogs (store w') = mealLogs (store w) /\
    medicationLogs (store w') = medicationLogs (store w) /\
    userProfile (store w') = userProfile (store w) /\
    emergencyDoctors (store w') = emergencyDoctors (store w) /\
    simulator w' = simulator w /\
    notified w' = notified w /\ posted w' = posted w /\
    console w' = console w ++ [(error, line)].

(** A call that returned [a], leaving the readings, the simulator and the
    alerts as they were. *)
Definition returned {A} (r : (Exn + A) * World) (w : World) (a : A) : Prop :=
  exists w',
    r = (inr a, w') /\
    glucoseReadings (store w') = glucoseReadings (store w) /\
    simulator w' = simulator w /\ notified w' = notified w.

Definition responseOf (a : Analysis) : AgentResponse :=
  {| resp_agent := "guardian";
     content := orElse (action a) (prediction a);
     metadata := Some a |}.

(** An answer of the Guardian service that [callGuardian] cannot use: the
    request was rejected, the status is not ok, or the body holds no
    analysis that parses to a value whose properties can be read. *)
Definition unreadable (o : FetchOutcome GuardianBody) : bool :=
  match o with
  | FetchRejected _ => true
  | FetchResponse status (body_analysis (JSONValue _)) => negb (ok status)
  | FetchResponse _ _ => true
  end.

(** The e-mail server cannot be reached. *)
Definition rejected {Body} (o : FetchOutcome Body) : bool :=
  match o with
  | FetchRejected _ => true
  | FetchResponse _ _ => false
  end.

(** ** The alert decision table in the words of the specification *)

Inductive Tier :=
| tier_none
| tier_warning
| tier_critical_hypoglycemia
| tier_critical_hyperglycemia.

(** First match wins, most severe first. *)
Definition decisionTable (bgl : Q) (trend : string) : Tier :=
  if ltb bgl 70 || String.eqb trend "double_down" then
    tier_critical_hypoglycemia
  else if gtb bgl 250 || String.eqb trend "double_up" then
    tier_critical_hyperglycemia
  else if (geb bgl 70 && ltb bgl 80) || (gtb bgl 180 && leb bgl 250) then
    tier_warning
  else
    tier_none.

(** The tier an answer of the Guardian stands for, when it names one. *)
Definition tierOf (bgl : Q) (a : Analysis) : option Tier :=
  match severity a with
  | Some s =>
      if String.eqb s "critical" then
        Some (if ltb bgl 70 then tier_critical_hypoglycemia
              else tier_critical_hyperglycemia)
      else if String.eqb s "warning" then Some tier_warning
      else if String.eqb s "normal" then Some tier_none
      else None
  | None => None
  end.

(** The value domain of a stored reading: a whole number in [40, 400]. *)
Definition inClampedDomain (r : GlucoseReading) : Prop :=
  exists n : Z, bgl r == inject_Z n /\ (40 <= n <= 400)%Z.

(** The tier of the verdict [callGuardian] returns, if it returns one. *)
Definition verdictTier (Number_toString : Q -> string)
    (JSON_stringify : Analysis -> string) (env : Env) (bgl : Q)
    (trend : string) (iob : Q) (w : World) : option Tier :=
  match fst (callGuardian Number_toString JSON_stringify env bgl trend iob w) with
  | inr response =>
      match metadata response with
      | Some a => tierOf bgl a
      | None => None
      end
  | inl _ => None
  end.

(** ** Sample data *)

Definition freshWorld : World :=
  {| store := newDataStore; simulator := newCGMSimulator; console := [];
     posted := []; notified := [] |}.

(** A chat model that looks at the insulin on board only. *)
Definition iobMindedGroq (p : GuardianPrompt) : GroqOutcome :=
  if gtb (prompt_iob p) 1 then
    GroqReplied 200
      (JSONValue {| alert := true; severity := Some "warning"%string;
                    prediction := None; action := Some "monitor closely"%string;
                    reasoning := None |})
  else
    GroqReplied 200
      (JSONValue {| alert := false; severity := Some "normal"%string;
                    prediction := Some "stable"%string; action := None;
                    reasoning := None |}).

Definition plainNumber (q : Q) : string := "n".
Definition plainJSON (a : Analysis) : string := "{}".

(** Midnight, a silent random source, the edge function in front of
    [iobMindedGroq], no e-mail server. *)
Definition sampleEnv : Env :=
  {| now := 0; getHours := 0; random := fun _ => 0;
     guardian := deployed plainNumber iobMindedGroq;
     emailServer := fun _ => FetchRejected "offline" |}.

(** Nothing can be reached. *)
Definition offlineEnv : Env :=
  {| now := 0; getHours := 0; random := fun _ => 0;
     guardian := fun _ => FetchRejected "offline";
     emailServer := fun _ => FetchRejected "offline" |}.

Definition readingOf (t : Z) (v : Q) : GlucoseReading :=
  {| gr_timestamp := mkDate t; bgl := v; trend := "steady";
     insulinOnBoard := 0; gr_notes := None |}.

Definition doseOf (t : Z) (k : MedicationType) (u : Q) : MedicationLog :=
  {| med_timestamp := mkDate t; type := k; units := u; med_notes := None |}.

(** Five readings of 70, 100, 100, 190 and 300 mg/dL, one a day. *)
Definition fiveReadings : DataStore :=
  set_glucoseReadings
    [readingOf 0 70; readingOf 86400000 100; readingOf 172800000 100;
     readingOf 259200000 190; readingOf 345600000 300]
    newDataStore.

(** Doses but no reading. *)
Definition dosesOnly : DataStore :=
  set_medicationLogs [doseOf 0 bolus 5; doseOf 0 basal 24] newDataStore.

(** One reading and a quarter unit of insulin. *)
Definition quarterUnit : DataStore :=
  set_medicationLogs [doseOf 0 bolus (1 # 4)]
    (set_glucoseReadings [readingOf 0 100] newDataStore).

(** One reading, four and a half units of bolus and 24 units of basal
    insulin. *)
Definition halfUnits : DataStore :=
  set_medicationLogs [doseOf 0 bolus (9 # 2); doseOf 0 basal 24]
    (set_glucoseReadings [readingOf 0 100] newDataStore).

(** A snapshot of 1001 readings, one a minute. *)
Definition longSnapshot : Snapshot :=
  {| snap_glucoseReadings :=
       Some (map (fun i => (Iso (Z.of_nat i * 60000),
                            mkNewGlucoseReading 100 "steady" 0 None))
                 (seq 0 1001));
     snap_mealLogs := None;
     snap_medicationLogs := None;
     snap_agentInteractions := None;
     snap_userProfile := None;
     snap_emergencyDoctors := None |}.

(** The same 1001 readings as a sequence of appends. *)
Definition longEvents : list (Z * NewGlucoseReading) :=
  map (fun i => ((Z.of_nat i * 60000)%Z,
                 mkNewGlucoseReading 100 "steady" 0 None))
      (seq 0 1001).

(** Five o'clock in the morning, the random source at its lowest. *)
Definition fiveAM : Env :=
  {| now := 0; getHours := 5; random := fun _ => 0;
     guardian := fun _ => FetchRejected "offline";
     emailServer := fun _ => FetchRejected "offline" |}.

(** A history with a basal dose, a fresh bolus and an old bolus, read one
    hour after the fresh one. *)
Definition sampleDoses : DataStore :=
  set_medicationLogs
    [ {| med_timestamp := mkDate 0; type := basal; units := 24;
         med_notes := None |};
      {| med_timestamp := mkDate 0; type := bolus; units := 4;
         med_notes := None |};
      {| med_timestamp := mkDate (-36000000); type := bolus; units := 6;
         med_notes := None |} ]
    newDataStore.

(** * Further operations of the same files *)

(** ** class DataStore, continued *)

(** [Array.prototype.slice(start)] for an integer [start]: a negative start
    counts from the end. *)
Definition slice {A} (start : Z) (l : list A) : list A :=
  let len := Z.of_nat (length l) in
  let k := if (start <? 0)%Z then Z.max (len + start) 0 else Z.min start len in
  skipn (Z.to_nat k) l.

(** [getAgentInteractions(limit)]: [this.agentInteractions.slice(-limit)] *)
Definition getAgentInteractions (limit : Z) (d : DataStore)
    : list AgentInteraction :=
  slice (- limit) (agentInteractions d).

Definition set_emergencyDoctors (l : list string) (d : DataStore) :=
  {| glucoseReadings := glucoseReadings d;
     mealLogs := mealLogs d;
     medicationLogs := medicationLogs d;
     agentInteractions := agentInteractions d;
     userProfile := userProfile d;
     emergencyDoctors := l |}.

(** [this.emergencyDoctors.includes(email)] *)
Definition includesEmail (email : string) (l : list string) : bool :=
  existsb (String.eqb email) l.

Definition addEmergencyDoctor (email : string) (d : DataStore) : DataStore :=
  if negb (includesEmail email (emergencyDoctors d))
  then set_emergencyDoctors (emergencyDoctors d ++ [email]) d
  else d.

Definition removeEmergencyDoctor (email : string) (d : DataStore) : DataStore :=
  set_emergencyDoctors
    (filter (fun e => negb (String.eqb e email)) (emergencyDoctors d)) d.

(** [clearOldData(days)] *)
Definition clearOldData (now : Z) (days : Q) (d : DataStore) : DataStore :=
  let cutoff := new_Date (inject_Z now - days * 24 * 60 * 60 * 1000) in
  {| glucoseReadings :=
       filter (fun r => Date_geb (gr_timestamp r) cutoff) (glucoseReadings d);
     mealLogs := filter (fun m => Date_geb (ml_timestamp m) cutoff) (mealLogs d);
     medicationLogs :=
       filter (fun m => Date_geb (med_timestamp m) cutoff) (medicationLogs d);
     agentInteractions :=
       filter (fun i => Date_geb (ai_timestamp i) cutoff) (agentInteractions d);
     userProfile := userProfile d;
     emergencyDoctors := emergencyDoctors d |}.

Record AgentContext := mkAgentContext {
  recentReadings : list GlucoseReading;
  recentMeals : list MealLog;
  currentIOB : Q;
  profile : UserProfile;
  statistics : Statistics
}.

Definition getAgentContext (now : Z) (d : DataStore) : AgentContext :=
  {| recentReadings := getGlucoseReadings now 4 d;
     recentMeals := getMealLogs now 8 d;
     currentIOB := getInsulinOnBoard now d;
     profile := getUserProfile d;
     statistics := getStatistics now 168 d |}.

(** ** class CGMSimulator, continued *)

Record CurrentReading := mkCurrentReading {
  cur_bgl : Z;
  cur_trend : TrendType;
  cur_insulinOnBoard : Q
}.

Definition getCurrentReading (now : Z) (sim : CGMSimulator) (d : DataStore)
    : CurrentReading :=
  {| cur_bgl := Math_round (currentBGL sim);
     cur_trend := currentTrend sim;
     cur_insulinOnBoard := getInsulinOnBoard now d |}.

(** ** class AgentService, continued *)

(** The body of the POST that [sendEmergencyAlert] makes. *)
Definition emergencyRequest (env : Env) (bgl : Q) (trend : string)
    (d : DataStore) : EmailRequest :=
  {| patientName := name (getUserProfile d);
     email_bgl := bgl;
     email_trend := trend;
     alertType :=
       if ltb bgl 70 then "HYPOGLYCEMIA"%string else "HYPERGLYCEMIA"%string;
     email_timestamp := toJSON (mkDate (now env));
     doctorEmails := getEmergencyDoctors d |}.

(** The e-mail requests [callGuardian] posts for a usable answer. *)
Definition requestsFor (env : Env) (bgl : Q) (trend : string) (a : Analysis)
    (d : DataStore) : list EmailRequest :=
  if alert a && isCritical (severity a)
     && negb (Z.of_nat (length (emergencyDoctors d)) =? 0)%Z
  then [emergencyRequest env bgl trend d] else [].

(** The interaction [callGuardian] records for an answer. *)
Definition guardianInteraction (Number_toString : Q -> string)
    (JSON_stringify : Analysis -> string) (env : Env) (bgl : Q)
    (trend : string) (iob : Q) (a : Analysis) (d : DataStore) : DataStore :=
  addAgentInteraction (now env) "guardian"
    ("BGL: " ++ Number_toString bgl ++ ", Trend: " ++ trend
       ++ ", IOB: " ++ Number_toString iob)
    (JSON_stringify a) d.

(** The interaction [callGuardian] records for an answer that parsed to
    [null]. *)
Definition guardianNullInteraction (Number_toString : Q -> string) (env : Env)
    (bgl : Q) (trend : string) (iob : Q) (d : DataStore) : DataStore :=
  addAgentInteraction (now env) "guardian"
    ("BGL: " ++ Number_toString bgl ++ ", Trend: " ++ trend
       ++ ", IOB: " ++ Number_toString iob)
    "null" d.

(** The interaction [callGuardian] records: the agent, the three values
    and the text of the answer, stamped with the clock. *)
Definition guardianEntry (Number_toString : Q -> string) (env : Env)
    (bgl : Q) (trend : string) (iob : Q) (text : string) : AgentInteraction :=
  {| ai_timestamp := mkDate (now env);
     agent := "guardian";
     message := "BGL: " ++ Number_toString bgl ++ ", Trend: " ++ trend
                  ++ ", IOB: " ++ Number_toString iob;
     response := text |}.

(** The alerts [raiseAlert] hands to the callback for a response. *)
Definition alertsOf (response : AgentResponse)
    (callback : option (Alert -> option Exn)) : list Alert :=
  match metadata response, callback with
  | Some m, Some _ =>
      if alert m
      then [{| alert_severity := severity m;
               alert_message := content response |}]
      else []
  | _, _ => []
  end.

(** [String.prototype.includes] *)
Fixpoint includes (s sub : string) : bool :=
  if String.prefix sub s then true
  else match s with
       | EmptyString => false
       | String _ rest => includes rest sub
       end.

(** Truthiness of an optional string: absent and empty are falsy. *)
Definition truthy (o : option string) : bool :=
  match o with
  | Some s => negb (String.eqb s "")
  | None => false
  end.

(** Where [callOrchestrator] sends a message before it asks the
    orchestrator function: the keyword routing at the head of the method,
    on the lower-cased message. *)
Inductive Route :=
| ToNutritionist
| ToCoach
| ToSecretary
| ToGuardian (bgl : Q) (trend : string) (insulinOnBoard : Q)
| ToOrchestrator.

Definition directRoute (messageLower : string) (imageBase64 : option string)
    (now : Z) (d : DataStore) : Route :=
  let context := getAgentContext now d in
  if truthy imageBase64 || includes messageLower "meal"
     || includes messageLower "food" || includes messageLower "carb"
     || includes messageLower "insulin dose"
  then ToNutritionist
  else if includes messageLower "trend" || includes messageLower "pattern"
          || includes messageLower "week" || includes messageLower "exercise"
          || includes messageLower "lifestyle" || includes messageLower "sleep"
  then ToCoach
  else if includes messageLower "doctor" || includes messageLower "report"
          || includes messageLower "email" || includes messageLower "send"
  then ToSecretary
  else if includes messageLower "glucose" || includes messageLower "bgl"
          || includes messageLower "sugar" || includes messageLower "alert"
  then
    match nth_error (recentReadings context)
                    (length (recentReadings context) - 1) with
    | Some latest =>
        ToGuardian (bgl latest) (trend latest) (currentIOB context)
    | None => ToOrchestrator
    end
  else ToOrchestrator.

(** ** The quick actions and the doctor contacts (components) *)

Inductive Toast :=
| toast_error (text : string)
| toast_success (text : string)
| toast_logged_insulin (units : Q).

(** [handleLogInsulin]: [parsed] is what [parseFloat] made of the input,
    [None] for NaN; [toast_logged_insulin units] is the success toast
    "Logged ${units} units of insulin". *)
Definition handleLogInsulin (now : Z) (parsed : option Q) (d : DataStore)
    : DataStore * Toast :=
  match parsed with
  | None => (d, toast_error "Please enter a valid insulin amount")
  | Some units =>
      if Qeq_bool units 0 || leb units 0
      then (d, toast_error "Please enter a valid insulin amount")
      else (addMedicationLog now
              {| new_type := bolus; new_units := units;
                 new_med_notes := None |} d,
            toast_logged_insulin units)
  end.

(** [handleRemoveDoctor]: [doctors] is the list the component shows; the
    result is the store and the list shown afterwards. *)
Definition handleRemoveDoctor (email : string) (doctors : list string)
    (d : DataStore) : DataStore * list string * Toast :=
  if (Z.of_nat (length doctors) =? 1)%Z
  then (d, doctors,
        toast_error "You must have at least one emergency contact")
  else
    let d' := removeEmergencyDoctor email d in
    (d', getEmergencyDoctors d',
     toast_success "Doctor removed from emergency contacts").

(** ** class TestDataGenerator: the value helpers *)

(** [generateRealisticBGL(hour, minute)], drawn with [r]. *)
Definition generateRealisticBGL (hour minute : Z) (r : Q) : Z :=
  let base := 120 in
  let base := if ((5 <=? hour) && (hour <? 8))%Z then base + 20 else base in
  let base :=
    if (((8 <=? hour) && (hour <=? 9)) || ((12 <=? hour) && (hour <=? 13))
        || ((18 <=? hour) && (hour <=? 19)))%Z
    then base + 40 else base in
  let base := if ((22 <=? hour) || (hour <? 6))%Z then base - 10 else base in
  let variation := (r - (1 # 2)) * 30 in
  let result := Math_max 60 (Math_min 250 (base + variation)) in
  Math_round result.

(** [calculateTrend(bgl)], drawn with [r]. *)
Definition calculateTrend (bgl : Q) (r : Q) : string :=
  if ltb bgl 80 then (if gtb r (1 # 2) then "down" else "steady")
  else if gtb bgl 180 then (if gtb r (1 # 2) then "up" else "steady")
  else "steady".

(** A sequence of insulin entries through the quick action. *)
Definition logInsulinAll (entries : list (Z * option Q)) (d : DataStore)
    : DataStore :=
  fold_left (fun d e => fst (handleLogInsulin (fst e) (snd e) d)) entries d.

(** ** The glucose monitor (component) *)

Inductive AnalysisToast :=
| toast_missing_reading
| toast_alert (content : option string) (reasoning : option string)
| toast_analyzed (description : string)
| toast_failed.

(** [analyzeBgl]: [bglInput] is [None] for an empty input field and the
    parsed number otherwise; [iobInput] is what [parseFloat] made of the
    insulin field, [None] for NaN.  The result is the toast shown; the
    component's own state (busy flag, last reading, input fields) is left
    out, and the pending Guardian check of [addManualReading] is run in
    place before the component's own call. *)
Definition analyzeBgl (Number_toString : Q -> string)
    (JSON_stringify : Analysis -> string) (env : Env) (bglInput : option Q)
    (trend : TrendType) (iobInput : option Q) : Eff AnalysisToast :=
  match bglInput with
  | None => ret toast_missing_reading
  | Some bgl =>
      tryCatch
        (bind (readStore (getInsulinOnBoard (now env))) (fun live =>
         let iob :=
           match iobInput with
           | Some v => if Qeq_bool v 0 then live else v
           | None => live
           end in
         bind (addManualReading Number_toString JSON_stringify env bgl trend iob)
           (fun _ =>
         bind (callGuardian Number_toString JSON_stringify env bgl
                 (TrendType_toString trend) iob)
           (fun response =>
         ret (match metadata response with
              | Some m =>
                  if alert m
                  then toast_alert (content response) (reasoning m)
                  else toast_analyzed
                         (match orElse (prediction m) None with
                          | Some p => p
                          | None => "Level within acceptable range"%string
                          end)
              | None => toast_analyzed "Level within acceptable range"
              end)))))
        (fun _ =>
           bind (console_write error "Guardian analysis error:")
                (fun _ => ret toast_failed))
  end.

(** ** More sample data *)

Definition criticalAnswer : Analysis :=
  {| alert := true; severity := Some "critical"%string; prediction := None;
     action := Some "consume 15g fast carbs"%string; reasoning := None |}.

(** A Guardian that answers every request with [criticalAnswer]; no e-mail
    server. *)
Definition alarmEnv : Env :=
  {| now := 0; getHours := 0; random := fun _ => 0;
     guardian := fun _ => FetchResponse 200 (body_analysis (JSONValue criticalAnswer));
     emailServer := fun _ => FetchRejected "offline" |}.

(** A new store and a simulator with an alert callback that returns. *)
Definition watchedWorld : World :=
  {| store := newDataStore;
     simulator :=
       {| isRunning := true; currentBGL := 120; currentTrend := steady;
          intervalId := Some 1%Z; alertCallback := Some (fun _ => None) |};
     console := []; posted := []; notified := [] |}.

(** A new store and a simulator with an alert callback that throws. *)
Definition fragileWorld : World :=
  {| store := newDataStore;
     simulator :=
       {| isRunning := true; currentBGL := 120; currentTrend := steady;
          intervalId := Some 1%Z;
          alertCallback := Some (fun _ => Some (Error "toast failed")) |};
     console := []; posted := []; notified := [] |}.

(** * Properties *)

(** ** Comparisons and rounding *)

Lemma leb_le x y : leb x y = true <-> x <= y.
Proof. apply Qle_bool_iff. Qed.

Lemma ltb_lt x y : ltb x y = true <-> x < y.
Proof.
  unfold ltb. rewrite negb_true_iff. split.
  - intros H. apply Qnot_le_lt. intros Hle.
    apply Qle_bool_iff in Hle. congruence.
  - intros H. destruct (Qle_bool y x) eqn:E; [|reflexivity].
    apply Qle_bool_iff in E. exfalso. apply (Qlt_not_le _ _ H E).
Qed.

Lemma leb_nle x y : leb x y = false <-> y < x.
Proof.
  rewrite <- ltb_lt. unfold ltb, leb.
  destruct (Qle_bool x y); simpl; intuition congruence.
Qed.

Lemma ltb_nlt x y : ltb x y = false <-> y <= x.
Proof.
  rewrite <- leb_le. unfold ltb, leb.
  destruct (Qle_bool y x); simpl; intuition congruence.
Qed.

Lemma Math_max_spec x y : Math_max x y == Qmax x y.
Proof.
  unfold Math_max. destruct (leb x y) eqn:E.
  - apply leb_le in E. symmetry. apply Q.max_r. exact E.
  - apply leb_nle in E. symmetry. apply Q.max_l. apply Qlt_le_weak. exact E.
Qed.

Lemma Math_max_lb_l x y : x <= Math_max x y.
Proof.
  unfold Math_max. destruct (leb x y) eqn:E.
  - apply leb_le in E. exact E.
  - apply Qle_refl.
Qed.

Lemma Math_max_lb_r x y : y <= Math_max x y.
Proof.
  unfold Math_max. destruct (leb x y) eqn:E.
  - apply Qle_refl.
  - apply leb_nle in E. apply Qlt_le_weak. exact E.
Qed.

Lemma Math_min_ub_r x y : Math_min x y <= y.
Proof.
  unfold Math_min. destruct (leb x y) eqn:E.
  - apply leb_le in E. exact E.
  - apply Qle_refl.
Qed.

Lemma Math_min_ub_l x y : Math_min x y <= x.
Proof.
  unfold Math_min. destruct (leb x y) eqn:E.
  - apply Qle_refl.
  - apply leb_nle in E. apply Qlt_le_weak. exact E.
Qed.

Lemma Math_max_lub x y z : x <= z -> y <= z -> Math_max x y <= z.
Proof. intros Hx Hy. unfold Math_max. destruct (leb x y); assumption. Qed.

(** [Math.max(40, Math.min(400, x))] lies in [40, 400]. *)
Lemma clamp_bounds x :
  40 <= Math_max 40 (Math_min 400 x) /\ Math_max 40 (Math_min 400 x) <= 400.
Proof.
  split; [apply Math_max_lb_l|].
  apply Math_max_lub; [discriminate|apply Math_min_ub_l].
Qed.

Lemma Math_round_Qeq x y : x == y -> Math_round x = Math_round y.
Proof. intros E. unfold Math_round. rewrite E. reflexivity. Qed.

(** Rounding keeps a value inside an interval with integer end points. *)
Lemma Math_round_between (lo hi : Z) (x : Q) :
  inject_Z lo <= x -> x <= inject_Z hi -> (lo <= Math_round x <= hi)%Z.
Proof.
  intros Hlo Hhi. unfold Math_round. split.
  - rewrite <- (Qfloor_Z lo). apply Qfloor_resp_le. lra.
  - assert (H : (Qfloor (x + (1 # 2)) < hi + 1)%Z).
    { rewrite Zlt_Qlt.
      apply Qle_lt_trans with (x + (1 # 2)); [apply Qfloor_le|].
      rewrite inject_Z_plus. change (inject_Z 1) with 1. lra. }
    lia.
Qed.

(** ** Trend classification *)

Lemma gtb_gt x y : gtb x y = true <-> y < x.
Proof. apply ltb_lt. Qed.

Lemma gtb_ngt x y : gtb x y = false <-> x <= y.
Proof. apply ltb_nlt. Qed.

(** Turn every boolean comparison among the hypotheses into its order fact. *)
Ltac order_facts :=
  repeat match goal with
  | H : gtb _ _ = true |- _ => apply gtb_gt in H
  | H : gtb _ _ = false |- _ => apply gtb_ngt in H
  | H : ltb _ _ = true |- _ => apply ltb_lt in H
  | H : ltb _ _ = false |- _ => apply ltb_nlt in H
  | H : leb _ _ = true |- _ => apply leb_le in H
  | H : leb _ _ = false |- _ => apply leb_nle in H
  | H : geb _ _ = true |- _ => apply leb_le in H
  | H : geb _ _ = false |- _ => apply leb_nle in H
  end.

(** The trend that [updateTrend] stores, by the rate [change / 5]. *)
Lemma updateTrend_cases (change : Q) (sim : CGMSimulator) :
  let rate := change / 5 in
  let t := currentTrend (updateTrend change sim) in
  (2 < rate /\ t = double_up) \/
  (1 < rate /\ rate <= 2 /\ t = up) \/
  (rate < -2 /\ t = double_down) \/
  (-2 <= rate /\ rate < -1 /\ t = down) \/
  (-1 <= rate /\ rate <= 1 /\ t = steady).
Proof.
  cbv zeta. unfold updateTrend.
  destruct (gtb (change / 5) 2) eqn:E1; [left; order_facts; split; [lra|reflexivity]|].
  destruct (gtb (change / 5) 1) eqn:E2;
    [right; left; order_facts; repeat split; try lra|].
  destruct (ltb (change / 5) (-2)) eqn:E3;
    [right; right; left; order_facts; repeat split; try lra|].
  destruct (ltb (change / 5) (-1)) eqn:E4;
    [right; right; right; left; order_facts; repeat split; try lra|].
  right; right; right; right; order_facts; repeat split; try lra.
Qed.

Lemma updateTrend_currentBGL change sim :
  currentBGL (updateTrend change sim) = currentBGL sim.
Proof.
  unfold updateTrend.
  repeat match goal with |- context [if ?b then _ else _] => destruct b end;
    reflexivity.
Qed.

(** C1.  For every rate [change / 5] (mg/dL per minute) the classifier of
    [updateTrend] stores [double_up] iff the rate is above 2, [up] iff it is
    in (1, 2], [double_down] iff it is below -2, [down] iff it is in
    [-2, -1), and [steady] iff it is in [-1, 1]; every per-minute rate [d]
    is reached by the change [d * 5]; the boundary rates 1, 2, -1 and -2
    give [steady], [up], [steady] and [down]. *)
Theorem trend_classifier_thresholds :
  (forall (change : Q) (sim : CGMSimulator),
     let rate := change / 5 in
     let t := currentTrend (updateTrend change sim) in
     (t = double_up <-> 2 < rate) /\
     (t = up <-> 1 < rate /\ rate <= 2) /\
     (t = double_down <-> rate < -2) /\
     (t = down <-> -2 <= rate /\ rate < -1) /\
     (t = steady <-> -1 <= rate /\ rate <= 1)) /\
  (forall (deltaPerMinute : Q) (sim : CGMSimulator),
     let t := currentTrend (updateTrend (deltaPerMinute * 5) sim) in
     (t = double_up <-> 2 < deltaPerMinute) /\
     (t = up <-> 1 < deltaPerMinute /\ deltaPerMinute <= 2) /\
     (t = double_down <-> deltaPerMinute < -2) /\
     (t = down <-> -2 <= deltaPerMinute /\ deltaPerMinute < -1) /\
     (t = steady <-> -1 <= deltaPerMinute /\ deltaPerMinute <= 1)) /\
  (forall sim : CGMSimulator,
     currentTrend (updateTrend (1 * 5) sim) = steady /\
     currentTrend (updateTrend (2 * 5) sim) = up /\
     currentTrend (updateTrend (-1 * 5) sim) = steady /\
     currentTrend (updateTrend (-2 * 5) sim) = down).
Proof.
  assert (main : forall (change : Q) (sim : CGMSimulator),
     let rate := change / 5 in
     let t := currentTrend (updateTrend change sim) in
     (t = double_up <-> 2 < rate) /\
     (t = up <-> 1 < rate /\ rate <= 2) /\
     (t = double_down <-> rate < -2) /\
     (t = down <-> -2 <= rate /\ rate < -1) /\
     (t = steady <-> -1 <= rate /\ rate <= 1)).
  { intros change sim. cbv zeta.
    pose proof (updateTrend_cases change sim) as H. cbv zeta in H.
    destruct H as [[H ->]|[(H1 & H2 & ->)|[[H ->]|[(H1 & H2 & ->)|(H1 & H2 & ->)]]]];
      repeat split; intros; try discriminate; try reflexivity; try lra. }
  split; [exact main|]. split.
  - intros d sim. cbv zeta.
    assert (E : d * 5 / 5 == d) by (field).
    pose proof (main (d * 5) sim) as H. cbv zeta in H.
    rewrite E in H. exact H.
  - intros sim. repeat split; reflexivity.
Qed.

(** ** Sums *)

Lemma fold_left_sumQ {A} (f : A -> Q) (l : list A) (a : Q) :
  fold_left (fun total x => total + f x) l a == a + sumQ f l.
Proof.
  revert a. induction l as [|x l IH]; intros a; simpl.
  - ring.
  - rewrite IH. ring.
Qed.

Lemma sumQ_filter {A} (p : A -> bool) (f : A -> Q) (l : list A) :
  sumQ f (filter p l) == sumQ (fun x => if p x then f x else 0) l.
Proof.
  induction l as [|x l IH]; simpl; [reflexivity|].
  destruct (p x); simpl; rewrite IH; ring.
Qed.

Lemma sumQ_ext {A} (f g : A -> Q) (l : list A) :
  (forall x, f x == g x) -> sumQ f l == sumQ g l.
Proof.
  intros E. induction l as [|x l IH]; simpl; [reflexivity|].
  rewrite IH, E. reflexivity.
Qed.

Lemma sumQ_app {A} (f : A -> Q) (l1 l2 : list A) :
  sumQ f (l1 ++ l2) == sumQ f l1 + sumQ f l2.
Proof.
  induction l1 as [|x l IH]; simpl; [ring|]. rewrite IH. ring.
Qed.

Lemma sumQ_nonneg {A} (f : A -> Q) (l : list A) :
  Forall (fun x => 0 <= f x) l -> 0 <= sumQ f l.
Proof.
  induction 1 as [|x l Hx _ IH]; simpl; [apply Qle_refl|]. lra.
Qed.

(** ** Insulin on board *)

Module IOBFacts.

Import IOB.

Lemma computeIOB_contributions now l :
  computeIOB now l == sumQ (contribution now) l.
Proof. unfold computeIOB. apply sumQ_filter. Qed.

Lemma hoursSince_age now m :
  hoursSince now m == inject_Z (age now m) / 3600000.
Proof. unfold hoursSince, age. reflexivity. Qed.

Lemma within_window now m :
  leb (hoursSince now m) 5 = (age now m <=? ACTIVE_WINDOW)%Z.
Proof.
  apply eq_true_iff_eq. rewrite leb_le, Z.leb_le.
  unfold hoursSince, age, ACTIVE_WINDOW, msPerHour.
  set (a := (now - getTime (med_timestamp m))%Z).
  unfold Qle, Qdiv, Qmult, Qinv. simpl. lia.
Qed.

Lemma remaining_code now m :
  units m * Math_max 0 ((5 - hoursSince now m) / 5) == remaining now m.
Proof.
  unfold remaining. rewrite Math_max_spec.
  assert (E : (5 - hoursSince now m) / 5 ==
              (inject_Z ACTIVE_WINDOW - inject_Z (age now m))
                / inject_Z ACTIVE_WINDOW).
  { rewrite hoursSince_age. unfold ACTIVE_WINDOW, msPerHour.
    change (inject_Z (5 * (60 * 60 * 1000))) with 18000000. field. }
  rewrite E. reflexivity.
Qed.

(** The code computes the sum of the contributions of all doses. *)
Lemma getInsulinOnBoard_sum now d :
  getInsulinOnBoard now d == computeIOB now (medicationLogs d).
Proof.
  rewrite computeIOB_contributions. unfold getInsulinOnBoard.
  rewrite fold_left_sumQ, sumQ_filter, Qplus_0_l.
  apply sumQ_ext. intros m. unfold contribution, qualifies.
  rewrite within_window, andb_comm.
  destruct (_ && _); [apply remaining_code|reflexivity].
Qed.

Lemma contribution_zero now dose :
  type dose = basal \/ (ACTIVE_WINDOW < age now dose)%Z ->
  contribution now dose = 0.
Proof.
  unfold contribution, qualifies. intros [E|E].
  - rewrite E. reflexivity.
  - apply Z.leb_gt in E. rewrite E, andb_false_r. reflexivity.
Qed.

Lemma contribution_nonneg now dose :
  0 <= units dose -> 0 <= contribution now dose.
Proof.
  intros H. unfold contribution, remaining.
  destruct (qualifies now dose); [|apply Qle_refl].
  apply Qmult_le_0_compat; [exact H|apply Q.le_max_l].
Qed.

End IOBFacts.

(** C2.  For every dose history and every time [now], [getInsulinOnBoard]
    is the sum, over the bolus doses whose age is at most five hours, of
    [units * max(0, (5h - age) / 5h)]; a basal dose and a dose older than
    five hours add exactly zero (taking one out of the history leaves the
    result as it was); and with no negative [units] in the history the
    result is not negative. *)
Theorem insulin_on_board_linear_decay (now : Z) (d : DataStore) :
  getInsulinOnBoard now d == IOB.computeIOB now (medicationLogs d) /\
  (forall dose,
     type dose = basal \/ (IOB.ACTIVE_WINDOW < IOB.age now dose)%Z ->
     IOB.contribution now dose = 0 /\
     forall before after,
       getInsulinOnBoard now (set_medicationLogs (before ++ dose :: after) d)
       == getInsulinOnBoard now (set_medicationLogs (before ++ after) d)) /\
  (Forall (fun dose => 0 <= units dose) (medicationLogs d) ->
   0 <= getInsulinOnBoard now d).
Proof.
  split; [apply IOBFacts.getInsulinOnBoard_sum|]. split.
  - intros dose Hdose. split; [apply IOBFacts.contribution_zero; exact Hdose|].
    intros before after.
    rewrite !IOBFacts.getInsulinOnBoard_sum, !IOBFacts.computeIOB_contributions. simpl.
    rewrite !sumQ_app. simpl.
    rewrite (IOBFacts.contribution_zero now dose Hdose). ring.
  - intros Hunits.
    rewrite IOBFacts.getInsulinOnBoard_sum, IOBFacts.computeIOB_contributions.
    apply sumQ_nonneg.
    eapply Forall_impl; [|exact Hunits].
    intros dose. apply IOBFacts.contribution_nonneg.
Qed.

(** The estimate on [sampleDoses], one hour after the fresh bolus. *)
Lemma insulin_on_board_linear_decay_witness :
  Forall (fun dose => 0 <= units dose) (medicationLogs sampleDoses) /\
  0 <= getInsulinOnBoard 3600000 sampleDoses.
Proof.
  assert (H : Forall (fun dose => 0 <= units dose) (medicationLogs sampleDoses)).
  { repeat constructor; discriminate. }
  split; [exact H|].
  exact (proj2 (proj2 (insulin_on_board_linear_decay 3600000 sampleDoses)) H).
Defined.

Example sampleDoses_iob : getInsulinOnBoard 3600000 sampleDoses == 16 # 5.
Proof. reflexivity. Qed.

Lemma updateTrend_alertCallback change sim :
  alertCallback (updateTrend change sim) = alertCallback sim.
Proof.
  unfold updateTrend.
  repeat match goal with |- context [if ?b then _ else _] => destruct b end;
    reflexivity.
Qed.

(** An append, exactly: the oldest reading goes when 1000 are stored. *)
Lemma addGlucoseReading_exact now reading d :
  glucoseReadings (addGlucoseReading now reading d)
  = (if (1000 <=? Z.of_nat (length (glucoseReadings d)))%Z
     then tl (glucoseReadings d)
     else glucoseReadings d) ++ [stampReading now reading].
Proof.
  unfold addGlucoseReading, shift. rewrite length_app. cbn [length].
  destruct (1000 <=? Z.of_nat (length (glucoseReadings d)))%Z eqn:L.
  - apply Z.leb_le in L.
    destruct (1000 <? _)%Z eqn:E; [|apply Z.ltb_ge in E; lia].
    destruct (glucoseReadings d) as [|oldest l]; [simpl in L; lia|reflexivity].
  - apply Z.leb_gt in L.
    destruct (1000 <? _)%Z eqn:E; [apply Z.ltb_lt in E; lia|reflexivity].
Qed.

(** ** The Guardian call and the generation cycle *)

Section Calls.

Variable Number_toString : Q -> string.
Variable JSON_stringify : Analysis -> string.

Local Abbreviation sendEmergencyAlert' := (sendEmergencyAlert Number_toString).
Local Abbreviation callGuardian' :=
  (callGuardian Number_toString JSON_stringify).
Local Abbreviation generateReading' :=
  (generateReading Number_toString JSON_stringify).
Local Abbreviation addManualReading' :=
  (addManualReading Number_toString JSON_stringify).

(** Unfold the effect combinators in the goal. *)
Ltac run :=
  unfold tryCatch, bind, ret, throw, when, onStore, readStore, onSimulator,
    readSimulator, console_write, post, notify; simpl.

(** [sendEmergencyAlert] never throws, and touches neither the store, the
    simulator nor the alerts handed to the callback. *)
Lemma sendEmergencyAlert_returns env bgl trend analysis w :
  exists w',
    sendEmergencyAlert' env bgl trend analysis w = (inr tt, w') /\
    store w' = store w /\ simulator w' = simulator w /\
    notified w' = notified w.
Proof.
  unfold sendEmergencyAlert. run.
  destruct (Z.of_nat (length (getEmergencyDoctors (store w))) =? 0)%Z; simpl.
  - eexists; repeat split.
  - destruct (emailServer env _) as [reason|status [result|]]; simpl.
    + eexists; repeat split.
    + destruct (ok status); simpl; eexists; repeat split.
    + destruct (ok status); simpl; eexists; repeat split.
Qed.

Lemma threw_failed {A} (r : (Exn + A) * World) w line :
  threw r w line -> failed r w line.
Proof.
  intros (e & w' & E & Hs & Hsim & Hn & Hp & Hc).
  exists e, w'. rewrite Hs. repeat split; assumption.
Qed.

Lemma threwRecorded_failed {A} (r : (Exn + A) * World) w line t a m x :
  threwRecorded r w line (addAgentInteraction t a m x (store w)) ->
  failed r w line.
Proof.
  intros (e & w' & E & Hs & Hsim & Hn & Hp & Hc).
  exists e, w'. rewrite Hs. repeat split; assumption.
Qed.

(** [callGuardian] returns the answer of the service when there is one it
    can read; it records the interaction and throws when the answer is
    [null]; it throws with the store as it was otherwise. *)
Lemma callGuardian_outcome env bgl trend iob w :
  let r := callGuardian' env bgl trend iob w in
  match guardian env {| req_bgl := bgl; req_trend := trend;
                        req_insulinOnBoard := iob |} with
  | FetchResponse status (body_analysis (JSONValue a)) =>
      if ok status then returned r w (responseOf a)
      else threw r w "Guardian error:"
  | FetchResponse status (body_analysis JSONNull) =>
      if ok status
      then threwRecorded r w "Guardian error:"
             (guardianNullInteraction Number_toString env bgl trend iob
                (store w))
      else threw r w "Guardian error:"
  | _ => threw r w "Guardian error:"
  end.
Proof.
  cbv zeta. unfold callGuardian. run.
  destruct (guardian env _) as [reason|status [[raw|a|]|err]]; simpl;
    try (destruct (ok status); simpl);
    try (eexists; eexists; repeat split; reflexivity).
  destruct (alert a && isCritical (severity a)); simpl.
  - match goal with
    | |- context [sendEmergencyAlert _ ?e ?b ?t ?an ?w0] =>
        destruct (sendEmergencyAlert_returns e b t an w0)
          as (w' & E & Hs & Hsim & Hn)
    end.
    rewrite E. simpl in *. exists w'. repeat split; try assumption.
    rewrite Hs. reflexivity.
  - eexists. repeat split.
Qed.

#[local] Arguments callGuardian : simpl never.
#[local] Arguments sendEmergencyAlert : simpl never.

(** When the e-mail server rejects the request, [sendEmergencyAlert]
    swallows the failure and writes its four console lines. *)
Lemma sendEmergencyAlert_rejected env bgl trend analysis w :
  (forall request, rejected (emailServer env request) = true) ->
  emergencyDoctors (store w) <> [] ->
  exists w',
    sendEmergencyAlert' env bgl trend analysis w = (inr tt, w') /\
    console w' =
      console w ++
        [(warn, "Email server not running"%string);
         (log, "Emergency contacts:"%string);
         (log, "Critical alert:"%string);
         (log, "Start email server with: npm run email-server"%string)].
Proof.
  intros Hdown Hdoctors. unfold sendEmergencyAlert. run.
  unfold getEmergencyDoctors.
  destruct (emergencyDoctors (store w)) as [|doc docs] eqn:E; [congruence|].
  simpl.
  match goal with
  | |- context [emailServer env ?r] =>
      pose proof (Hdown r) as H; destruct (emailServer env r); simpl in H
  end; [|discriminate].
  simpl. eexists. split; [reflexivity|]. simpl.
  rewrite <- !app_assoc. reflexivity.
Qed.

(** The two ways [callGuardian] ends. *)
Lemma callGuardian_cases env bgl trend iob w :
  let r := callGuardian' env bgl trend iob w in
  (exists a, returned r w (responseOf a)) \/ failed r w "Guardian error:".
Proof.
  cbv zeta. pose proof (callGuardian_outcome env bgl trend iob w) as H.
  cbv zeta in H.
  destruct (guardian env _) as [reason|status [[raw|a|]|err]];
    auto using threw_failed.
  - destruct (ok status); eauto using threw_failed.
  - destruct (ok status); [|auto using threw_failed].
    right. eapply threwRecorded_failed. exact H.
Qed.

Lemma callGuardian_unreadable env bgl trend iob w :
  (forall req, unreadable (guardian env req) = true) ->
  failed (callGuardian' env bgl trend iob w) w "Guardian error:".
Proof.
  intros Hdown. pose proof (callGuardian_outcome env bgl trend iob w) as H.
  cbv zeta in H.
  match type of H with
  | context [guardian env ?r] => pose proof (Hdown r) as U
  end.
  destruct (guardian env _) as [reason|status [[raw|a|]|err]];
    auto using threw_failed.
  - simpl in U. destruct (ok status); [discriminate|auto using threw_failed].
  - destruct (ok status); [|auto using threw_failed].
    eapply threwRecorded_failed. exact H.
Qed.

(** [raiseAlert] leaves the store and the simulator alone. *)
Lemma raiseAlert_frame response w :
  exists r w',
    raiseAlert response w = (r, w') /\ store w' = store w /\
    simulator w' = simulator w.
Proof.
  unfold raiseAlert. run.
  destruct (metadata response) as [m|]; [|eexists; eexists; repeat split].
  destruct (alertCallback (simulator w)) as [f|];
    [|eexists; eexists; repeat split].
  destruct (alert m); [|eexists; eexists; repeat split].
  simpl. destruct (f _); eexists; eexists; repeat split.
Qed.

(** What a returning [callGuardian] leaves on the console: the lines of
    [sendEmergencyAlert], after what was there. *)
Lemma callGuardian_console env bgl trend iob w response w' :
  callGuardian' env bgl trend iob w = (inr response, w') ->
  exists lines, console w' = console w ++ lines.
Proof.
  unfold callGuardian, sendEmergencyAlert. run. unfold getEmergencyDoctors.
  destruct (guardian env _) as [reason|status [[raw|a|]|err]]; simpl;
    try (destruct (ok status); simpl); try discriminate.
  destruct (alert a && isCritical (severity a)); simpl.
  - destruct (Z.of_nat (length (emergencyDoctors (store w))) =? 0)%Z; simpl.
    + intros E. injection E as _ <-. simpl. eexists. reflexivity.
    + destruct (emailServer env _) as [reason|st [result|]]; simpl;
        try destruct (ok st); simpl;
        intros E; injection E as _ <-; simpl;
        rewrite <- ?app_assoc; eexists; reflexivity.
  - intros E. injection E as _ <-. simpl. exists []. symmetry. apply app_nil_r.
Qed.

(** [raiseAlert] with a callback that throws on the alert. *)
Lemma raiseAlert_throws a f e w :
  alert a = true ->
  alertCallback (simulator w) = Some f ->
  f {| alert_severity := severity a;
       alert_message := orElse (action a) (prediction a) |} = Some e ->
  exists w',
    raiseAlert (responseOf a) w = (inl e, w') /\ console w' = console w.
Proof.
  intros Ha Hf He. unfold raiseAlert. run. rewrite Hf, Ha. simpl.
  rewrite He. eexists. split; reflexivity.
Qed.

(** One generation cycle: it returns, the new reading is in the store, its
    value is a whole number in [40, 400], a Guardian that cannot be used
    leaves two console lines, and an alert callback that throws leaves the
    line of the cycle. *)
Lemma generateReading_outcome env w :
  let change := calculateChange env (simulator w) (store w) in
  let value :=
    Math_max 40 (Math_min 400 (currentBGL (simulator w) + change)) in
  let sim' := updateTrend change (set_currentBGL value (simulator w)) in
  let reading :=
    {| new_bgl := inject_Z (Math_round value);
       new_trend := TrendType_toString (currentTrend sim');
       new_insulinOnBoard := getInsulinOnBoard (now env) (store w);
       new_notes := None |} in
  exists w' n,
    generateReading' env w = (inr tt, w') /\
    glucoseReadings (store w') =
      glucoseReadings (addGlucoseReading (now env) reading (store w)) /\
    new_bgl reading = inject_Z n /\ (40 <= n <= 400)%Z /\
    ((forall req, unreadable (guardian env req) = true) ->
     console w' =
       console w ++ [(error, "Guardian error:"%string);
                     (error, "Guardian check failed:"%string)]) /\
    (forall status a f e,
       guardian env {| req_bgl := new_bgl reading;
                       req_trend := new_trend reading;
                       req_insulinOnBoard := new_insulinOnBoard reading |}
       = FetchResponse status (body_analysis (JSONValue a)) ->
       ok status = true ->
       alert a = true ->
       alertCallback (simulator w) = Some f ->
       f {| alert_severity := severity a;
            alert_message := orElse (action a) (prediction a) |} = Some e ->
       exists lines,
         console w' =
           console w ++ lines ++ [(error, "Guardian check failed:"%string)]).
Proof.
  cbv zeta. unfold generateReading. run.
  rewrite !updateTrend_currentBGL. simpl.
  set (change := calculateChange env (simulator w) (store w)).
  set (value := Math_max 40 (Math_min 400 (currentBGL (simulator w) + change))).
  set (sim' := updateTrend change (set_currentBGL value (simulator w))).
  assert (Hn : (40 <= Math_round value <= 400)%Z).
  { apply (@Math_round_between 40 400); apply clamp_bounds. }
  match goal with
  | |- context [callGuardian _ _ ?e ?b ?t ?i ?w1] =>
      pose proof (callGuardian_cases e b t i w1) as Hc;
      pose proof (callGuardian_unreadable e b t i w1) as Hu;
      pose proof (callGuardian_outcome e b t i w1) as Ho;
      pose proof (@callGuardian_console e b t i w1) as Hl;
      set (w1' := w1) in *;
      destruct (callGuardian' e b t i w1') as [[exn|resp] w2]
  end; cbv zeta in Hc, Ho.
  - (* the call threw: the handler writes its line *)
    destruct Hc as [(a & w2' & E & _)
                   |(e & w2' & E & Hg & _ & _ & _ & _ & Hsim & Hnot & Hp & Hcon)];
      [discriminate|].
    injection E as E1 E2. subst exn w2'. simpl in Hg, Hcon.
    eexists; exists (Math_round value).
    split; [reflexivity|]. simpl.
    split; [exact Hg|]. split; [reflexivity|]. split; [exact Hn|]. split.
    + intros _. rewrite Hcon. simpl. rewrite <- app_assoc. reflexivity.
    + intros status a f e0 Hanswer Hok. rewrite Hanswer, Hok in Ho.
      destruct Ho as (w2' & E & _). discriminate E.
  - (* the call returned *)
    destruct Hc as [(a & w2' & E & Hr & Hsim & Hnot)|(e & w2' & E & _)];
      [|discriminate].
    injection E as E1 E2. subst resp w2'. simpl in Hr.
    destruct (Hl _ _ eq_refl) as (lines & Hlines). simpl in Hlines.
    destruct (raiseAlert_frame (responseOf a) w2) as (r & w3 & E3 & Hs3 & _).
    assert (Hstore : glucoseReadings (store w3) =
                     glucoseReadings
                       (addGlucoseReading (now env)
                          {| new_bgl := inject_Z (Math_round value);
                             new_trend := TrendType_toString (currentTrend sim');
                             new_insulinOnBoard :=
                               getInsulinOnBoard (now env) (store w);
                             new_notes := None |} (store w))).
    { rewrite Hs3, Hr. reflexivity. }
    assert (Hthrows :
      forall status a0 f e,
        guardian env {| req_bgl := inject_Z (Math_round value);
                        req_trend := TrendType_toString (currentTrend sim');
                        req_insulinOnBoard :=
                          getInsulinOnBoard (now env) (store w) |}
        = FetchResponse status (body_analysis (JSONValue a0)) ->
        ok status = true ->
        alert a0 = true ->
        alertCallback (simulator w) = Some f ->
        f {| alert_severity := severity a0;
             alert_message := orElse (action a0) (prediction a0) |} = Some e ->
        exists w3', raiseAlert (responseOf a) w2 = (inl e, w3') /\
                    console w3' = console w2).
    { intros status a0 f e Hanswer Hok Ha Hf He.
      rewrite Hanswer, Hok in Ho. destruct Ho as (w2' & E & _).
      assert (Ea : a = a0) by (unfold responseOf in E; congruence).
      subst a0. apply raiseAlert_throws with f; try assumption.
      rewrite Hsim. unfold w1'. simpl. unfold sim'.
      rewrite updateTrend_alertCallback. exact Hf. }
    clear Hr Hs3. rewrite E3 in Hthrows |- *.
    destruct r as [exn|[]]; eexists; exists (Math_round value);
      (split; [reflexivity|]); simpl;
      (split; [exact Hstore|]); (split; [reflexivity|]);
      (split; [exact Hn|]); (split;
        [intros Hdown; destruct (Hu Hdown) as (e & w2' & E & _); discriminate|]);
      intros status a0 f e Hanswer Hok Ha Hf He;
      destruct (Hthrows status a0 f e Hanswer Hok Ha Hf He) as (w3' & E & Hc3);
      [|discriminate E].
    injection E as _ <-. exists lines. rewrite Hc3, Hlines.
    unfold w1'. simpl. rewrite <- app_assoc. reflexivity.
Qed.

(** The Guardian check that ends both [generateReading] and
    [addManualReading]: it returns whatever the Guardian and the callback
    do, and keeps the readings and the simulator. *)
Lemma guardianCheck_outcome env bgl trend iob w :
  exists w',
    tryCatch
      (bind (callGuardian' env bgl trend iob) (fun response => raiseAlert response))
      (fun _ => console_write error "Guardian check failed:") w = (inr tt, w') /\
    glucoseReadings (store w') = glucoseReadings (store w) /\
    simulator w' = simulator w.
Proof.
  run.
  pose proof (callGuardian_cases env bgl trend iob w) as Hc. cbv zeta in Hc.
  destruct (callGuardian' env bgl trend iob w) as [[exn|resp] w2].
  - destruct Hc as [(a & w2' & E & _)
                   |(e & w2' & E & Hg & _ & _ & _ & _ & Hsim & _)];
      [discriminate|].
    injection E as E1 E2. subst exn w2'.
    eexists. split; [reflexivity|]. simpl. rewrite Hg, Hsim. split; reflexivity.
  - destruct Hc as [(a & w2' & E & Hr & Hsim & _)|(e & w2' & E & _)];
      [|discriminate].
    injection E as E1 E2. subst resp w2'.
    destruct (raiseAlert_frame (responseOf a) w2) as (r & w3 & E3 & Hs3 & Hsim3).
    rewrite E3.
    destruct r as [exn|[]]; eexists; (split; [reflexivity|]); simpl;
      rewrite ?Hs3, ?Hsim3, Hr, Hsim; split; reflexivity.
Qed.

(** A manual entry stores the caller's value as it is given. *)
Lemma addManualReading_outcome env bgl trend iob w :
  exists w',
    addManualReading' env bgl trend iob w = (inr tt, w') /\
    glucoseReadings (store w') =
      glucoseReadings
        (addGlucoseReading (now env)
           {| new_bgl := bgl; new_trend := TrendType_toString trend;
              new_insulinOnBoard := iob; new_notes := None |} (store w)) /\
    currentBGL (simulator w') = bgl /\
    currentTrend (simulator w') = trend.
Proof.
  unfold addManualReading.
  unfold bind at 1 2 3, onSimulator, onStore. simpl.
  match goal with
  | |- context [tryCatch _ _ ?w1] =>
      destruct (guardianCheck_outcome env bgl (TrendType_toString trend) iob w1)
        as (w' & E & Hs & Hsim)
  end.
  exists w'. split; [exact E|]. rewrite Hs, Hsim. simpl. repeat split.
Qed.

(** C3 (as amended).  The alert verdict for [(bgl, trend, iob)] is the
    answer of the external chat model, not a table in the code: the edge
    function hands the three values to the model ([trend] defaulting to
    "steady") and [callGuardian] returns the parsed answer unchanged as
    [metadata], with [action || prediction] as content, when the model
    replied with an ok status and a text that parses to a value other than
    [null]; in every other case [callGuardian] writes "Guardian error:" and
    throws, with the store as it was, except that an ok reply that parses
    to [null] is first recorded as an agent interaction.  The only
    threshold in the code labels the emergency e-mail: HYPOGLYCEMIA when
    [bgl < 70], HYPERGLYCEMIA otherwise. *)
Theorem guardian_verdict_is_the_model_answer :
  (forall groq t h rnd mail bgl trend iob w,
     let env := {| now := t; getHours := h; random := rnd;
                   guardian := deployed Number_toString groq;
                   emailServer := mail |} in
     let r := callGuardian' env bgl trend iob w in
     match groq {| prompt_bgl := bgl; prompt_trend := orSteady trend;
                   prompt_iob := iob |} with
     | GroqReplied status (JSONValue a) =>
         if ok status then returned r w (responseOf a)
         else threw r w "Guardian error:"
     | GroqReplied status JSONNull =>
         if ok status
         then threwRecorded r w "Guardian error:"
                (guardianNullInteraction Number_toString env bgl trend iob
                   (store w))
         else threw r w "Guardian error:"
     | _ => threw r w "Guardian error:"
     end) /\
  (forall env bgl trend analysis w,
     emergencyDoctors (store w) <> [] ->
     exists w' request,
       sendEmergencyAlert' env bgl trend analysis w = (inr tt, w') /\
       posted w' = posted w ++ [request] /\
       email_bgl request = bgl /\
       alertType request =
         (if ltb bgl 70 then "HYPOGLYCEMIA" else "HYPERGLYCEMIA")%string).
Proof.
  split.
  - intros groq t h rnd mail bgl trend iob w. cbv zeta.
    set (env := {| now := t; getHours := h; random := rnd;
                   guardian := deployed Number_toString groq;
                   emailServer := mail |}).
    pose proof (callGuardian_outcome env bgl trend iob w) as H. cbv zeta in H.
    change (guardian env) with (deployed Number_toString groq) in H.
    unfold deployed, guardianHandler in H.
    cbn [req_bgl req_trend req_insulinOnBoard] in H.
    destruct (groq _) as [reason|status [raw|a|]]; cbn iota beta in H.
    + exact H.
    + destruct (ok status); cbn iota beta in H; exact H.
    + destruct (ok status); cbn [negb] in H; cbn iota beta in H; exact H.
    + destruct (ok status); cbn [negb] in H; cbn iota beta in H; exact H.
  - intros env bgl trend analysis w Hdoctors.
    unfold sendEmergencyAlert. run. unfold getEmergencyDoctors.
    destruct (emergencyDoctors (store w)) as [|doc docs] eqn:E; [congruence|].
    simpl.
    destruct (emailServer env _) as [reason|status [result|]]; simpl;
      try destruct (ok status); simpl;
      eexists; eexists; (split; [reflexivity|]); simpl; repeat split.
Qed.

(** C8 (as amended).  A reading appended by the generation cycle has a
    whole-number value in [40, 400]; a reading appended by manual entry has
    the value the caller gave, neither clamped nor rounded. *)
Theorem generated_reading_in_clamped_domain :
  (forall env w,
     exists w' reading n,
       generateReading' env w = (inr tt, w') /\
       glucoseReadings (store w') =
         glucoseReadings (addGlucoseReading (now env) reading (store w)) /\
       new_bgl reading = inject_Z n /\ (40 <= n <= 400)%Z) /\
  (forall env bgl trend iob w,
     exists w',
       addManualReading' env bgl trend iob w = (inr tt, w') /\
       glucoseReadings (store w') =
         glucoseReadings
           (addGlucoseReading (now env)
              {| new_bgl := bgl; new_trend := TrendType_toString trend;
                 new_insulinOnBoard := iob; new_notes := None |} (store w))).
Proof.
  split.
  - intros env w.
    pose proof (generateReading_outcome env w) as H. cbv zeta in H.
    destruct H as (w' & n & E & H & Hv & Hn & _).
    exists w'. eexists. exists n.
    split; [exact E|]. split; [exact H|]. split; [exact Hv|exact Hn].
  - intros env bgl trend iob w.
    destruct (addManualReading_outcome env bgl trend iob w) as (w' & E & H & _).
    exists w'. auto.
Qed.

(** C10.  A generation cycle always returns: whatever the Guardian service,
    the e-mail server and the alert callback do, nothing is thrown to the
    caller and the new reading (the clamped and rounded value, the trend
    and the insulin on board of the cycle, stamped with its clock) is the
    last reading of the store, after the readings that were there (without
    the oldest one when 1000 were stored).  When the Guardian call fails,
    the failure is written to the console by [callGuardian] and by the
    cycle; when the alert callback throws, the cycle writes its console
    line; when the e-mail server rejects the emergency request,
    [sendEmergencyAlert] returns after writing its console lines. *)
Theorem generation_cycle_survives_collaborator_failure env w :
  let change := calculateChange env (simulator w) (store w) in
  let value :=
    Math_max 40 (Math_min 400 (currentBGL (simulator w) + change)) in
  let sim' := updateTrend change (set_currentBGL value (simulator w)) in
  let reading :=
    {| new_bgl := inject_Z (Math_round value);
       new_trend := TrendType_toString (currentTrend sim');
       new_insulinOnBoard := getInsulinOnBoard (now env) (store w);
       new_notes := None |} in
  (exists w',
     generateReading' env w = (inr tt, w') /\
     glucoseReadings (store w') =
       glucoseReadings (addGlucoseReading (now env) reading (store w)) /\
     glucoseReadings (store w') =
       (if (1000 <=? Z.of_nat (length (glucoseReadings (store w))))%Z
        then tl (glucoseReadings (store w))
        else glucoseReadings (store w))
       ++ [{| gr_timestamp := mkDate (now env);
              bgl := inject_Z (Math_round value);
              trend := TrendType_toString (currentTrend sim');
              insulinOnBoard := getInsulinOnBoard (now env) (store w);
              gr_notes := None |}] /\
     ((forall req, unreadable (guardian env req) = true) ->
      console w' =
        console w ++ [(error, "Guardian error:"%string);
                      (error, "Guardian check failed:"%string)]) /\
     (forall status a f e,
        guardian env {| req_bgl := new_bgl reading;
                        req_trend := new_trend reading;
                        req_insulinOnBoard := new_insulinOnBoard reading |}
        = FetchResponse status (body_analysis (JSONValue a)) ->
        ok status = true ->
        alert a = true ->
        alertCallback (simulator w) = Some f ->
        f {| alert_severity := severity a;
             alert_message := orElse (action a) (prediction a) |} = Some e ->
        exists lines,
          console w' =
            console w ++ lines ++ [(error, "Guardian check failed:"%string)])) /\
  (forall bgl trend analysis w0,
     (forall request, rejected (emailServer env request) = true) ->
     emergencyDoctors (store w0) <> [] ->
     exists w1,
       sendEmergencyAlert' env bgl trend analysis w0 = (inr tt, w1) /\
       console w1 =
         console w0 ++
           [(warn, "Email server not running"%string);
            (log, "Emergency contacts:"%string);
            (log, "Critical alert:"%string);
            (log, "Start email server with: npm run email-server"%string)]).
Proof.
  cbv zeta. split.
  - pose proof (generateReading_outcome env w) as H. cbv zeta in H.
    destruct H as (w' & n & E & H & _ & _ & Hlog & Hcb).
    exists w'. split; [exact E|]. split; [exact H|]. split; [|split].
    + rewrite H. apply addGlucoseReading_exact.
    + exact Hlog.
    + exact Hcb.
  - intros bgl trend analysis w0. apply sendEmergencyAlert_rejected.
Qed.

End Calls.

(** *** Runs of the calls on sample data *)

Example sample_verdicts :
  verdictTier plainNumber plainJSON sampleEnv 65 "steady" 0 freshWorld
    = Some tier_none /\
  verdictTier plainNumber plainJSON sampleEnv 120 "steady" 0 freshWorld
    = Some tier_none /\
  verdictTier plainNumber plainJSON sampleEnv 120 "steady" 2 freshWorld
    = Some tier_warning.
Proof. repeat split; reflexivity. Qed.

(** C3, counterexample.  Behind a chat model that only looks at the insulin
    on board, the verdict for [(65, "steady", 0)] is "normal" where the
    table says critical, and the verdict for [(120, "steady", _)] changes
    tier with the insulin on board. *)
Lemma guardian_verdict_departs_from_table :
  verdictTier plainNumber plainJSON sampleEnv 65 "steady" 0 freshWorld
    <> Some (decisionTable 65 "steady") /\
  verdictTier plainNumber plainJSON sampleEnv 120 "steady" 2 freshWorld
    <> Some (decisionTable 120 "steady") /\
  verdictTier plainNumber plainJSON sampleEnv 120 "steady" 2 freshWorld
    <> verdictTier plainNumber plainJSON sampleEnv 120 "steady" 0 freshWorld.
Proof. repeat split; discriminate. Qed.

(** A critical answer at 65 mg/dL with the default doctors: the e-mail is
    labelled HYPOGLYCEMIA. *)
Lemma guardian_verdict_is_the_model_answer_witness :
  emergencyDoctors (store freshWorld) <> [] /\
  exists w' request,
    sendEmergencyAlert plainNumber offlineEnv 65 "steady"
      (mkAnalysis true (Some "critical"%string) None None None) freshWorld
      = (inr tt, w') /\
    posted w' = posted freshWorld ++ [request] /\
    email_bgl request = 65 /\
    alertType request = "HYPOGLYCEMIA"%string.
Proof.
  split; [discriminate|].
  apply (proj2 (guardian_verdict_is_the_model_answer plainNumber plainJSON)).
  discriminate.
Defined.

(** C8, counterexample.  A manual entry of 500 mg/dL is stored as 500. *)
Lemma manual_reading_outside_clamped_domain :
  ~ Forall inClampedDomain
      (glucoseReadings
         (store (snd (addManualReading plainNumber plainJSON offlineEnv
                        500 steady 0 freshWorld)))).
Proof.
  intros H.
  assert (E : map bgl
                (glucoseReadings
                   (store (snd (addManualReading plainNumber plainJSON
                                  offlineEnv 500 steady 0 freshWorld))))
              = [500]) by reflexivity.
  destruct (glucoseReadings _) as [|r l]; [discriminate|].
  injection E as E _. inversion H as [|? ? (n & Hq & Hn) _].
  rewrite E in Hq. unfold Qeq in Hq. simpl in Hq. lia.
Qed.

(** A cycle with nothing reachable, a cycle whose alert callback throws,
    and an emergency e-mail with the server down. *)
Lemma generation_cycle_survives_collaborator_failure_witness :
  (exists w',
     generateReading plainNumber plainJSON offlineEnv freshWorld = (inr tt, w') /\
     glucoseReadings (store w') = [readingOf 0 118] /\
     console w' = [(error, "Guardian error:"%string);
                   (error, "Guardian check failed:"%string)]) /\
  (exists w' lines,
     generateReading plainNumber plainJSON alarmEnv fragileWorld = (inr tt, w') /\
     console w' = lines ++ [(error, "Guardian check failed:"%string)]) /\
  (exists w1,
     sendEmergencyAlert plainNumber offlineEnv 65 "steady"
       (mkAnalysis true (Some "critical"%string) None None None) freshWorld
       = (inr tt, w1) /\
     console w1 =
       [(warn, "Email server not running"%string);
        (log, "Emergency contacts:"%string);
        (log, "Critical alert:"%string);
        (log, "Start email server with: npm run email-server"%string)]).
Proof.
  split; [|split].
  - destruct (generation_cycle_survives_collaborator_failure
                plainNumber plainJSON offlineEnv freshWorld)
      as [(w' & E & _ & H & Hlog & _) _].
    exists w'. split; [exact E|]. split; [exact H|].
    apply Hlog. intros req. reflexivity.
  - destruct (generation_cycle_survives_collaborator_failure
                plainNumber plainJSON alarmEnv fragileWorld)
      as [(w' & E & _ & _ & _ & Hcb) _].
    destruct (Hcb 200%Z criticalAnswer (fun _ => Some (Error "toast failed"))
                (Error "toast failed") eq_refl eq_refl eq_refl eq_refl eq_refl)
      as (lines & Hlines).
    exists w', lines. split; [exact E|exact Hlines].
  - destruct (generation_cycle_survives_collaborator_failure
                plainNumber plainJSON offlineEnv freshWorld) as [_ Hmail].
    apply (Hmail 65 "steady"%string); [intros request; reflexivity|discriminate].
Defined.

(** ** The base drift by hour of day *)

(** In the hours 6, 7 and 8 the base drift is at least 1 for every draw. *)
Lemma dawn_drift_positive (hour : Z) (r : Q) :
  (6 <= hour <= 8)%Z -> 0 <= r -> 1 <= baseChange hour r.
Proof.
  intros [H6 H8] Hr. unfold baseChange.
  apply Z.leb_le in H6, H8. rewrite H6, H8. simpl. lra.
Qed.

(** C7, the code at five o'clock.  In [calculateChange] the dawn branch is
    taken for the hours 6, 7 and 8 only; at hour 5 the base drift is the
    symmetric noise [(r - 0.5) * 2], which is -1 for the draw 0. *)
Theorem dawn_drift_absent_at_hour_five :
  (forall r, baseChange 5 r = (r - (1 # 2)) * 2) /\
  baseChange 5 0 == -1 /\
  ~ 0 < baseChange 5 0 /\
  calculateChange fiveAM newCGMSimulator newDataStore == -2 /\
  (forall r, baseChange 6 r = r * 3 + 1 /\ baseChange 7 r = r * 3 + 1 /\
             baseChange 8 r = r * 3 + 1).
Proof.
  split; [reflexivity|]. split; [reflexivity|].
  split; [intros H; discriminate H|]. split; [reflexivity|].
  intros r. repeat split.
Qed.

(** ** Statistics *)

Lemma filter_length_Permutation {A} (p : A -> bool) (l l' : list A) :
  Permutation l l' -> length (filter p l) = length (filter p l').
Proof.
  induction 1 as [|x l l' _ IH|x y l|l l' l'' _ IH1 _ IH2]; simpl.
  - reflexivity.
  - destruct (p x); simpl; congruence.
  - destruct (p x), (p y); reflexivity.
  - congruence.
Qed.

(** The comparisons see a number up to [==]. *)
Lemma leb_Qeq x x' y y' : x == x' -> y == y' -> leb x y = leb x' y'.
Proof. intros Hx Hy. unfold leb. rewrite Hx, Hy. reflexivity. Qed.

Lemma ltb_Qeq x x' y y' : x == x' -> y == y' -> ltb x y = ltb x' y'.
Proof. intros Hx Hy. unfold ltb. rewrite Hx, Hy. reflexivity. Qed.

(** Counting by a test on the value, on readings and on their values. *)
Lemma count_by_value (p : Q -> bool) (window : list GlucoseReading)
    (values : list Q) :
  (forall x y, x == y -> p x = p y) ->
  Forall2 (fun r v => bgl r == v) window values ->
  length (filter (fun r => p (bgl r)) window) = length (filter p values).
Proof.
  intros Hp. induction 1 as [|r v window values E _ IH]; simpl.
  - reflexivity.
  - rewrite (Hp _ _ E). destruct (p v); simpl; congruence.
Qed.

(** The counts of [getStatistics] over any window holding the five values
    70, 100, 100, 190 and 300 in some order. *)
Lemma five_counts (readings window : list GlucoseReading) :
  Permutation readings window ->
  Forall2 (fun r v => bgl r == v) window [70; 100; 100; 190; 300] ->
  length readings = 5%nat /\
  length (filter (fun r => geb (bgl r) 70 && leb (bgl r) 180) readings) = 3%nat /\
  length (filter (fun r => gtb (bgl r) 180) readings) = 2%nat /\
  length (filter (fun r => ltb (bgl r) 70) readings) = 0%nat /\
  length (filter (fun r => gtb (bgl r) 250) readings) = 1%nat.
Proof.
  intros Hperm Hvalues.
  split.
  { rewrite (Permutation_length Hperm), (Forall2_length Hvalues). reflexivity. }
  repeat split.
  - rewrite (filter_length_Permutation _ Hperm).
    rewrite (count_by_value (fun x => geb x 70 && leb x 180)) with
      (values := [70; 100; 100; 190; 300]); [reflexivity| |exact Hvalues].
    intros x y E. unfold geb.
    rewrite (@leb_Qeq 70 70 x y), (@leb_Qeq x y 180 180);
      [reflexivity|exact E|reflexivity|reflexivity|exact E].
  - rewrite (filter_length_Permutation _ Hperm).
    rewrite (count_by_value (fun x => gtb x 180)) with
      (values := [70; 100; 100; 190; 300]); [reflexivity| |exact Hvalues].
    intros x y E. unfold gtb. apply ltb_Qeq; [reflexivity|exact E].
  - rewrite (filter_length_Permutation _ Hperm).
    rewrite (count_by_value (fun x => ltb x 70)) with
      (values := [70; 100; 100; 190; 300]); [reflexivity| |exact Hvalues].
    intros x y E. apply ltb_Qeq; [exact E|reflexivity].
  - rewrite (filter_length_Permutation _ Hperm).
    rewrite (count_by_value (fun x => gtb x 250)) with
      (values := [70; 100; 100; 190; 300]); [reflexivity| |exact Hvalues].
    intros x y E. unfold gtb. apply ltb_Qeq; [reflexivity|exact E].
Qed.

(** C4 (as amended).  When the queried window holds exactly five readings
    of 70, 100, 100, 190 and 300 mg/dL, in any order, [getStatistics] gives
    time in range 60 (the 70 and the two 100s: the bound 70 is inclusive),
    time below range 0, time above range 40, no hypo event and one hyper
    event (the 300: above 250, while 190 is only above range). *)
Theorem statistics_of_five_readings (now : Z) (hours : Q) (d : DataStore)
    (window : list GlucoseReading) :
  Permutation (getGlucoseReadings now hours d) window ->
  Forall2 (fun r v => bgl r == v) window [70; 100; 100; 190; 300] ->
  let s := getStatistics now hours d in
  timeInRange s = 60%Z /\ timeBelowRange s = 0%Z /\ timeAboveRange s = 40%Z /\
  hypoEvents s = 0%nat /\ hyperEvents s = 1%nat /\ readings s = 5%nat.
Proof.
  intros Hperm Hvalues.
  destruct (five_counts Hperm Hvalues) as (H5 & Hin & Habove & Hbelow & Hhyper).
  cbv zeta. unfold getStatistics. rewrite H5. cbn [Nat.eqb Z.of_nat Z.eqb].
  cbn [timeInRange timeBelowRange timeAboveRange hypoEvents hyperEvents
       readings].
  unfold len. rewrite H5, Hin, Habove, Hbelow, Hhyper.
  repeat split; reflexivity.
Qed.

(** The summary of [fiveReadings] at the time of the last reading. *)
Lemma statistics_of_five_readings_witness :
  let s := getStatistics 345600000 168 fiveReadings in
  timeInRange s = 60%Z /\ timeBelowRange s = 0%Z /\ timeAboveRange s = 40%Z /\
  hypoEvents s = 0%nat /\ hyperEvents s = 1%nat /\ readings s = 5%nat.
Proof.
  apply (@statistics_of_five_readings 345600000 168 fiveReadings
           (glucoseReadings fiveReadings)).
  - apply Permutation_refl.
  - repeat constructor; reflexivity.
Defined.

(** C4, counterexample.  On the five readings the time in range is 60, not
    40, and the time below range is 0, not 20. *)
Lemma statistics_of_five_readings_not_40_20 :
  let s := getStatistics 345600000 168 fiveReadings in
  ~ (timeInRange s = 40%Z /\ timeBelowRange s = 20%Z /\
     timeAboveRange s = 40%Z /\ hypoEvents s = 0%nat /\ hyperEvents s = 1%nat).
Proof. cbv zeta. intros (H & _). vm_compute in H. discriminate H. Qed.

(** [Math.round(x * 10) / 10] is within a twentieth of [x]. *)
Lemma round_one_decimal (x : Q) :
  x - (1 # 20) < inject_Z (Math_round (x * 10)) / 10 /\
  inject_Z (Math_round (x * 10)) / 10 <= x + (1 # 20).
Proof.
  unfold Math_round.
  pose proof (Qfloor_le (x * 10 + (1 # 2))) as Hle.
  pose proof (Qlt_floor (x * 10 + (1 # 2))) as Hlt.
  rewrite inject_Z_plus in Hlt. change (inject_Z 1) with 1 in Hlt.
  set (n := inject_Z (Qfloor (x * 10 + (1 # 2)))) in *.
  split.
  - apply Qlt_shift_div_l; [reflexivity|]. lra.
  - apply Qle_shift_div_r; [reflexivity|]. lra.
Qed.

(** The total of [getStatistics] over a window that holds a reading. *)
Lemma totalInsulin_rounded now hours d :
  getGlucoseReadings now hours d <> [] ->
  totalInsulin (getStatistics now hours d)
  == inject_Z (Math_round (sumQ units (getMedicationLogs now hours d) * 10))
     / 10.
Proof.
  intros Hreadings. unfold getStatistics.
  destruct (getGlucoseReadings now hours d) as [|r l]; [congruence|].
  cbn [length Z.of_nat Z.eqb totalInsulin].
  assert (E : fold_left (fun sum m => sum + units m)
                (getMedicationLogs now hours d) 0
              == sumQ units (getMedicationLogs now hours d)).
  { rewrite fold_left_sumQ. ring. }
  rewrite (@Math_round_Qeq _ (sumQ units (getMedicationLogs now hours d) * 10))
    by (rewrite E; reflexivity).
  reflexivity.
Qed.

(** Whole steps add up to whole steps. *)
Lemma sumQ_steps (step : Q) (meds : list MedicationLog) :
  Forall (fun m => exists k : Z, (0 <= k)%Z /\ units m == inject_Z k * step)
         meds ->
  exists K : Z, (0 <= K)%Z /\ sumQ units meds == inject_Z K * step.
Proof.
  induction 1 as [|m meds (k & Hk & E) _ (K & HK & IH)]; simpl.
  - exists 0%Z. split; [lia|]. ring.
  - exists (k + K)%Z. split; [lia|].
    rewrite E, IH, inject_Z_plus. ring.
Qed.

Lemma Math_round_Z (n : Z) : Math_round (inject_Z n) = n.
Proof.
  assert (H : (n <= Math_round (inject_Z n) <= n)%Z).
  { apply Math_round_between; apply Qle_refl. }
  lia.
Qed.

(** C5 (as amended).  The doses counted by [getStatistics] are the
    medication logs of both kinds whose timestamp is not before the cutoff.
    When the window holds no glucose reading, the all-zero summary is
    returned and [totalInsulin] is 0, whatever the doses.  When it holds at
    least one reading and the doses are whole quarter units,
    [totalInsulin] is the sum of their units rounded to one decimal, halves
    upwards ([Math.round(x * 10) / 10]); when they are whole half units, it
    is the sum itself. *)
Theorem total_insulin_is_rounded_sum (now : Z) (hours : Q) (d : DataStore) :
  let s := getStatistics now hours d in
  let meds := getMedicationLogs now hours d in
  (forall m, In m meds <->
             In m (medicationLogs d) /\
             exists cutoff, cutoffDate now hours = Some cutoff /\
               (getTime cutoff <= getTime (med_timestamp m))%Z) /\
  (getGlucoseReadings now hours d = [] -> totalInsulin s == 0) /\
  (getGlucoseReadings now hours d <> [] -> stepsOf (1 # 4) meds ->
   totalInsulin s == inject_Z (Math_round (sumQ units meds * 10)) / 10) /\
  (getGlucoseReadings now hours d <> [] -> stepsOf (1 # 2) meds ->
   totalInsulin s == sumQ units meds).
Proof.
  cbv zeta. split; [|split; [|split]].
  - intros m. unfold getMedicationLogs. rewrite filter_In.
    unfold Date_geb. destruct (cutoffDate now hours) as [cutoff|].
    + rewrite Z.leb_le. split.
      * intros [Hin Hle]. split; [exact Hin|]. exists cutoff. auto.
      * intros [Hin (c & E & Hle)]. injection E as <-. auto.
    + split; [intros [_ H]; discriminate H|].
      intros [_ (c & E & _)]. discriminate E.
  - intros Hnone. unfold getStatistics. rewrite Hnone. reflexivity.
  - intros Hsome _. apply totalInsulin_rounded. exact Hsome.
  - intros Hsome [Hsteps _].
    rewrite (totalInsulin_rounded _ _ _ Hsome).
    destruct (sumQ_steps Hsteps) as (K & _ & E).
    rewrite (@Math_round_Qeq _ (inject_Z (5 * K))).
    + rewrite Math_round_Z, E, inject_Z_mult. field.
    + rewrite E, inject_Z_mult. field.
Qed.

(** One reading with a quarter unit, and one reading with four and a half
    units of bolus and 24 units of basal insulin. *)
Lemma total_insulin_is_rounded_sum_witness :
  (getGlucoseReadings 0 168 quarterUnit <> [] /\
   stepsOf (1 # 4) (getMedicationLogs 0 168 quarterUnit) /\
   totalInsulin (getStatistics 0 168 quarterUnit) == 3 # 10) /\
  (getGlucoseReadings 0 168 halfUnits <> [] /\
   stepsOf (1 # 2) (getMedicationLogs 0 168 halfUnits) /\
   totalInsulin (getStatistics 0 168 halfUnits) == 57 # 2) /\
  (getGlucoseReadings 0 168 dosesOnly = [] /\
   totalInsulin (getStatistics 0 168 dosesOnly) == 0).
Proof.
  assert (Q1 : getGlucoseReadings 0 168 quarterUnit <> []) by discriminate.
  assert (Q2 : stepsOf (1 # 4) (getMedicationLogs 0 168 quarterUnit)).
  { split; [|discriminate].
    repeat constructor. exists 1%Z. split; [lia|reflexivity]. }
  assert (H1 : getGlucoseReadings 0 168 halfUnits <> []) by discriminate.
  assert (H2 : stepsOf (1 # 2) (getMedicationLogs 0 168 halfUnits)).
  { split; [|discriminate].
    repeat constructor;
      [exists 9%Z|exists 48%Z]; (split; [lia|reflexivity]). }
  assert (Z1 : getGlucoseReadings 0 168 dosesOnly = []) by reflexivity.
  split; [|split].
  - split; [exact Q1|]. split; [exact Q2|].
    rewrite (proj1 (proj2 (proj2 (total_insulin_is_rounded_sum 0 168 quarterUnit)))
               Q1 Q2).
    reflexivity.
  - split; [exact H1|]. split; [exact H2|].
    rewrite (proj2 (proj2 (proj2 (total_insulin_is_rounded_sum 0 168 halfUnits)))
               H1 H2).
    reflexivity.
  - split; [exact Z1|].
    exact (proj1 (proj2 (total_insulin_is_rounded_sum 0 168 dosesOnly)) Z1).
Defined.

(** C5, counterexample.  With a bolus of 5 units and a basal dose of 24
    units but no glucose reading, the total is 0, not 29; with one reading
    and a dose of 0.25 units, the total is 0.3. *)
Lemma total_insulin_is_not_the_plain_sum :
  ~ totalInsulin (getStatistics 0 168 dosesOnly)
    == sumQ units (getMedicationLogs 0 168 dosesOnly) /\
  ~ totalInsulin (getStatistics 0 168 quarterUnit)
    == sumQ units (getMedicationLogs 0 168 quarterUnit).
Proof. split; intros H; vm_compute in H; discriminate H. Qed.

Example total_insulin_samples :
  sumQ units (getMedicationLogs 0 168 dosesOnly) == 29 /\
  totalInsulin (getStatistics 0 168 dosesOnly) == 0 /\
  sumQ units (getMedicationLogs 0 168 quarterUnit) == 1 # 4 /\
  totalInsulin (getStatistics 0 168 quarterUnit) == 3 # 10.
Proof. repeat split. Qed.

(** ** Retention of the glucose stream *)

Module Retention.

Lemma newest1000_short {A} (l : list A) :
  (length l <= 1000)%nat -> newest1000 l = l.
Proof.
  intros H. unfold newest1000.
  replace (length l - 1000)%nat with 0%nat by lia. reflexivity.
Qed.

Lemma newest1000_length {A} (l : list A) : (length (newest1000 l) <= 1000)%nat.
Proof. unfold newest1000. rewrite length_skipn. lia. Qed.

(** Dropping what is already beyond the bound does not change the newest
    1000 of a longer list. *)
Lemma newest1000_app {A} (l more : list A) :
  newest1000 (newest1000 l ++ more) = newest1000 (l ++ more).
Proof.
  destruct (Nat.le_gt_cases (length l) 1000) as [Hle|Hgt].
  - rewrite (newest1000_short l Hle). reflexivity.
  - unfold newest1000.
    set (k := (length l - 1000)%nat).
    rewrite !length_app, length_skipn.
    replace (length l - k + length more - 1000)%nat with (length more) by lia.
    replace (length l + length more - 1000)%nat with (length more + k)%nat by lia.
    rewrite <- skipn_skipn. f_equal.
    rewrite skipn_app.
    replace (k - length l)%nat with 0%nat by lia. reflexivity.
Qed.

(** One append on a stream within the bound. *)
Lemma addGlucoseReading_newest now reading d :
  (length (glucoseReadings d) <= 1000)%nat ->
  glucoseReadings (addGlucoseReading now reading d)
  = newest1000 (glucoseReadings d ++ [stampReading now reading]).
Proof.
  intros Hle. unfold addGlucoseReading, newest1000, shift.
  rewrite length_app. cbn [length].
  destruct (1000 <? Z.of_nat (length (glucoseReadings d) + 1))%Z eqn:E.
  - apply Z.ltb_lt in E.
    replace (length (glucoseReadings d) + 1 - 1000)%nat with 1%nat by lia.
    destruct (glucoseReadings d) as [|oldest l]; [simpl in E; lia|reflexivity].
  - apply Z.ltb_ge in E.
    replace (length (glucoseReadings d) + 1 - 1000)%nat with 0%nat by lia.
    reflexivity.
Qed.

(** One append, by the oldest reading it drops. *)
Lemma addGlucoseReading_fifo now reading d :
  (length (glucoseReadings d) <= 1000)%nat ->
  glucoseReadings (addGlucoseReading now reading d)
  = (if (length (glucoseReadings d) <? 1000)%nat
     then glucoseReadings d
     else tl (glucoseReadings d)) ++ [stampReading now reading].
Proof.
  intros Hle. unfold addGlucoseReading, shift.
  rewrite length_app. cbn [length].
  destruct (length (glucoseReadings d) <? 1000)%nat eqn:L.
  - apply Nat.ltb_lt in L.
    destruct (1000 <? _)%Z eqn:E; [apply Z.ltb_lt in E; lia|reflexivity].
  - apply Nat.ltb_ge in L.
    destruct (1000 <? _)%Z eqn:E; [|apply Z.ltb_ge in E; lia].
    destruct (glucoseReadings d) as [|oldest l]; [simpl in L; lia|reflexivity].
Qed.

Lemma appendAll_snoc events e d :
  appendAll (events ++ [e]) d
  = addGlucoseReading (fst e) (snd e) (appendAll events d).
Proof. unfold appendAll. rewrite fold_left_app. reflexivity. Qed.

(** A sequence of appends keeps the newest 1000 of all that was stored and
    appended. *)
Lemma appendAll_newest events d :
  (length (glucoseReadings d) <= 1000)%nat ->
  glucoseReadings (appendAll events d)
  = newest1000 (glucoseReadings d ++ stampAll events).
Proof.
  intros Hle. induction events as [|e events IH] using rev_ind.
  - simpl. rewrite app_nil_r. symmetry. apply newest1000_short. exact Hle.
  - rewrite appendAll_snoc, addGlucoseReading_newest.
    + rewrite IH. unfold stampAll. rewrite map_app, app_assoc.
      apply newest1000_app.
    + rewrite IH. apply newest1000_length.
Qed.

End Retention.

(** C6.  After every sequence of [addGlucoseReading] calls on a stream that
    is within the bound, the stream holds at most 1000 readings, namely the
    newest 1000 of everything stored and appended, in order; one more
    append adds the new reading at the end and drops the oldest reading
    exactly when the stream is full, and nothing else; a query returns at
    most 1000 readings. *)
Theorem glucose_stream_retention (events : list (Z * NewGlucoseReading))
    (d0 : DataStore) :
  (length (glucoseReadings d0) <= 1000)%nat ->
  let d := appendAll events d0 in
  (length (glucoseReadings d) <= 1000)%nat /\
  glucoseReadings d = newest1000 (glucoseReadings d0 ++ stampAll events) /\
  (forall now reading,
     glucoseReadings (addGlucoseReading now reading d)
     = (if (length (glucoseReadings d) <? 1000)%nat
        then glucoseReadings d
        else tl (glucoseReadings d)) ++ [stampReading now reading]) /\
  (forall now hours,
     (length (getGlucoseReadings now hours d) <= 1000)%nat).
Proof.
  intros Hle. cbv zeta.
  pose proof (Retention.appendAll_newest events d0 Hle) as E.
  assert (Hd : (length (glucoseReadings (appendAll events d0)) <= 1000)%nat).
  { rewrite E. apply Retention.newest1000_length. }
  split; [exact Hd|]. split; [exact E|]. split.
  - intros now reading. apply Retention.addGlucoseReading_fifo. exact Hd.
  - intros now hours. unfold getGlucoseReadings.
    eapply Nat.le_trans; [apply filter_length_le|exact Hd].
Qed.

(** Two appends on the empty store. *)
Lemma glucose_stream_retention_witness :
  let d := appendAll [(0%Z, mkNewGlucoseReading 100 "steady" 0 None);
                      (300000%Z, mkNewGlucoseReading 104 "steady" 0 None)]
             newDataStore in
  (length (glucoseReadings d) <= 1000)%nat /\
  glucoseReadings d = [readingOf 0 100; readingOf 300000 104].
Proof.
  cbv zeta.
  destruct (@glucose_stream_retention
              [(0%Z, mkNewGlucoseReading 100 "steady" 0 None);
               (300000%Z, mkNewGlucoseReading 104 "steady" 0 None)]
              newDataStore)
    as (Hlen & Hall & _).
  - simpl. lia.
  - split; [exact Hlen|]. rewrite Hall. reflexivity.
Defined.

(** A full stream: the next append drops the reading stamped 0. *)
Example eviction_at_capacity :
  let full :=
    set_glucoseReadings
      (map (fun i => readingOf (Z.of_nat i) 100) (seq 0 1000)) newDataStore in
  let d := addGlucoseReading 5000 (mkNewGlucoseReading 110 "up" 0 None) full in
  length (glucoseReadings d) = 1000%nat /\
  hd_error (glucoseReadings d) = Some (readingOf 1 100) /\
  last (glucoseReadings d) (readingOf 0 0)
  = stampReading 5000 (mkNewGlucoseReading 110 "up" 0 None).
Proof. vm_compute. repeat split. Qed.

(** ** Persistence *)

Lemma restore_export_reading r :
  restoreReading (toJSON (gr_timestamp r), payloadOfReading r) = r.
Proof. destruct r as [[t] v tr iob n]. reflexivity. Qed.

Lemma restore_export_meal m :
  restoreMeal (toJSON (ml_timestamp m), payloadOfMeal m) = m.
Proof. destruct m as [[t] ? ? ? ? ? ?]. reflexivity. Qed.

Lemma restore_export_medication m :
  restoreMedication (toJSON (med_timestamp m), payloadOfMedication m) = m.
Proof. destruct m as [[t] ? ? ?]. reflexivity. Qed.

Lemma restore_export_interaction i :
  restoreInteraction (toJSON (ai_timestamp i), (agent i, message i, response i))
  = i.
Proof. destruct i as [[t] ? ? ?]. reflexivity. Qed.

Lemma map_restore {A B} (f : A -> B) (g : B -> A) (l : list A) :
  (forall x, g (f x) = x) -> map g (map f l) = l.
Proof.
  intros H. rewrite map_map. rewrite <- (map_id l) at 2.
  apply map_ext. exact H.
Qed.

(** X28.  [importData] of an exported snapshot gives back the exported
    store, whatever the store held before: every event with its timestamp
    and its fields, in the order it was stored, and the profile and the
    doctors.  For any snapshot, the restored readings carry the timestamps
    of the snapshot in snapshot order. *)
Theorem export_import_round_trip :
  (forall d d0 : DataStore, importData (exportData d) d0 = d) /\
  (forall (readings : list (IsoString * NewGlucoseReading)) meals meds
          interactions profile doctors (d0 : DataStore),
     let data := {| snap_glucoseReadings := Some readings;
                    snap_mealLogs := meals;
                    snap_medicationLogs := meds;
                    snap_agentInteractions := interactions;
                    snap_userProfile := profile;
                    snap_emergencyDoctors := doctors |} in
     map gr_timestamp (glucoseReadings (importData data d0))
       = map (fun e => Date_parse (fst e)) readings).
Proof.
  split.
  - intros d d0. destruct d as [gs ms meds ints prof docs].
    unfold importData, exportData. simpl. f_equal.
    + apply map_restore. apply restore_export_reading.
    + apply map_restore. apply restore_export_meal.
    + apply map_restore. apply restore_export_medication.
    + apply map_restore. apply restore_export_interaction.
  - intros readings meals meds interactions profile doctors d0. cbv zeta.
    simpl. rewrite map_map. reflexivity.
Qed.

(** C9, the code on a snapshot of 1001 readings.  [importData] does not
    reapply the retention bound: the store holds all 1001 readings
    afterwards, the oldest one included, and is not the newest 1000 of
    them, while appending the same 1001 readings one by one leaves 1000. *)
Theorem import_keeps_more_than_the_bound :
  let d := importData longSnapshot newDataStore in
  length (glucoseReadings d) = 1001%nat /\
  glucoseReadings d <> newest1000 (glucoseReadings d) /\
  hd_error (glucoseReadings d) = Some (readingOf 0 100) /\
  length (glucoseReadings (appendAll longEvents newDataStore)) = 1000%nat /\
  glucoseReadings (appendAll longEvents newDataStore)
  = newest1000 (glucoseReadings d).
Proof.
  cbv zeta. split; [reflexivity|]. split; [|split; [reflexivity|]].
  - intros E. apply (f_equal (@length _)) in E.
    vm_compute in E. discriminate E.
  - split; vm_compute; reflexivity.
Qed.

(** * Further properties *)

(** ** Latest reading and queries after an append *)

Lemma nth_error_snoc_last {A} (l : list A) (x : A) :
  nth_error (l ++ [x]) (length (l ++ [x]) - 1) = Some x.
Proof.
  rewrite length_app. simpl.
  replace (length l + 1 - 1)%nat with (length l) by lia.
  rewrite nth_error_app2 by lia. rewrite Nat.sub_diag. reflexivity.
Qed.

(** After an append the stream is some older readings followed by the new
    one. *)
Lemma addGlucoseReading_snoc now reading d :
  exists older,
    glucoseReadings (addGlucoseReading now reading d)
    = older ++ [stampReading now reading] /\
    (older = glucoseReadings d \/ older = tl (glucoseReadings d)).
Proof.
  unfold addGlucoseReading, shift.
  destruct (1000 <? _)%Z eqn:E.
  - destruct (glucoseReadings d) as [|oldest l] eqn:L.
    + simpl in E. discriminate E.
    + exists l. simpl. auto.
  - exists (glucoseReadings d). simpl. auto.
Qed.

(** X1.  [getLatestGlucoseReading] returns the reading just appended,
    whatever the store held before, and returns nothing exactly when the
    stream is empty. *)
Theorem latest_reading_after_append :
  (forall now reading d,
     getLatestGlucoseReading (addGlucoseReading now reading d)
     = Some (stampReading now reading)) /\
  (forall d, getLatestGlucoseReading d = None <-> glucoseReadings d = []).
Proof.
  split.
  - intros now reading d.
    destruct (addGlucoseReading_snoc now reading d) as (older & E & _).
    unfold getLatestGlucoseReading. rewrite E.
    rewrite nth_error_snoc_last.
    rewrite length_app. simpl.
    destruct (0 <? Z.of_nat (length older + 1))%Z eqn:P; [reflexivity|].
    apply Z.ltb_ge in P. lia.
  - intros d. unfold getLatestGlucoseReading.
    destruct (glucoseReadings d) as [|r l] eqn:L.
    + simpl. split; reflexivity.
    + split; [|discriminate].
      change (r :: l) with ([r] ++ l).
      destruct (0 <? Z.of_nat (length ([r] ++ l)))%Z eqn:P.
      * intros H. exfalso.
        destruct (@exists_last _ ([r] ++ l)) as (front & z & E);
          [discriminate|].
        rewrite E in H. rewrite nth_error_snoc_last in H. discriminate H.
      * apply Z.ltb_ge in P. simpl in P. lia.
Qed.

(** Dropping the fraction of a number. *)
Lemma Qtrunc_Z (z : Z) : Qtrunc (inject_Z z) = z.
Proof.
  unfold Qtrunc. destruct (leb 0 (inject_Z z)).
  - apply Qfloor_Z.
  - apply Qceiling_Z.
Qed.

Lemma Qtrunc_le_ceiling (x : Q) : (Qtrunc x <= Qceiling x)%Z.
Proof.
  unfold Qtrunc. destruct (leb 0 x); [|lia].
  rewrite Zle_Qle. apply Qle_floor_ceiling.
Qed.

Lemma Qtrunc_mono (x y : Q) : x <= y -> (Qtrunc x <= Qtrunc y)%Z.
Proof.
  intros H. unfold Qtrunc.
  destruct (leb 0 x) eqn:Ex; destruct (leb 0 y) eqn:Ey; order_facts.
  - apply Qfloor_resp_le. exact H.
  - exfalso. lra.
  - apply Z.le_trans with 0%Z.
    + rewrite <- (Qceiling_Z 0). apply Qceiling_resp_le.
      apply Qlt_le_weak. exact Ex.
    + rewrite <- (Qfloor_Z 0). apply Qfloor_resp_le. exact Ey.
  - apply Qceiling_resp_le. exact H.
Qed.

(** A valid [Date] made from a number has the number's whole part as its
    time value. *)
Lemma new_Date_Some v c : new_Date v = Some c -> getTime c = Qtrunc v.
Proof.
  unfold new_Date. destruct (_ && _); [|discriminate].
  intros E. injection E as <-. reflexivity.
Qed.

(** Two valid [Date]s made from numbers are ordered as the numbers are. *)
Lemma new_Date_mono v v' c c' :
  v <= v' -> new_Date v = Some c -> new_Date v' = Some c' ->
  (getTime c <= getTime c')%Z.
Proof.
  intros H E E'. rewrite (new_Date_Some _ E), (new_Date_Some _ E').
  apply Qtrunc_mono. exact H.
Qed.

(** The cutoff of a window that does not reach into the future is not
    after the clock, and a longer window has an earlier cutoff. *)
Lemma cutoffDate_le_now now hours c :
  0 <= hours -> cutoffDate now hours = Some c -> (getTime c <= now)%Z.
Proof.
  intros H E. unfold cutoffDate in E. rewrite (new_Date_Some _ E).
  rewrite <- (Qtrunc_Z now) at 2. apply Qtrunc_mono. lra.
Qed.

Lemma cutoffDate_mono now hours hours' c c' :
  hours <= hours' ->
  cutoffDate now hours = Some c -> cutoffDate now hours' = Some c' ->
  (getTime c' <= getTime c)%Z.
Proof.
  intros H E E'. unfold cutoffDate in E, E'.
  apply (new_Date_mono (v := inject_Z now - hours' * 60 * 60 * 1000)
                       (v' := inject_Z now - hours * 60 * 60 * 1000));
    [lra|exact E'|exact E].
Qed.

Lemma filter_narrow {A} (p q : A -> bool) (l : list A) :
  (forall x, p x = true -> q x = true) ->
  filter p (filter q l) = filter p l.
Proof.
  intros H. induction l as [|x l IH]; simpl; [reflexivity|].
  destruct (q x) eqn:Q; simpl.
  - rewrite IH. reflexivity.
  - destruct (p x) eqn:P; [|exact IH].
    rewrite (H x P) in Q. discriminate Q.
Qed.

(** Nothing is at or after an Invalid Date. *)
Lemma filter_Invalid {A} (timestamp : A -> Date) (l : list A) :
  filter (fun x => Date_geb (timestamp x) None) l = [].
Proof. induction l as [|x l IH]; [reflexivity|exact IH]. Qed.

(** A later cutoff keeps a part of what an earlier valid cutoff keeps. *)
Lemma filter_cutoffs {A} (timestamp : A -> Date) (later : option Date)
    (earlier : Date) (l : list A) :
  (forall c, later = Some c -> (getTime earlier <= getTime c)%Z) ->
  filter (fun x => Date_geb (timestamp x) later)
         (filter (fun x => Date_geb (timestamp x) (Some earlier)) l)
  = filter (fun x => Date_geb (timestamp x) later) l.
Proof.
  intros H. apply filter_narrow. intros x. destruct later as [c|]; simpl.
  - specialize (H c eq_refl). rewrite !Z.leb_le. lia.
  - discriminate.
Qed.

(** X2.  A reading appended at clock [now] is the last entry of every
    query made at that clock with a window that is not negative and whose
    cutoff is a valid date; when the cutoff is an Invalid Date (a window
    that reaches more than 8.64e15 ms before the epoch), the query returns
    nothing, the reading just appended included. *)
Theorem appended_reading_is_queried now hours reading d :
  (0 <= hours -> cutoffDate now hours <> None ->
   exists older,
     getGlucoseReadings now hours (addGlucoseReading now reading d)
     = older ++ [stampReading now reading]) /\
  (cutoffDate now hours = None ->
   getGlucoseReadings now hours (addGlucoseReading now reading d) = []).
Proof.
  split.
  - intros H Hvalid.
    destruct (addGlucoseReading_snoc now reading d) as (older & E & _).
    destruct (cutoffDate now hours) as [c|] eqn:C; [|congruence].
    assert (P : Date_geb (gr_timestamp (stampReading now reading)) (Some c)
                = true).
    { unfold Date_geb. cbn [getTime gr_timestamp stampReading].
      apply Z.leb_le. apply (@cutoffDate_le_now now hours c H C). }
    unfold getGlucoseReadings. rewrite C, E, filter_app. cbn [filter].
    rewrite P. eexists. reflexivity.
  - intros C. unfold getGlucoseReadings. rewrite C. apply filter_Invalid.
Qed.

(** A reading is appended at noon and queried over the last day, and over
    a window of ten million million hours. *)
Lemma appended_reading_is_queried_witness :
  (0 <= 24 /\ cutoffDate 43200000 24 <> None /\
   exists older,
     getGlucoseReadings 43200000 24
       (addGlucoseReading 43200000 (mkNewGlucoseReading 100 "steady" 0 None)
          fiveReadings)
     = older ++ [readingOf 43200000 100]) /\
  (cutoffDate 43200000 10000000000000 = None /\
   getGlucoseReadings 43200000 10000000000000
     (addGlucoseReading 43200000 (mkNewGlucoseReading 100 "steady" 0 None)
        fiveReadings)
   = []).
Proof.
  split.
  - split; [discriminate|]. split; [discriminate|].
    apply (proj1 (@appended_reading_is_queried 43200000 24
                    (mkNewGlucoseReading 100 "steady" 0 None) fiveReadings));
      discriminate.
  - split; [reflexivity|].
    apply (proj2 (@appended_reading_is_queried 43200000 10000000000000
                    (mkNewGlucoseReading 100 "steady" 0 None) fiveReadings)).
    reflexivity.
Defined.

(** X3.  A shorter window returns exactly the entries of a longer window
    that are not before the shorter cutoff, in the same order, when the
    cutoff of the longer window is a valid date; this holds for readings,
    meals and medications. *)
Theorem shorter_window_is_part_of_longer now hours hours' d :
  hours <= hours' -> cutoffDate now hours' <> None ->
  getGlucoseReadings now hours d
  = filter (fun r => Date_geb (gr_timestamp r) (cutoffDate now hours))
           (getGlucoseReadings now hours' d) /\
  getMealLogs now hours d
  = filter (fun m => Date_geb (ml_timestamp m) (cutoffDate now hours))
           (getMealLogs now hours' d) /\
  getMedicationLogs now hours d
  = filter (fun m => Date_geb (med_timestamp m) (cutoffDate now hours))
           (getMedicationLogs now hours' d).
Proof.
  intros H Hvalid.
  destruct (cutoffDate now hours') as [c'|] eqn:C'; [|congruence].
  assert (M : forall c, cutoffDate now hours = Some c ->
                        (getTime c' <= getTime c)%Z).
  { intros c C. exact (@cutoffDate_mono now hours hours' c c' H C C'). }
  unfold getGlucoseReadings, getMealLogs, getMedicationLogs. rewrite C'.
  repeat split; symmetry; apply filter_cutoffs; exact M.
Qed.

(** The readings of the last day among those of the last week. *)
Lemma shorter_window_is_part_of_longer_witness :
  24 <= 168 /\ cutoffDate 345600000 168 <> None /\
  getGlucoseReadings 345600000 24 fiveReadings
  = filter (fun r => Date_geb (gr_timestamp r) (cutoffDate 345600000 24))
           (getGlucoseReadings 345600000 168 fiveReadings).
Proof.
  split; [discriminate|]. split; [discriminate|].
  apply (@shorter_window_is_part_of_longer 345600000 24 168 fiveReadings);
    discriminate.
Defined.

(** ** The history of agent interactions *)

(** X4.  [getAgentInteractions(limit)] with a positive limit returns the
    newest [limit] interactions (all of them when there are fewer), in
    order; with the limit 0 it returns the whole history, not an empty
    list, because [slice(-0)] is [slice(0)]. *)
Theorem agent_interactions_by_limit (d : DataStore) :
  (forall limit,
     (0 < limit)%Z ->
     (exists older,
        agentInteractions d = older ++ getAgentInteractions limit d) /\
     length (getAgentInteractions limit d)
     = Nat.min (Z.to_nat limit) (length (agentInteractions d))) /\
  getAgentInteractions 0 d = agentInteractions d.
Proof.
  split.
  - intros limit Hpos. unfold getAgentInteractions, slice.
    destruct (- limit <? 0)%Z eqn:E; [|apply Z.ltb_ge in E; lia].
    set (l := agentInteractions d).
    set (k := Z.to_nat (Z.max (Z.of_nat (length l) + - limit) 0)).
    split.
    + exists (firstn k l). symmetry. apply firstn_skipn.
    + rewrite length_skipn. unfold k. lia.
  - unfold getAgentInteractions, slice. cbn [Z.opp Z.ltb Z.compare].
    replace (Z.min 0 (Z.of_nat (length (agentInteractions d)))) with 0%Z by lia.
    reflexivity.
Qed.

(** The newest interaction out of three. *)
Lemma agent_interactions_by_limit_witness :
  let d :=
    addAgentInteraction 3 "coach" "c" "r3"
      (addAgentInteraction 2 "guardian" "b" "r2"
         (addAgentInteraction 1 "guardian" "a" "r1" newDataStore)) in
  (0 < 1)%Z /\
  length (getAgentInteractions 1 d) = 1%nat /\
  getAgentInteractions 0 d = agentInteractions d.
Proof.
  cbv zeta.
  destruct (agent_interactions_by_limit
              (addAgentInteraction 3 "coach" "c" "r3"
                 (addAgentInteraction 2 "guardian" "b" "r2"
                    (addAgentInteraction 1 "guardian" "a" "r1" newDataStore))))
    as [Hlimit Hzero].
  split; [lia|]. split; [|exact Hzero].
  destruct (Hlimit 1%Z) as [_ Hlen]; [lia|]. exact Hlen.
Defined.

(** ** Emergency doctors *)

Lemma includesEmail_In email l : includesEmail email l = true <-> In email l.
Proof.
  unfold includesEmail. rewrite existsb_exists. split.
  - intros (e & Hin & E). apply String.eqb_eq in E. subst e. exact Hin.
  - intros Hin. exists email. split; [exact Hin|apply String.eqb_refl].
Qed.

Lemma filter_all {A} (p : A -> bool) (l : list A) :
  (forall x, In x l -> p x = true) -> filter p l = l.
Proof.
  induction l as [|x l IH]; intros H; simpl; [reflexivity|].
  rewrite (H x) by (left; reflexivity).
  rewrite IH; [reflexivity|]. intros y Hy. apply H. right. exact Hy.
Qed.

(** X5.  [addEmergencyDoctor] keeps a duplicate-free contact list free of
    duplicates, leaves every contact in place, makes the e-mail a contact,
    and adding the same e-mail again changes nothing. *)
Theorem add_doctor_keeps_list_duplicate_free (email : string) (d : DataStore) :
  NoDup (emergencyDoctors d) ->
  let d' := addEmergencyDoctor email d in
  NoDup (emergencyDoctors d') /\
  In email (emergencyDoctors d') /\
  (exists added, emergencyDoctors d' = emergencyDoctors d ++ added) /\
  addEmergencyDoctor email d' = d'.
Proof.
  intros Hnodup. cbv zeta. unfold addEmergencyDoctor.
  destruct (includesEmail email (emergencyDoctors d)) eqn:E; simpl.
  - rewrite E. simpl. apply includesEmail_In in E.
    repeat split; try assumption.
    exists []. rewrite app_nil_r. reflexivity.
  - assert (Hnot : ~ In email (emergencyDoctors d)).
    { intros Hin. apply includesEmail_In in Hin. congruence. }
    assert (Hin : includesEmail email (emergencyDoctors d ++ [email]) = true).
    { apply includesEmail_In. apply in_or_app. right. left. reflexivity. }
    rewrite Hin. simpl. repeat split.
    + apply NoDup_app; [exact Hnodup|repeat constructor; intros []|].
      intros e He [<-|[]]. exact (Hnot He).
    + apply in_or_app. right. left. reflexivity.
    + exists [email]. reflexivity.
Qed.

(** A third doctor is added to the two of a new store. *)
Lemma add_doctor_keeps_list_duplicate_free_witness :
  NoDup (emergencyDoctors newDataStore) /\
  NoDup (emergencyDoctors (addEmergencyDoctor "dr@clinic.org" newDataStore)) /\
  In "dr@clinic.org"%string
     (emergencyDoctors (addEmergencyDoctor "dr@clinic.org" newDataStore)).
Proof.
  assert (H : NoDup (emergencyDoctors newDataStore)).
  { repeat constructor; simpl; intuition discriminate. }
  split; [exact H|].
  destruct (@add_doctor_keeps_list_duplicate_free "dr@clinic.org"
              newDataStore H) as (H1 & H2 & _).
  split; assumption.
Defined.

(** X6.  [removeEmergencyDoctor] removes every occurrence of the e-mail and
    keeps the other contacts in order; removing an e-mail right after
    adding it to a list that did not hold it gives back the store. *)
Theorem remove_doctor_undoes_add (email : string) (d : DataStore) :
  (forall e, In e (emergencyDoctors (removeEmergencyDoctor email d)) <->
             In e (emergencyDoctors d) /\ e <> email) /\
  (~ In email (emergencyDoctors d) ->
   removeEmergencyDoctor email d = d /\
   removeEmergencyDoctor email (addEmergencyDoctor email d) = d).
Proof.
  split.
  - intros e. unfold removeEmergencyDoctor. simpl. rewrite filter_In.
    rewrite negb_true_iff, String.eqb_neq. reflexivity.
  - intros Hnot.
    assert (Hkeep : filter (fun e => negb (String.eqb e email))
                      (emergencyDoctors d) = emergencyDoctors d).
    { apply filter_all. intros e He. apply negb_true_iff, String.eqb_neq.
      intros ->. exact (Hnot He). }
    split.
    + unfold removeEmergencyDoctor. rewrite Hkeep. destruct d; reflexivity.
    + unfold addEmergencyDoctor.
      destruct (includesEmail email (emergencyDoctors d)) eqn:E.
      { apply includesEmail_In in E. contradiction. }
      simpl. unfold removeEmergencyDoctor. simpl.
      rewrite filter_app, Hkeep. simpl. rewrite String.eqb_refl. simpl.
      rewrite app_nil_r. destruct d; reflexivity.
Qed.

(** A doctor who is no contact of a new store is added and removed. *)
Lemma remove_doctor_undoes_add_witness :
  ~ In "dr@clinic.org"%string (emergencyDoctors newDataStore) /\
  removeEmergencyDoctor "dr@clinic.org"
    (addEmergencyDoctor "dr@clinic.org" newDataStore) = newDataStore.
Proof.
  assert (H : ~ In "dr@clinic.org"%string (emergencyDoctors newDataStore)).
  { simpl. intuition discriminate. }
  split; [exact H|].
  exact (proj2 (proj2 (@remove_doctor_undoes_add "dr@clinic.org" newDataStore) H)).
Defined.

(** ** Clearing old data *)

Lemma clear_cutoff_le_query_cutoff now days hours c0 c :
  hours <= days * 24 ->
  new_Date (inject_Z now - days * 24 * 60 * 60 * 1000) = Some c0 ->
  cutoffDate now hours = Some c ->
  (getTime c0 <= getTime c)%Z.
Proof.
  intros H E0 E. unfold cutoffDate in E.
  apply (new_Date_mono (v := inject_Z now - days * 24 * 60 * 60 * 1000)
                       (v' := inject_Z now - hours * 60 * 60 * 1000));
    [lra|exact E0|exact E].
Qed.

(** X7.  [clearOldData(days)] with a cutoff that is a valid date does not
    change what a query returns for a window of at most [24 * days] hours
    (readings, meals and medications), leaves the profile and the doctors
    alone, and clearing twice at the same clock is clearing once; with a
    cutoff that is an Invalid Date it empties the four event lists. *)
Theorem clearing_keeps_recent_windows now days hours d :
  let cutoff := new_Date (inject_Z now - days * 24 * 60 * 60 * 1000) in
  let d' := clearOldData now days d in
  (hours <= days * 24 -> cutoff <> None ->
   getGlucoseReadings now hours d' = getGlucoseReadings now hours d /\
   getMealLogs now hours d' = getMealLogs now hours d /\
   getMedicationLogs now hours d' = getMedicationLogs now hours d /\
   userProfile d' = userProfile d /\
   emergencyDoctors d' = emergencyDoctors d /\
   clearOldData now days d' = d') /\
  (cutoff = None ->
   glucoseReadings d' = [] /\ mealLogs d' = [] /\ medicationLogs d' = [] /\
   agentInteractions d' = [] /\
   userProfile d' = userProfile d /\
   emergencyDoctors d' = emergencyDoctors d).
Proof.
  cbv zeta. split.
  - intros H Hvalid.
    destruct (new_Date (inject_Z now - days * 24 * 60 * 60 * 1000))
      as [c0|] eqn:C0; [|congruence].
    assert (M : forall c, cutoffDate now hours = Some c ->
                          (getTime c0 <= getTime c)%Z).
    { intros c C. exact (@clear_cutoff_le_query_cutoff now days hours c0 c H C0 C). }
    unfold getGlucoseReadings, getMealLogs, getMedicationLogs, clearOldData.
    rewrite C0.
    cbn [glucoseReadings mealLogs medicationLogs agentInteractions userProfile
         emergencyDoctors].
    repeat split.
    + apply filter_cutoffs; exact M.
    + apply filter_cutoffs; exact M.
    + apply filter_cutoffs; exact M.
    + f_equal; apply filter_narrow; auto.
  - intros C0. unfold clearOldData. rewrite C0.
    cbn [glucoseReadings mealLogs medicationLogs agentInteractions userProfile
         emergencyDoctors].
    repeat split; apply filter_Invalid.
Qed.

(** The week of [fiveReadings] survives the default clean-up of 30 days;
    a clean-up of a million million days leaves no reading. *)
Lemma clearing_keeps_recent_windows_witness :
  (168 <= 30 * 24 /\
   new_Date (inject_Z 345600000 - 30 * 24 * 60 * 60 * 1000) <> None /\
   getGlucoseReadings 345600000 168 (clearOldData 345600000 30 fiveReadings)
   = getGlucoseReadings 345600000 168 fiveReadings) /\
  (new_Date (inject_Z 345600000 - 1000000000000 * 24 * 60 * 60 * 1000) = None /\
   glucoseReadings (clearOldData 345600000 1000000000000 fiveReadings) = []).
Proof.
  split.
  - split; [discriminate|]. split; [discriminate|].
    apply (proj1 (@clearing_keeps_recent_windows 345600000 30 168 fiveReadings));
      discriminate.
  - split; [reflexivity|].
    apply (proj2 (@clearing_keeps_recent_windows 345600000 1000000000000 168
                    fiveReadings)).
    reflexivity.
Defined.

(** X8.  [clearOldData(days)] with [days] of at least five hours and a
    cutoff that is a valid date never changes the insulin on board: every
    dose that still counts is kept. *)
Theorem clearing_keeps_insulin_on_board now days d :
  5 <= days * 24 ->
  new_Date (inject_Z now - days * 24 * 60 * 60 * 1000) <> None ->
  getInsulinOnBoard now (clearOldData now days d) = getInsulinOnBoard now d.
Proof.
  intros H Hvalid. unfold getInsulinOnBoard, clearOldData.
  destruct (new_Date (inject_Z now - days * 24 * 60 * 60 * 1000))
    as [c0|] eqn:C0; [|congruence].
  cbn [medicationLogs]. f_equal.
  apply filter_narrow. intros m Hm.
  apply andb_true_iff in Hm. destruct Hm as [Hage _].
  rewrite IOBFacts.within_window in Hage. apply Z.leb_le in Hage.
  unfold IOB.age, IOB.ACTIVE_WINDOW, msPerHour in Hage.
  unfold Date_geb. rewrite (new_Date_Some _ C0). apply Z.leb_le.
  apply Z.le_trans with (now - 18000000)%Z; [|lia].
  rewrite <- (Qtrunc_Z (now - 18000000)). apply Qtrunc_mono.
  unfold Z.sub. rewrite inject_Z_plus.
  rewrite inject_Z_opp. change (inject_Z 18000000) with 18000000.
  generalize (inject_Z now). intros n. lra.
Qed.

(** [sampleDoses] after the default clean-up, one hour after the bolus. *)
Lemma clearing_keeps_insulin_on_board_witness :
  5 <= 30 * 24 /\
  new_Date (inject_Z 3600000 - 30 * 24 * 60 * 60 * 1000) <> None /\
  getInsulinOnBoard 3600000 (clearOldData 3600000 30 sampleDoses)
  = getInsulinOnBoard 3600000 sampleDoses.
Proof.
  split; [discriminate|]. split; [discriminate|].
  apply (@clearing_keeps_insulin_on_board 3600000 30 sampleDoses);
    discriminate.
Defined.

(** ** The summary: percentages and average *)

(** A value is in range, above range or below range, and only one of
    these. *)
Lemma range_partition (l : list GlucoseReading) :
  (length (filter (fun r => geb (bgl r) 70 && leb (bgl r) 180) l)
   + length (filter (fun r => gtb (bgl r) 180) l)
   + length (filter (fun r => ltb (bgl r) 70) l))%nat
  = length l.
Proof.
  induction l as [|r l IH]; [reflexivity|].
  cbn [filter].
  destruct (geb (bgl r) 70) eqn:E1; destruct (leb (bgl r) 180) eqn:E2;
    destruct (gtb (bgl r) 180) eqn:E3; destruct (ltb (bgl r) 70) eqn:E4;
    order_facts; cbn [andb length]; try lia; exfalso; lra.
Qed.

Lemma Math_round_near (x : Q) :
  x - (1 # 2) < inject_Z (Math_round x) /\ inject_Z (Math_round x) <= x + (1 # 2).
Proof.
  unfold Math_round.
  pose proof (Qfloor_le (x + (1 # 2))) as Hle.
  pose proof (Qlt_floor (x + (1 # 2))) as Hlt.
  rewrite inject_Z_plus in Hlt. change (inject_Z 1) with 1 in Hlt.
  split; lra.
Qed.

Lemma len_nonneg {A} (l : list A) : 0 <= len l.
Proof.
  unfold len. change 0 with (inject_Z 0). rewrite <- Zle_Qle. lia.
Qed.

Lemma len_filter_le {A} (p : A -> bool) (l : list A) : len (filter p l) <= len l.
Proof.
  unfold len. rewrite <- Zle_Qle. pose proof (filter_length_le p l). lia.
Qed.

(** A share of a non-empty total, as a percentage. *)
Lemma percentage_bounds (part total : Q) :
  0 <= part -> part <= total -> 0 < total ->
  (0 <= Math_round (part / total * 100) <= 100)%Z.
Proof.
  intros H0 Hle Hpos.
  assert (Hlo : 0 <= part / total).
  { apply Qle_shift_div_l; [exact Hpos|]. lra. }
  assert (Hhi : part / total <= 1).
  { apply Qle_shift_div_r; [exact Hpos|]. lra. }
  apply (@Math_round_between 0 100).
  - change (inject_Z 0) with 0. lra.
  - change (inject_Z 100) with 100. lra.
Qed.

(** X9.  For a window with at least one reading, each of the three
    percentages of [getStatistics] lies between 0 and 100, and because each
    is rounded on its own they add up to 99, 100 or 101. *)
Theorem percentages_add_up_to_about_100 now hours d :
  getGlucoseReadings now hours d <> [] ->
  let s := getStatistics now hours d in
  (0 <= timeInRange s <= 100)%Z /\
  (0 <= timeAboveRange s <= 100)%Z /\
  (0 <= timeBelowRange s <= 100)%Z /\
  (99 <= timeInRange s + timeAboveRange s + timeBelowRange s <= 101)%Z.
Proof.
  intros Hne. cbv zeta. unfold getStatistics.
  set (window := getGlucoseReadings now hours d) in *.
  destruct (Z.of_nat (length window) =? 0)%Z eqn:E.
  { apply Z.eqb_eq in E. destruct window; [congruence|simpl in E; lia]. }
  apply Z.eqb_neq in E.
  cbn [timeInRange timeAboveRange timeBelowRange].
  set (a := len (filter (fun r => geb (bgl r) 70 && leb (bgl r) 180) window)).
  set (b := len (filter (fun r => gtb (bgl r) 180) window)).
  set (c := len (filter (fun r => ltb (bgl r) 70) window)).
  assert (Hn : 0 < len window).
  { unfold len. change 0 with (inject_Z 0). rewrite <- Zlt_Qlt. lia. }
  assert (Hsum : a + b + c == len window).
  { unfold a, b, c, len. rewrite <- !inject_Z_plus, <- !Nat2Z.inj_add.
    rewrite range_partition. reflexivity. }
  assert (Ha : (0 <= Math_round (a / len window * 100) <= 100)%Z)
    by (apply percentage_bounds;
        [apply len_nonneg|apply len_filter_le|exact Hn]).
  assert (Hb : (0 <= Math_round (b / len window * 100) <= 100)%Z)
    by (apply percentage_bounds;
        [apply len_nonneg|apply len_filter_le|exact Hn]).
  assert (Hc : (0 <= Math_round (c / len window * 100) <= 100)%Z)
    by (apply percentage_bounds;
        [apply len_nonneg|apply len_filter_le|exact Hn]).
  split; [exact Ha|]. split; [exact Hb|]. split; [exact Hc|].
  assert (Htotal : a / len window * 100 + b / len window * 100
                   + c / len window * 100 == 100).
  { setoid_replace (a / len window * 100 + b / len window * 100
                    + c / len window * 100)
      with ((a + b + c) / len window * 100) by (field; lra).
    rewrite Hsum. field. lra. }
  destruct (Math_round_near (a / len window * 100)) as [La Ua].
  destruct (Math_round_near (b / len window * 100)) as [Lb Ub].
  destruct (Math_round_near (c / len window * 100)) as [Lc Uc].
  set (pa := Math_round (a / len window * 100)) in *.
  set (pb := Math_round (b / len window * 100)) in *.
  set (pc := Math_round (c / len window * 100)) in *.
  assert (Hlo : inject_Z 98 < inject_Z (pa + pb + pc)).
  { rewrite !inject_Z_plus. change (inject_Z 98) with 98. lra. }
  assert (Hhi : inject_Z (pa + pb + pc) < inject_Z 102).
  { rewrite !inject_Z_plus. change (inject_Z 102) with 102. lra. }
  rewrite <- Zlt_Qlt in Hlo, Hhi. lia.
Qed.

(** The percentages of [fiveReadings]: 60, 40 and 0. *)
Lemma percentages_add_up_to_about_100_witness :
  getGlucoseReadings 345600000 168 fiveReadings <> [] /\
  let s := getStatistics 345600000 168 fiveReadings in
  (99 <= timeInRange s + timeAboveRange s + timeBelowRange s <= 101)%Z.
Proof.
  assert (H : getGlucoseReadings 345600000 168 fiveReadings <> [])
    by discriminate.
  split; [exact H|].
  exact (proj2 (proj2 (proj2
           (@percentages_add_up_to_about_100 345600000 168 fiveReadings H)))).
Defined.

(** One reading in range out of eight with one above and six below: the
    percentages 13, 13 and 75 add up to 101. *)
Example percentages_can_add_up_to_101 :
  let d := set_glucoseReadings
             [readingOf 0 100; readingOf 0 200; readingOf 0 60; readingOf 0 60;
              readingOf 0 60; readingOf 0 60; readingOf 0 60; readingOf 0 60]
             newDataStore in
  let s := getStatistics 0 24 d in
  (timeInRange s + timeAboveRange s + timeBelowRange s = 101)%Z.
Proof. reflexivity. Qed.

Lemma sumQ_between {A} (f : A -> Q) (lo hi : Q) (l : list A) :
  Forall (fun x => lo <= f x /\ f x <= hi) l ->
  len l * lo <= sumQ f l /\ sumQ f l <= len l * hi.
Proof.
  induction 1 as [|x l [Hlo Hhi] _ [IHlo IHhi]].
  - simpl. change (len (@nil A)) with 0. split; lra.
  - assert (E : len (x :: l) == len l + 1).
    { unfold len. cbn [length]. rewrite Nat2Z.inj_succ. unfold Z.succ.
      rewrite inject_Z_plus. reflexivity. }
    simpl sumQ. rewrite E. split; lra.
Qed.

(** X10.  For a window with at least one reading, [avgBGL] lies between any
    two whole-number bounds that hold for every reading of the window. *)
Theorem average_within_reading_bounds now hours d (lo hi : Z) :
  getGlucoseReadings now hours d <> [] ->
  Forall (fun r => inject_Z lo <= bgl r /\ bgl r <= inject_Z hi)
         (getGlucoseReadings now hours d) ->
  (lo <= avgBGL (getStatistics now hours d) <= hi)%Z.
Proof.
  intros Hne Hall. unfold getStatistics.
  set (window := getGlucoseReadings now hours d) in *.
  destruct (Z.of_nat (length window) =? 0)%Z eqn:E.
  { apply Z.eqb_eq in E. destruct window; [congruence|simpl in E; lia]. }
  apply Z.eqb_neq in E. cbn [avgBGL].
  assert (Hn : 0 < len window).
  { unfold len. change 0 with (inject_Z 0). rewrite <- Zlt_Qlt. lia. }
  destruct (sumQ_between bgl Hall) as [Hlo Hhi].
  assert (S : fold_left (fun sum r => sum + bgl r) window 0 == sumQ bgl window).
  { rewrite fold_left_sumQ. ring. }
  apply Math_round_between.
  - apply Qle_shift_div_l; [exact Hn|]. rewrite S. lra.
  - apply Qle_shift_div_r; [exact Hn|]. rewrite S. lra.
Qed.

(** The average of [fiveReadings] is between 70 and 300. *)
Lemma average_within_reading_bounds_witness :
  (70 <= avgBGL (getStatistics 345600000 168 fiveReadings) <= 300)%Z.
Proof.
  apply (@average_within_reading_bounds 345600000 168 fiveReadings 70 300).
  - discriminate.
  - repeat constructor; discriminate.
Defined.

(** ** Insulin on board over time *)

Module Decay.

Import IOB.

Lemma sumQ_le {A} (f g : A -> Q) (l : list A) :
  Forall (fun x => f x <= g x) l -> sumQ f l <= sumQ g l.
Proof.
  induction 1 as [|x l Hx _ IH]; simpl; [apply Qle_refl|]. lra.
Qed.

Lemma sumQ_zero {A} (f : A -> Q) (l : list A) :
  Forall (fun x => f x == 0) l -> sumQ f l == 0.
Proof.
  induction 1 as [|x l Hx _ IH]; simpl; [reflexivity|].
  rewrite Hx, IH. reflexivity.
Qed.

(** The share of a dose that is left, by its age in milliseconds. *)
Lemma left_share_antitone (a a' : Z) :
  (a <= a')%Z ->
  (inject_Z ACTIVE_WINDOW - inject_Z a') / inject_Z ACTIVE_WINDOW
  <= (inject_Z ACTIVE_WINDOW - inject_Z a) / inject_Z ACTIVE_WINDOW.
Proof.
  intros H. rewrite Zle_Qle in H. unfold Qdiv.
  apply Qmult_le_compat_r; [lra|discriminate].
Qed.

Lemma contribution_antitone now now' m :
  (now <= now')%Z -> 0 <= units m ->
  contribution now' m <= contribution now m.
Proof.
  intros Hnow Hunits. unfold contribution at 1.
  destruct (qualifies now' m) eqn:Q'; [|apply IOBFacts.contribution_nonneg; exact Hunits].
  unfold contribution, qualifies in *.
  apply andb_true_iff in Q'. destruct Q' as [Hb Hage]. rewrite Hb. simpl.
  apply Z.leb_le in Hage.
  assert (Hage0 : (age now m <=? ACTIVE_WINDOW)%Z = true).
  { apply Z.leb_le. unfold age in *. lia. }
  rewrite Hage0. unfold remaining.
  rewrite (Qmult_comm (units m)), (Qmult_comm (units m)).
  apply Qmult_le_compat_r; [|exact Hunits].
  apply Q.max_le_compat_l. apply left_share_antitone. unfold age. lia.
Qed.

Lemma contribution_fresh now dose :
  getTime (med_timestamp dose) = now ->
  contribution now dose
  == match type dose with bolus => units dose | basal => 0 end.
Proof.
  intros Hts. unfold contribution, qualifies, remaining, age.
  rewrite Hts, Z.sub_diag.
  destruct (type dose); simpl; [reflexivity|].
  change (Qmax 0 ((inject_Z ACTIVE_WINDOW - inject_Z 0) / inject_Z ACTIVE_WINDOW))
    with (Qmax 0 ((18000000 - 0) / 18000000)).
  rewrite Q.max_r; [field|discriminate].
Qed.

Lemma contribution_spent now dose :
  (ACTIVE_WINDOW <= age now dose)%Z -> contribution now dose == 0.
Proof.
  intros H. unfold contribution, qualifies.
  destruct (MedicationType_eqb (type dose) bolus); [|reflexivity].
  destruct (age now dose <=? ACTIVE_WINDOW)%Z eqn:E; [|reflexivity].
  apply Z.leb_le in E. assert (Eq : age now dose = ACTIVE_WINDOW) by lia.
  simpl. unfold remaining. rewrite Eq.
  setoid_replace ((inject_Z ACTIVE_WINDOW - inject_Z ACTIVE_WINDOW)
                    / inject_Z ACTIVE_WINDOW) with 0 by (field; discriminate).
  rewrite Q.max_id. ring.
Qed.

Lemma contribution_at_most_units now dose :
  (getTime (med_timestamp dose) <= now)%Z -> 0 <= units dose ->
  contribution now dose
  <= if MedicationType_eqb (type dose) bolus then units dose else 0.
Proof.
  intros Hts Hunits. unfold contribution, qualifies.
  destruct (MedicationType_eqb (type dose) bolus); [|apply Qle_refl].
  destruct (age now dose <=? ACTIVE_WINDOW)%Z; [|exact Hunits].
  simpl. unfold remaining.
  rewrite <- (Qmult_1_r (units dose)) at 2.
  rewrite (Qmult_comm (units dose)), (Qmult_comm (units dose)).
  apply Qmult_le_compat_r; [|exact Hunits].
  apply Q.max_lub; [discriminate|].
  apply Qle_shift_div_r; [reflexivity|].
  assert (H : 0 <= inject_Z (age now dose)).
  { change 0 with (inject_Z 0). rewrite <- Zle_Qle. unfold age. lia. }
  lra.
Qed.

End Decay.

(** X11.  With no negative units in the history and no new dose, the
    insulin on board never rises as the clock advances. *)
Theorem insulin_on_board_never_rises (now now' : Z) (d : DataStore) :
  (now <= now')%Z ->
  Forall (fun dose => 0 <= units dose) (medicationLogs d) ->
  getInsulinOnBoard now' d <= getInsulinOnBoard now d.
Proof.
  intros Hnow Hunits.
  rewrite !IOBFacts.getInsulinOnBoard_sum, !IOBFacts.computeIOB_contributions.
  apply Decay.sumQ_le. eapply Forall_impl; [|exact Hunits].
  intros dose. apply Decay.contribution_antitone. exact Hnow.
Qed.

(** [sampleDoses] one hour and two hours after the fresh bolus. *)
Lemma insulin_on_board_never_rises_witness :
  getInsulinOnBoard 7200000 sampleDoses <= getInsulinOnBoard 3600000 sampleDoses.
Proof.
  apply (@insulin_on_board_never_rises 3600000 7200000 sampleDoses).
  - lia.
  - repeat constructor; discriminate.
Defined.

(** X12.  Once every dose of the history is at least five hours old, the
    insulin on board is zero, whatever the units. *)
Theorem insulin_on_board_zero_after_five_hours (now : Z) (d : DataStore) :
  Forall (fun dose => (5 * msPerHour <= now - getTime (med_timestamp dose))%Z)
         (medicationLogs d) ->
  getInsulinOnBoard now d == 0.
Proof.
  intros Hold.
  rewrite IOBFacts.getInsulinOnBoard_sum, IOBFacts.computeIOB_contributions.
  apply Decay.sumQ_zero. eapply Forall_impl; [|exact Hold].
  intros dose H. apply Decay.contribution_spent. exact H.
Qed.

(** [sampleDoses] exactly five hours after the fresh bolus. *)
Lemma insulin_on_board_zero_after_five_hours_witness :
  getInsulinOnBoard 18000000 sampleDoses == 0.
Proof.
  apply (@insulin_on_board_zero_after_five_hours 18000000 sampleDoses).
  repeat constructor; simpl; unfold msPerHour; lia.
Defined.

(** X13.  Logging a dose raises the insulin on board read at the same
    clock by exactly its units when it is a bolus, and not at all when it
    is basal. *)
Theorem logging_a_dose_adds_its_units (now : Z) (dose : NewMedicationLog)
    (d : DataStore) :
  getInsulinOnBoard now (addMedicationLog now dose d)
  == getInsulinOnBoard now d
     + match new_type dose with bolus => new_units dose | basal => 0 end.
Proof.
  rewrite !IOBFacts.getInsulinOnBoard_sum, !IOBFacts.computeIOB_contributions.
  unfold addMedicationLog. cbn [medicationLogs set_medicationLogs].
  rewrite sumQ_app. simpl sumQ.
  rewrite Decay.contribution_fresh by reflexivity. simpl. ring.
Qed.

(** X14.  When no dose is stamped after the clock and no units are
    negative, the insulin on board is at most the total of the bolus
    units. *)
Theorem insulin_on_board_at_most_bolus_total (now : Z) (d : DataStore) :
  Forall (fun dose => (getTime (med_timestamp dose) <= now)%Z /\ 0 <= units dose)
         (medicationLogs d) ->
  getInsulinOnBoard now d
  <= sumQ units
       (filter (fun dose => MedicationType_eqb (type dose) bolus)
               (medicationLogs d)).
Proof.
  intros H.
  rewrite IOBFacts.getInsulinOnBoard_sum, IOBFacts.computeIOB_contributions.
  rewrite sumQ_filter. apply Decay.sumQ_le.
  eapply Forall_impl; [|exact H].
  intros dose [Hts Hunits]. apply Decay.contribution_at_most_units; assumption.
Qed.

(** [sampleDoses] holds 10 bolus units; one hour on, 3.2 are on board. *)
Lemma insulin_on_board_at_most_bolus_total_witness :
  getInsulinOnBoard 3600000 sampleDoses
  <= sumQ units
       (filter (fun dose => MedicationType_eqb (type dose) bolus)
               (medicationLogs sampleDoses)).
Proof.
  apply (@insulin_on_board_at_most_bolus_total 3600000 sampleDoses).
  repeat constructor; simpl; try lia; discriminate.
Defined.

(** ** Effects of the Guardian call and of a generation cycle *)

Section Effects.

Variable Number_toString : Q -> string.
Variable JSON_stringify : Analysis -> string.

Local Abbreviation sendEmergencyAlert' := (sendEmergencyAlert Number_toString).
Local Abbreviation callGuardian' :=
  (callGuardian Number_toString JSON_stringify).
Local Abbreviation generateReading' :=
  (generateReading Number_toString JSON_stringify).
Local Abbreviation guardianInteraction' :=
  (guardianInteraction Number_toString JSON_stringify).

Ltac run :=
  unfold tryCatch, bind, ret, throw, when, onStore, readStore, onSimulator,
    readSimulator, console_write, post, notify; simpl.

(** What [sendEmergencyAlert] posts: one request when there is a doctor,
    none otherwise; it never throws. *)
Lemma sendEmergencyAlert_effects env bgl trend analysis w :
  exists w',
    sendEmergencyAlert' env bgl trend analysis w = (inr tt, w') /\
    store w' = store w /\ simulator w' = simulator w /\
    notified w' = notified w /\
    posted w' =
      posted w ++
        (if (Z.of_nat (length (emergencyDoctors (store w))) =? 0)%Z then []
         else [emergencyRequest env bgl trend (store w)]).
Proof.
  unfold sendEmergencyAlert. run. unfold getEmergencyDoctors.
  destruct (Z.of_nat (length (emergencyDoctors (store w))) =? 0)%Z; simpl.
  - eexists. repeat split. simpl. rewrite app_nil_r. reflexivity.
  - fold (getEmergencyDoctors (store w)). fold (getUserProfile (store w)).
    fold (emergencyRequest env bgl trend (store w)).
    destruct (emailServer env _) as [reason|status [result|]]; simpl;
      try destruct (ok status); simpl; eexists; repeat split.
Qed.

#[local] Arguments sendEmergencyAlert : simpl never.

(** The effects of [callGuardian], by the answer of the service. *)
Lemma callGuardian_effects env bgl trend iob w :
  let r := callGuardian' env bgl trend iob w in
  match guardian env {| req_bgl := bgl; req_trend := trend;
                        req_insulinOnBoard := iob |} with
  | FetchResponse status (body_analysis (JSONValue a)) =>
      if ok status then
        exists w',
          r = (inr (responseOf a), w') /\
          store w' = guardianInteraction' env bgl trend iob a (store w) /\
          simulator w' = simulator w /\ notified w' = notified w /\
          posted w' =
            posted w ++
              (if alert a && isCritical (severity a)
                  && negb (Z.of_nat (length (emergencyDoctors (store w))) =? 0)%Z
               then [emergencyRequest env bgl trend (store w)] else [])
      else threw r w "Guardian error:"
  | FetchResponse status (body_analysis JSONNull) =>
      if ok status
      then threwRecorded r w "Guardian error:"
             (guardianNullInteraction Number_toString env bgl trend iob
                (store w))
      else threw r w "Guardian error:"
  | _ => threw r w "Guardian error:"
  end.
Proof.
  cbv zeta. unfold callGuardian. run.
  destruct (guardian env _) as [reason|status [[raw|a|]|err]]; simpl;
    try (destruct (ok status); simpl);
    try (eexists; eexists; repeat split; reflexivity).
  fold (guardianInteraction' env bgl trend iob a (store w)).
  destruct (alert a && isCritical (severity a)); simpl.
  - match goal with
    | |- context [sendEmergencyAlert _ ?e ?b ?t ?an ?w0] =>
        destruct (sendEmergencyAlert_effects e b t an w0)
          as (w' & E & Hs & Hsim & Hn & Hp);
        change (emergencyDoctors (store w0)) with (emergencyDoctors (store w)) in Hp;
        change (emergencyRequest e b t (store w0))
          with (emergencyRequest e b t (store w)) in Hp
    end.
    rewrite E. simpl. exists w'.
    split; [reflexivity|]. split; [exact Hs|]. split; [exact Hsim|].
    split; [exact Hn|]. rewrite Hp. simpl.
    destruct (Z.of_nat (length (emergencyDoctors (store w))) =? 0)%Z;
      reflexivity.
  - eexists. repeat split. simpl. rewrite app_nil_r. reflexivity.
Qed.

#[local] Arguments callGuardian : simpl never.

(** X18.  [callGuardian] records an interaction exactly when the service
    answers with an ok status and a text that parses: one interaction, by
    the agent "guardian", stamped with the clock, holding the three values
    and a text of the answer ("null" for [null]).  It then returns when the
    parsed value is not [null] and throws when it is; in every other case
    it throws and records nothing.  It never touches the readings, meals, medications, profile
    or doctors. *)
Theorem guardian_call_records_one_interaction env bgl trend iob w :
  exists result w',
    callGuardian Number_toString JSON_stringify env bgl trend iob w
    = (result, w') /\
    glucoseReadings (store w') = glucoseReadings (store w) /\
    mealLogs (store w') = mealLogs (store w) /\
    medicationLogs (store w') = medicationLogs (store w) /\
    userProfile (store w') = userProfile (store w) /\
    emergencyDoctors (store w') = emergencyDoctors (store w) /\
    let recorded text :=
      agentInteractions (store w')
      = agentInteractions (store w)
        ++ [guardianEntry Number_toString env bgl trend iob text] in
    let nothing :=
      agentInteractions (store w') = agentInteractions (store w) in
    match guardian env {| req_bgl := bgl; req_trend := trend;
                          req_insulinOnBoard := iob |} with
    | FetchResponse status (body_analysis (JSONValue a)) =>
        if ok status
        then result = inr (responseOf a) /\ exists text, recorded text
        else (exists e, result = inl e) /\ nothing
    | FetchResponse status (body_analysis JSONNull) =>
        if ok status
        then (exists e, result = inl e) /\ recorded "null"%string
        else (exists e, result = inl e) /\ nothing
    | _ => (exists e, result = inl e) /\ nothing
    end.
Proof.
  pose proof (callGuardian_effects env bgl trend iob w) as H. cbv zeta in H.
  cbv zeta.
  assert (T : threw (callGuardian' env bgl trend iob w) w "Guardian error:" ->
              exists result w',
                callGuardian' env bgl trend iob w = (result, w') /\
                glucoseReadings (store w') = glucoseReadings (store w) /\
                mealLogs (store w') = mealLogs (store w) /\
                medicationLogs (store w') = medicationLogs (store w) /\
                userProfile (store w') = userProfile (store w) /\
                emergencyDoctors (store w') = emergencyDoctors (store w) /\
                (exists e, result = inl e) /\
                agentInteractions (store w') = agentInteractions (store w)).
  { intros (e & w' & E & Hs & _). exists (inl e), w'. rewrite Hs.
    repeat split; try assumption. exists e. reflexivity. }
  destruct (guardian env _) as [reason|status [[raw|a|]|err]]; auto.
  - destruct (ok status); auto.
    destruct H as (w' & E & Hs & _).
    exists (inr (responseOf a)), w'. rewrite Hs.
    split; [exact E|]. repeat split.
    exists (JSON_stringify a). reflexivity.
  - destruct (ok status); auto.
    destruct H as (e & w' & E & Hs & _).
    exists (inl e), w'. rewrite Hs.
    split; [exact E|]. repeat split. exists e. reflexivity.
Qed.

(** X19.  [callGuardian] posts an emergency e-mail request exactly when it
    returns an answer with a truthy [alert] and the severity "critical"
    while at least one doctor is configured, and then it posts one request,
    labelled by [bgl < 70] and addressed to all doctors; a warning, a
    failure or an empty doctor list posts nothing. *)
Theorem emergency_email_only_for_critical_alerts env bgl trend iob w :
  exists result w',
    callGuardian' env bgl trend iob w = (result, w') /\
    posted w' =
      posted w ++
        match result with
        | inr response =>
            match metadata response with
            | Some a =>
                if alert a && isCritical (severity a)
                   && negb (Z.of_nat (length (emergencyDoctors (store w))) =? 0)%Z
                then [emergencyRequest env bgl trend (store w)]
                else []
            | None => []
            end
        | inl _ => []
        end.
Proof.
  pose proof (callGuardian_effects env bgl trend iob w) as H. cbv zeta in H.
  assert (T : threw (callGuardian' env bgl trend iob w) w "Guardian error:" ->
              exists result w',
                callGuardian' env bgl trend iob w = (result, w') /\
                posted w' =
                  posted w ++
                    match result with
                    | inr response =>
                        match metadata response with
                        | Some a =>
                            if alert a && isCritical (severity a)
                               && negb (Z.of_nat
                                          (length (emergencyDoctors (store w)))
                                        =? 0)%Z
                            then [emergencyRequest env bgl trend (store w)]
                            else []
                        | None => []
                        end
                    | inl _ => []
                    end).
  { intros (e & w' & E & _ & _ & _ & Hp & _). exists (inl e), w'.
    rewrite Hp, app_nil_r. auto. }
  destruct (guardian env _) as [reason|status [[raw|a|]|err]]; auto.
  - destruct (ok status); auto.
    destruct H as (w' & E & _ & _ & _ & Hp).
    exists (inr (responseOf a)), w'. split; [exact E|exact Hp].
  - destruct (ok status); auto.
    destruct H as (e & w' & E & _ & _ & _ & Hp & _). exists (inl e), w'.
    rewrite Hp, app_nil_r. auto.
Qed.

Lemma addGlucoseReading_medicationLogs now reading d :
  medicationLogs (addGlucoseReading now reading d) = medicationLogs d.
Proof. unfold addGlucoseReading. destruct (1000 <? _)%Z; reflexivity. Qed.

(** What [raiseAlert] hands to the callback. *)
Lemma raiseAlert_effects response w :
  exists r w',
    raiseAlert response w = (r, w') /\ store w' = store w /\
    simulator w' = simulator w /\
    notified w' = notified w ++ alertsOf response (alertCallback (simulator w)).
Proof.
  unfold raiseAlert, alertsOf. run.
  destruct (metadata response) as [m|];
    [|eexists; eexists; repeat split; simpl; rewrite app_nil_r; reflexivity].
  destruct (alertCallback (simulator w)) as [f|];
    [|eexists; eexists; repeat split; simpl; rewrite app_nil_r; reflexivity].
  destruct (alert m);
    [|eexists; eexists; repeat split; simpl; rewrite app_nil_r; reflexivity].
  simpl. destruct (f _); eexists; eexists; repeat split.
Qed.

(** One generation cycle, in full: the simulator afterwards, the reading
    appended, and the alerts handed to the callback. *)
Lemma generateReading_effects env w :
  let change := calculateChange env (simulator w) (store w) in
  let value :=
    Math_max 40 (Math_min 400 (currentBGL (simulator w) + change)) in
  let sim' := updateTrend change (set_currentBGL value (simulator w)) in
  let reading :=
    {| new_bgl := inject_Z (Math_round value);
       new_trend := TrendType_toString (currentTrend sim');
       new_insulinOnBoard := getInsulinOnBoard (now env) (store w);
       new_notes := None |} in
  exists w',
    generateReading' env w = (inr tt, w') /\
    simulator w' = sim' /\
    glucoseReadings (store w') =
      glucoseReadings (addGlucoseReading (now env) reading (store w)) /\
    medicationLogs (store w') = medicationLogs (store w) /\
    notified w' =
      notified w ++
        match guardian env {| req_bgl := new_bgl reading;
                              req_trend := new_trend reading;
                              req_insulinOnBoard := new_insulinOnBoard reading |}
        with
        | FetchResponse status (body_analysis (JSONValue a)) =>
            if ok status
            then alertsOf (responseOf a) (alertCallback (simulator w))
            else []
        | _ => []
        end.
Proof.
  cbv zeta. unfold generateReading. run.
  rewrite !updateTrend_currentBGL. simpl.
  set (change := calculateChange env (simulator w) (store w)).
  set (value := Math_max 40 (Math_min 400 (currentBGL (simulator w) + change))).
  set (sim' := updateTrend change (set_currentBGL value (simulator w))).
  match goal with
  | |- context [callGuardian _ _ ?e ?b ?t ?i ?w1] =>
      pose proof (callGuardian_effects e b t i w1) as Hc;
      set (w1' := w1) in *
  end.
  cbv zeta in Hc.
  assert (Hcb : alertCallback (simulator w1') = alertCallback (simulator w)).
  { unfold w1'. simpl. unfold sim'. rewrite updateTrend_alertCallback.
    reflexivity. }
  destruct (guardian env _) as [reason|status [[raw|a|]|err]];
    try destruct (ok status);
    try (destruct Hc as (e & w2 & E & Hs & Hsim & Hnot & _ & _);
         rewrite E; eexists; (split; [reflexivity|]); simpl;
         rewrite Hs, Hsim, Hnot; unfold w1'; simpl;
         rewrite app_nil_r, addGlucoseReading_medicationLogs;
         repeat split; reflexivity).
  destruct Hc as (w2 & E & Hs & Hsim & Hnot & _). rewrite E.
  destruct (raiseAlert_effects (responseOf a) w2)
    as (r & w3 & E3 & Hs3 & Hsim3 & Hnot3).
  rewrite E3.
  assert (Hfinal :
    simulator w3 = sim' /\
    glucoseReadings (store w3) =
      glucoseReadings
        (addGlucoseReading (now env)
           {| new_bgl := inject_Z (Math_round value);
              new_trend := TrendType_toString (currentTrend sim');
              new_insulinOnBoard := getInsulinOnBoard (now env) (store w);
              new_notes := None |} (store w)) /\
    medicationLogs (store w3) = medicationLogs (store w) /\
    notified w3 =
      notified w ++ alertsOf (responseOf a) (alertCallback (simulator w))).
  { rewrite Hsim3, Hs3, Hnot3, Hsim, Hs, Hnot, Hcb. unfold w1'. simpl.
    rewrite addGlucoseReading_medicationLogs. repeat split; reflexivity. }
  destruct Hfinal as (F1 & F2 & F3 & F4).
  destruct r as [exn|[]]; eexists; (split; [reflexivity|]); simpl;
    repeat split; assumption.
Qed.

Lemma latest_of_snoc d older x :
  glucoseReadings d = older ++ [x] -> getLatestGlucoseReading d = Some x.
Proof.
  intros E. unfold getLatestGlucoseReading. rewrite E.
  rewrite nth_error_snoc_last, length_app. simpl.
  destruct (0 <? Z.of_nat (length older + 1))%Z eqn:P; [reflexivity|].
  apply Z.ltb_ge in P. lia.
Qed.

(** X15.  After every generation cycle the simulator's current value lies
    in [40, 400], and [getCurrentReading] reports the value and the trend
    of the latest stored reading, which is stamped with the clock of the
    cycle. *)
Theorem cycle_state_matches_latest_reading env w :
  exists w',
    generateReading' env w = (inr tt, w') /\
    40 <= currentBGL (simulator w') /\ currentBGL (simulator w') <= 400 /\
    exists latest,
      getLatestGlucoseReading (store w') = Some latest /\
      gr_timestamp latest = mkDate (now env) /\
      bgl latest
      = inject_Z (cur_bgl (getCurrentReading (now env) (simulator w') (store w'))) /\
      trend latest
      = TrendType_toString
          (cur_trend (getCurrentReading (now env) (simulator w') (store w'))).
Proof.
  pose proof (generateReading_effects env w) as H. cbv zeta in H.
  destruct H as (w' & E & Hsim & Hreadings & _).
  exists w'. split; [exact E|].
  rewrite Hsim, updateTrend_currentBGL. cbn [currentBGL set_currentBGL].
  split; [apply clamp_bounds|]. split; [apply clamp_bounds|].
  match type of Hreadings with
  | _ = glucoseReadings (addGlucoseReading ?n ?r ?d0) =>
      destruct (addGlucoseReading_snoc n r d0) as (older & Eo & _);
      exists (stampReading n r)
  end.
  split.
  - apply latest_of_snoc with older. rewrite Hreadings. exact Eo.
  - unfold getCurrentReading. cbn [cur_bgl cur_trend].
    rewrite updateTrend_currentBGL. repeat split.
Qed.

(** X20.  A generation cycle hands at most one alert to the callback: none
    when no callback is registered, none when the Guardian cannot be used,
    and, when the Guardian gives a usable answer, one alert with the
    answer's severity and [action || prediction] as message exactly when
    the answer's [alert] is truthy. *)
Theorem alert_callback_at_most_once_per_cycle env w :
  exists w',
    generateReading' env w = (inr tt, w') /\
    (exists alerts,
       notified w' = notified w ++ alerts /\ (length alerts <= 1)%nat) /\
    (alertCallback (simulator w) = None -> notified w' = notified w) /\
    ((forall req, unreadable (guardian env req) = true) ->
     notified w' = notified w) /\
    (forall a,
       (forall req, guardian env req
                    = FetchResponse 200 (body_analysis (JSONValue a))) ->
       notified w' =
         notified w ++
           match alertCallback (simulator w) with
           | Some _ =>
               if alert a
               then [{| alert_severity := severity a;
                        alert_message := orElse (action a) (prediction a) |}]
               else []
           | None => []
           end).
Proof.
  pose proof (generateReading_effects env w) as H. cbv zeta in H.
  destruct H as (w' & E & _ & _ & _ & Hnot).
  exists w'. split; [exact E|].
  match type of Hnot with
  | context [guardian env ?r] => set (req := r) in *
  end.
  assert (Hshape : forall a, (length (alertsOf (responseOf a)
                                (alertCallback (simulator w))) <= 1)%nat).
  { intros a. unfold alertsOf. simpl.
    destruct (alertCallback (simulator w)); [destruct (alert a)|]; simpl; lia. }
  split; [|split; [|split]].
  - eexists. split; [exact Hnot|].
    destruct (guardian env req) as [reason|status [[raw|a|]|err]];
      try destruct (ok status); simpl; try lia. apply Hshape.
  - intros Hnone. rewrite Hnot, Hnone.
    destruct (guardian env req) as [reason|status [[raw|a|]|err]];
      try destruct (ok status); simpl; apply app_nil_r.
  - intros Hdown. rewrite Hnot. pose proof (Hdown req) as U.
    destruct (guardian env req) as [reason|status [[raw|a|]|err]];
      simpl in U; try destruct (ok status); try discriminate;
      apply app_nil_r.
  - intros a Hanswer. rewrite Hnot, (Hanswer req). cbn [ok Z.leb Z.compare andb].
    unfold alertsOf. simpl.
    destruct (alertCallback (simulator w)); reflexivity.
Qed.

(** The time-of-day drift and the final noise, for draws in [0, 1). *)
Lemma calculateChange_at_least env sim d :
  (forall n, 0 <= random env n) ->
  getInsulinOnBoard (now env) d <= 4 ->
  -5 <= calculateChange env sim d.
Proof.
  intros Hr Hiob. unfold calculateChange, baseChange.
  pose proof (Hr 0%nat) as R0. pose proof (Hr 1%nat) as R1.
  pose proof (Hr 2%nat) as R2.
  destruct (0 <? Z.of_nat (length (getMealLogs (now env) 1 d)))%Z;
    destruct ((6 <=? getHours env) && (getHours env <=? 8))%Z;
    destruct ((12 <=? getHours env) && (getHours env <=? 13))%Z;
    destruct (gtb (currentBGL sim) 180); destruct (ltb (currentBGL sim) 80);
    lra.
Qed.

Lemma calculateChange_below_without_meal env sim d :
  (forall n, random env n < 1) ->
  getMealLogs (now env) 1 d = [] ->
  0 <= getInsulinOnBoard (now env) d ->
  calculateChange env sim d < 6.
Proof.
  intros Hr Hmeal Hiob. unfold calculateChange, baseChange.
  rewrite Hmeal. cbn [length Z.of_nat Z.ltb Z.compare].
  pose proof (Hr 0%nat) as R0. pose proof (Hr 1%nat) as R1.
  destruct ((6 <=? getHours env) && (getHours env <=? 8))%Z;
    destruct ((12 <=? getHours env) && (getHours env <=? 13))%Z;
    destruct (gtb (currentBGL sim) 180); destruct (ltb (currentBGL sim) 80);
    lra.
Qed.

(** X16.  With draws of [Math.random] that are not negative and at most 4
    units of insulin on board, a generation cycle never stores or keeps a
    falling trend: neither "down" nor "double_down". *)
Theorem no_falling_trend_without_insulin env w :
  (forall n, 0 <= random env n) ->
  getInsulinOnBoard (now env) (store w) <= 4 ->
  exists w' latest,
    generateReading' env w = (inr tt, w') /\
    getLatestGlucoseReading (store w') = Some latest /\
    trend latest = TrendType_toString (currentTrend (simulator w')) /\
    currentTrend (simulator w') <> down /\
    currentTrend (simulator w') <> double_down.
Proof.
  intros Hr Hiob.
  pose proof (calculateChange_at_least env (simulator w) (store w) Hr Hiob) as Hc.
  pose proof (generateReading_effects env w) as H. cbv zeta in H.
  destruct H as (w' & E & Hsim & Hreadings & _).
  match type of Hreadings with
  | _ = glucoseReadings (addGlucoseReading ?n ?r ?d0) =>
      destruct (addGlucoseReading_snoc n r d0) as (older & Eo & _);
      exists w', (stampReading n r)
  end.
  split; [exact E|]. split.
  { apply latest_of_snoc with older. rewrite Hreadings. exact Eo. }
  rewrite Hsim. split; [reflexivity|].
  match goal with
  | |- context [updateTrend ?c ?s] =>
      pose proof (updateTrend_cases c s) as Hcases
  end.
  cbv zeta in Hcases.
  assert (Hrate : -1 <= calculateChange env (simulator w) (store w) / 5).
  { apply Qle_shift_div_l; [reflexivity|]. lra. }
  destruct Hcases as [[_ ->]|[(_ & _ & ->)|[[H1 _]|[(_ & H2 & _)|(_ & _ & ->)]]]];
    try (split; discriminate); exfalso; lra.
Qed.

(** X17.  With draws of [Math.random] below 1, no meal logged in the last
    hour and no negative insulin on board, a generation cycle never ends
    with the trend "double_up". *)
Theorem no_double_up_without_recent_meal env w :
  (forall n, random env n < 1) ->
  getMealLogs (now env) 1 (store w) = [] ->
  0 <= getInsulinOnBoard (now env) (store w) ->
  exists w' latest,
    generateReading' env w = (inr tt, w') /\
    getLatestGlucoseReading (store w') = Some latest /\
    trend latest = TrendType_toString (currentTrend (simulator w')) /\
    currentTrend (simulator w') <> double_up.
Proof.
  intros Hr Hmeal Hiob.
  pose proof (calculateChange_below_without_meal env (simulator w) (store w)
                Hr Hmeal Hiob) as Hc.
  pose proof (generateReading_effects env w) as H. cbv zeta in H.
  destruct H as (w' & E & Hsim & Hreadings & _).
  match type of Hreadings with
  | _ = glucoseReadings (addGlucoseReading ?n ?r ?d0) =>
      destruct (addGlucoseReading_snoc n r d0) as (older & Eo & _);
      exists w', (stampReading n r)
  end.
  split; [exact E|]. split.
  { apply latest_of_snoc with older. rewrite Hreadings. exact Eo. }
  rewrite Hsim. split; [reflexivity|].
  match goal with
  | |- context [updateTrend ?c ?s] =>
      pose proof (updateTrend_cases c s) as Hcases
  end.
  cbv zeta in Hcases.
  assert (Hrate : calculateChange env (simulator w) (store w) / 5 <= 2).
  { apply Qle_shift_div_r; [reflexivity|]. lra. }
  destruct Hcases as [[H1 _]|[(_ & _ & ->)|[[_ ->]|[(_ & _ & ->)|(_ & _ & ->)]]]];
    try discriminate; exfalso; lra.
Qed.

End Effects.

(** A cycle with a registered callback and a Guardian that raises the
    alarm: one alert is handed over. *)
Lemma alert_callback_at_most_once_per_cycle_witness :
  exists w',
    generateReading plainNumber plainJSON alarmEnv watchedWorld = (inr tt, w') /\
    notified w' =
      [{| alert_severity := Some "critical"%string;
          alert_message := Some "consume 15g fast carbs"%string |}].
Proof.
  destruct (alert_callback_at_most_once_per_cycle plainNumber plainJSON
              alarmEnv watchedWorld) as (w' & E & _ & _ & _ & Hanswer).
  exists w'. split; [exact E|].
  apply (Hanswer criticalAnswer). intros req. reflexivity.
Defined.

(** A cycle on a new store: no insulin on board. *)
Lemma no_falling_trend_without_insulin_witness :
  exists w' latest,
    generateReading plainNumber plainJSON offlineEnv freshWorld = (inr tt, w') /\
    getLatestGlucoseReading (store w') = Some latest /\
    trend latest = TrendType_toString (currentTrend (simulator w')) /\
    currentTrend (simulator w') <> down /\
    currentTrend (simulator w') <> double_down.
Proof.
  apply (@no_falling_trend_without_insulin plainNumber plainJSON
           offlineEnv freshWorld).
  - intros n. discriminate.
  - discriminate.
Defined.

(** A cycle on a new store: no meal, no insulin. *)
Lemma no_double_up_without_recent_meal_witness :
  exists w' latest,
    generateReading plainNumber plainJSON offlineEnv freshWorld = (inr tt, w') /\
    getLatestGlucoseReading (store w') = Some latest /\
    trend latest = TrendType_toString (currentTrend (simulator w')) /\
    currentTrend (simulator w') <> double_up.
Proof.
  apply (@no_double_up_without_recent_meal plainNumber plainJSON
           offlineEnv freshWorld).
  - intros n. reflexivity.
  - reflexivity.
  - discriminate.
Defined.

(** ** Keyword routing *)

(** X21.  The keyword routing of [callOrchestrator]: a message with an
    image goes to the nutritionist whatever its text; a message that
    contains "week" goes to the nutritionist or the coach, never directly
    to the secretary or the Guardian; and the Guardian is only chosen when
    the last four hours hold a reading, with the value and trend of the
    newest such reading and the insulin on board of the moment. *)
Theorem direct_routing_priorities (messageLower : string)
    (imageBase64 : option string) (now : Z) (d : DataStore) :
  let route := directRoute messageLower imageBase64 now d in
  (truthy imageBase64 = true -> route = ToNutritionist) /\
  (includes messageLower "week" = true ->
   route = ToNutritionist \/ route = ToCoach) /\
  (forall b t i,
     route = ToGuardian b t i ->
     exists older latest,
       getGlucoseReadings now 4 d = older ++ [latest] /\
       b = bgl latest /\ t = trend latest /\
       i = getInsulinOnBoard now d).
Proof.
  cbv zeta. unfold directRoute.
  cbn [recentReadings currentIOB getAgentContext].
  split; [|split].
  - intros H. rewrite H. reflexivity.
  - intros H. rewrite H.
    destruct (truthy imageBase64 || includes messageLower "meal"
              || includes messageLower "food" || includes messageLower "carb"
              || includes messageLower "insulin dose"); [left; reflexivity|].
    right. rewrite !orb_true_r. reflexivity.
  - intros b t i.
    repeat match goal with
    | |- context [if ?c then _ else _] => destruct c; try discriminate
    end.
    destruct (getGlucoseReadings now 4 d) as [|r l] eqn:W;
      [simpl; discriminate|].
    destruct (@exists_last _ (r :: l)) as (older & latest & E);
      [discriminate|].
    rewrite E, nth_error_snoc_last. intros H. injection H as <- <- <-.
    exists older, latest. repeat split.
Qed.

(** A request for the weekly report goes to the coach. *)
Lemma direct_routing_priorities_witness :
  includes "please send my weekly report" "week" = true /\
  directRoute "please send my weekly report" None 0 newDataStore = ToCoach.
Proof.
  split; [reflexivity|].
  destruct (proj1 (proj2 (direct_routing_priorities
                            "please send my weekly report" None 0 newDataStore))
                  eq_refl) as [H|H].
  - discriminate H.
  - exact H.
Defined.

(** ** Quick actions and doctor contacts *)

Lemma handleLogInsulin_adds now parsed d :
  exists added,
    medicationLogs (fst (handleLogInsulin now parsed d))
    = medicationLogs d ++ added /\
    Forall (fun dose => type dose = bolus /\ 0 < units dose) added.
Proof.
  unfold handleLogInsulin. destruct parsed as [u|].
  - destruct (Qeq_bool u 0 || leb u 0) eqn:E.
    + exists []. simpl. rewrite app_nil_r. split; constructor.
    + apply orb_false_iff in E. destruct E as [_ E]. apply leb_nle in E.
      exists [{| med_timestamp := mkDate now; type := bolus; units := u;
                 med_notes := None |}].
      split; [reflexivity|]. repeat constructor. exact E.
  - exists []. simpl. rewrite app_nil_r. split; constructor.
Qed.

(** X22.  Whatever is typed into the insulin quick action, every dose it
    logs is a bolus with positive units (NaN, zero and negative entries are
    rejected and leave the store alone), so a history without negative
    units stays one and its insulin on board is never negative. *)
Theorem quick_action_logs_positive_boluses (entries : list (Z * option Q))
    (d : DataStore) :
  Forall (fun dose => 0 <= units dose) (medicationLogs d) ->
  (exists added,
     medicationLogs (logInsulinAll entries d) = medicationLogs d ++ added /\
     Forall (fun dose => type dose = bolus /\ 0 < units dose) added) /\
  (forall now, 0 <= getInsulinOnBoard now (logInsulinAll entries d)).
Proof.
  intros Hunits.
  assert (Hadded : exists added,
     medicationLogs (logInsulinAll entries d) = medicationLogs d ++ added /\
     Forall (fun dose => type dose = bolus /\ 0 < units dose) added).
  { clear Hunits. unfold logInsulinAll. revert d.
    induction entries as [|e entries IH]; intros d.
    - exists []. simpl. rewrite app_nil_r. split; constructor.
    - simpl. destruct (IH (fst (handleLogInsulin (fst e) (snd e) d)))
        as (later & E & Hlater).
      destruct (handleLogInsulin_adds (fst e) (snd e) d) as (first & E1 & Hfirst).
      exists (first ++ later). split.
      + rewrite E, E1, app_assoc. reflexivity.
      + apply Forall_app. split; assumption. }
  split; [exact Hadded|].
  intros now. destruct Hadded as (added & E & Hpos).
  rewrite IOBFacts.getInsulinOnBoard_sum, IOBFacts.computeIOB_contributions.
  apply sumQ_nonneg. rewrite E. apply Forall_app. split.
  - eapply Forall_impl; [|exact Hunits].
    intros dose. apply IOBFacts.contribution_nonneg.
  - eapply Forall_impl; [|exact Hpos].
    intros dose [_ H]. apply IOBFacts.contribution_nonneg.
    apply Qlt_le_weak. exact H.
Qed.

(** Three entries on a new store: 4.5 units, a negative number, NaN. *)
Lemma quick_action_logs_positive_boluses_witness :
  let d := logInsulinAll [(0%Z, Some (9 # 2)); (60000%Z, Some (-3));
                          (120000%Z, None)] newDataStore in
  medicationLogs d = [doseOf 0 bolus (9 # 2)] /\
  0 <= getInsulinOnBoard 180000 d.
Proof.
  cbv zeta. split; [reflexivity|].
  apply (@quick_action_logs_positive_boluses
           [(0%Z, Some (9 # 2)); (60000%Z, Some (-3)); (120000%Z, None)]
           newDataStore).
  constructor.
Defined.

Lemma filter_out_one (email : string) (l : list string) :
  NoDup l ->
  (length l <= S (length (filter (fun e => negb (String.eqb e email)) l)))%nat.
Proof.
  induction 1 as [|x l Hx Hl IH]; simpl; [lia|].
  destruct (String.eqb x email) eqn:E; simpl; [|lia].
  apply String.eqb_eq in E. subst x.
  rewrite filter_all; [lia|].
  intros e He. apply negb_true_iff, String.eqb_neq. intros ->. exact (Hx He).
Qed.

(** X23.  Removing a doctor through the contacts component never empties
    the list: when the list shown is the store's list, has no duplicates
    and is not empty, the list afterwards is again the store's list, has no
    duplicates and is not empty. *)
Theorem contacts_component_keeps_a_doctor (email : string)
    (doctors : list string) (d : DataStore) :
  doctors = emergencyDoctors d -> NoDup doctors -> doctors <> [] ->
  let '(d', shown, _) := handleRemoveDoctor email doctors d in
  shown = emergencyDoctors d' /\ NoDup shown /\ shown <> [].
Proof.
  intros -> Hnodup Hne. unfold handleRemoveDoctor.
  destruct (Z.of_nat (length (emergencyDoctors d)) =? 1)%Z eqn:E.
  - repeat split; assumption.
  - apply Z.eqb_neq in E.
    unfold removeEmergencyDoctor, getEmergencyDoctors. simpl.
    split; [reflexivity|]. split; [apply NoDup_filter; exact Hnodup|].
    pose proof (filter_out_one email Hnodup) as Hlen.
    intros Hempty. rewrite Hempty in Hlen. simpl in Hlen.
    destruct (emergencyDoctors d) as [|x [|y l]]; simpl in *;
      [congruence|lia|lia].
Qed.

(** One of the two default doctors is removed, then the other is kept. *)
Lemma contacts_component_keeps_a_doctor_witness :
  let '(d', shown, _) :=
    handleRemoveDoctor "ayatkhan1311@gmail.com"
      (emergencyDoctors newDataStore) newDataStore in
  shown = emergencyDoctors d' /\ NoDup shown /\ shown <> [].
Proof.
  apply (@contacts_component_keeps_a_doctor "ayatkhan1311@gmail.com"
           (emergencyDoctors newDataStore) newDataStore).
  - reflexivity.
  - repeat constructor; simpl; intuition discriminate.
  - discriminate.
Defined.

(** ** The test data generator *)

(** Turn the hour tests among the hypotheses into integer facts. *)
Ltac hour_facts :=
  repeat match goal with
  | H : (_ && _)%bool = true |- _ => apply andb_true_iff in H; destruct H
  | H : (_ && _)%bool = false |- _ => apply andb_false_iff in H
  | H : (_ || _)%bool = true |- _ => apply orb_true_iff in H
  | H : (_ || _)%bool = false |- _ => apply orb_false_iff in H; destruct H
  | H : (_ <=? _)%Z = true |- _ => apply Z.leb_le in H
  | H : (_ <=? _)%Z = false |- _ => apply Z.leb_gt in H
  | H : (_ <? _)%Z = true |- _ => apply Z.ltb_lt in H
  | H : (_ <? _)%Z = false |- _ => apply Z.ltb_ge in H
  end.

Lemma clamp_60_250_inside (x : Q) :
  95 <= x -> x <= 175 -> Math_max 60 (Math_min 250 x) == x.
Proof.
  intros Hlo Hhi. unfold Math_max, Math_min.
  destruct (leb 250 x) eqn:E1; order_facts; [exfalso; lra|].
  destruct (leb 60 x) eqn:E2; order_facts; [reflexivity|exfalso; lra].
Qed.

(** X24.  For every hour and every draw in [0, 1), the test data
    generator's glucose value lies in [95, 175]: the clamp to [60, 250]
    never acts, no generated value is below 70 or above 180, and
    [calculateTrend] calls every generated value "steady". *)
Theorem generated_test_values_stay_in_range (hour minute : Z) (r r' : Q) :
  0 <= r -> r < 1 ->
  (95 <= generateRealisticBGL hour minute r <= 175)%Z /\
  calculateTrend (inject_Z (generateRealisticBGL hour minute r)) r'
  = "steady"%string.
Proof.
  intros H0 H1.
  assert (Hrange : (95 <= generateRealisticBGL hour minute r <= 175)%Z).
  { unfold generateRealisticBGL.
    destruct ((5 <=? hour) && (hour <? 8))%Z eqn:Dawn;
      destruct (((8 <=? hour) && (hour <=? 9)) || ((12 <=? hour) && (hour <=? 13))
                || ((18 <=? hour) && (hour <=? 19)))%Z eqn:Meal;
      destruct ((22 <=? hour) || (hour <? 6))%Z eqn:Night;
      hour_facts; try (exfalso; lia);
      (apply (@Math_round_between 95 175);
       [rewrite clamp_60_250_inside | rewrite clamp_60_250_inside];
       change (inject_Z 95) with 95; change (inject_Z 175) with 175; lra). }
  split; [exact Hrange|].
  unfold calculateTrend.
  destruct Hrange as [Hlo Hhi]. rewrite Zle_Qle in Hlo, Hhi.
  change (inject_Z 95) with 95 in Hlo. change (inject_Z 175) with 175 in Hhi.
  destruct (ltb _ 80) eqn:E1; order_facts; [exfalso; lra|].
  destruct (gtb _ 180) eqn:E2; order_facts; [exfalso; lra|reflexivity].
Qed.

(** Eight o'clock, the post-meal hour, with the lowest and a high draw. *)
Lemma generated_test_values_stay_in_range_witness :
  generateRealisticBGL 8 0 0 = 145%Z /\
  (95 <= generateRealisticBGL 8 0 (99 # 100) <= 175)%Z.
Proof.
  split; [reflexivity|].
  apply (@generated_test_values_stay_in_range 8 0 (99 # 100) 0);
    [discriminate|reflexivity].
Defined.

(** ** Restoring part of a snapshot *)

(** X25.  [importData] replaces exactly the fields whose key the snapshot
    holds, each of the six on its own: the four event lists by the restored
    events (every field of an event as it is in the snapshot, the
    timestamp as the date its text denotes), the profile and the doctors by
    the snapshot's values; a field whose key is missing is kept.  A
    snapshot without keys changes nothing, and importing the same snapshot
    twice is importing it once. *)
Theorem import_replaces_present_keys_only (data : Snapshot) (d : DataStore) :
  (glucoseReadings (importData data d)
   = match snap_glucoseReadings data with
     | Some l => map restoreReading l
     | None => glucoseReadings d
     end) /\
  (mealLogs (importData data d)
   = match snap_mealLogs data with
     | Some l => map restoreMeal l
     | None => mealLogs d
     end) /\
  (medicationLogs (importData data d)
   = match snap_medicationLogs data with
     | Some l => map restoreMedication l
     | None => medicationLogs d
     end) /\
  (agentInteractions (importData data d)
   = match snap_agentInteractions data with
     | Some l => map restoreInteraction l
     | None => agentInteractions d
     end) /\
  (userProfile (importData data d)
   = match snap_userProfile data with
     | Some profile => profile
     | None => userProfile d
     end) /\
  (emergencyDoctors (importData data d)
   = match snap_emergencyDoctors data with
     | Some doctors => doctors
     | None => emergencyDoctors d
     end) /\
  (forall ms v t iob n,
     restoreReading (Iso ms, mkNewGlucoseReading v t iob n)
     = mkGlucoseReading (mkDate ms) v t iob n) /\
  (forall ms k u n,
     restoreMedication (Iso ms, mkNewMedicationLog k u n)
     = mkMedicationLog (mkDate ms) k u n) /\
  (forall ms desc img c pr f dose,
     restoreMeal (Iso ms, mkNewMealLog desc img c pr f dose)
     = mkMealLog (mkDate ms) desc img c pr f dose) /\
  (forall ms a m r,
     restoreInteraction (Iso ms, (a, m, r))
     = mkAgentInteraction (mkDate ms) a m r) /\
  importData (mkSnapshot None None None None None None) d = d /\
  importData data (importData data d) = importData data d.
Proof.
  repeat split.
  - destruct d; reflexivity.
  - unfold importData.
    destruct data as [[g|] [m|] [md|] [i|] [pr|] [doc|]]; reflexivity.
Qed.

(** ** A stream over the bound *)

(** X26.  Appends never bring a stream that holds 1000 readings or more
    back under its length: each append drops one oldest reading and adds
    one, so a stream longer than 1000 (as [importData] can leave it) keeps
    its length for ever. *)
Theorem long_stream_keeps_its_length (events : list (Z * NewGlucoseReading))
    (d : DataStore) :
  (1000 <= length (glucoseReadings d))%nat ->
  glucoseReadings (appendAll events d)
  = skipn (length events) (glucoseReadings d ++ stampAll events) /\
  length (glucoseReadings (appendAll events d)) = length (glucoseReadings d).
Proof.
  intros Hlong.
  assert (Hall : glucoseReadings (appendAll events d)
                 = skipn (length events) (glucoseReadings d ++ stampAll events)).
  { induction events as [|e events IH] using rev_ind.
    - simpl. rewrite app_nil_r. reflexivity.
    - rewrite Retention.appendAll_snoc.
      unfold addGlucoseReading, shift. rewrite IH.
      assert (Hlen : length (skipn (length events)
                               (glucoseReadings d ++ stampAll events))
                     = length (glucoseReadings d)).
      { rewrite length_skipn, length_app. unfold stampAll.
        rewrite length_map. lia. }
      rewrite length_app, Hlen. cbn [length].
      destruct (1000 <? _)%Z eqn:E; [|apply Z.ltb_ge in E; lia].
      cbn [glucoseReadings set_glucoseReadings].
      unfold stampAll. rewrite map_app, length_app. cbn [map length].
      rewrite app_assoc.
      replace (length events + 1)%nat with (1 + length events)%nat by lia.
      rewrite <- skipn_skipn.
      rewrite (skipn_app (length events)
                 (glucoseReadings d ++ map _ events)).
      replace (length events - length (glucoseReadings d ++ map _ events))%nat
        with 0%nat by (rewrite length_app, length_map; lia).
      reflexivity. }
  split; [exact Hall|].
  rewrite Hall, length_skipn, length_app. unfold stampAll.
  rewrite length_map. lia.
Qed.

(** A stream of 1001 restored readings after two appends. *)
Lemma long_stream_keeps_its_length_witness :
  length (glucoseReadings
            (appendAll [(0%Z, mkNewGlucoseReading 100 "steady" 0 None);
                        (1%Z, mkNewGlucoseReading 101 "steady" 0 None)]
               (importData longSnapshot newDataStore)))
  = 1001%nat.
Proof.
  destruct (@long_stream_keeps_its_length
              [(0%Z, mkNewGlucoseReading 100 "steady" 0 None);
               (1%Z, mkNewGlucoseReading 101 "steady" 0 None)]
              (importData longSnapshot newDataStore)) as [_ H].
  - vm_compute. lia.
  - rewrite H. reflexivity.
Defined.

(** ** A manual analysis *)

Section Manual.

Variable Number_toString : Q -> string.
Variable JSON_stringify : Analysis -> string.

Local Abbreviation callGuardian' :=
  (callGuardian Number_toString JSON_stringify).
Local Abbreviation addManualReading' :=
  (addManualReading Number_toString JSON_stringify).
Local Abbreviation analyzeBgl' := (analyzeBgl Number_toString JSON_stringify).
Local Abbreviation guardianInteraction' :=
  (guardianInteraction Number_toString JSON_stringify).

#[local] Arguments callGuardian : simpl never.
#[local] Arguments addManualReading : simpl never.

Lemma addGlucoseReading_frame now reading d :
  emergencyDoctors (addGlucoseReading now reading d) = emergencyDoctors d /\
  userProfile (addGlucoseReading now reading d) = userProfile d /\
  agentInteractions (addGlucoseReading now reading d) = agentInteractions d.
Proof. unfold addGlucoseReading. destruct (1000 <? _)%Z; repeat split. Qed.

(** [callGuardian] behind a Guardian that gives the answer [a]. *)
Lemma callGuardian_answered env bgl trend iob w a :
  (forall req,
     guardian env req = FetchResponse 200 (body_analysis (JSONValue a))) ->
  exists w',
    callGuardian' env bgl trend iob w = (inr (responseOf a), w') /\
    store w' = guardianInteraction' env bgl trend iob a (store w) /\
    posted w' = posted w ++ requestsFor env bgl trend a (store w).
Proof.
  intros Hanswer.
  pose proof (callGuardian_effects Number_toString JSON_stringify
                env bgl trend iob w) as H.
  cbv zeta in H. rewrite Hanswer in H. cbn [ok Z.leb Z.compare andb] in H.
  destruct H as (w' & E & Hs & _ & _ & Hp).
  exists w'. repeat split; assumption.
Qed.

Lemma raiseAlert_keeps_posted response w :
  exists r w',
    raiseAlert response w = (r, w') /\ store w' = store w /\
    posted w' = posted w.
Proof.
  unfold raiseAlert, bind, readSimulator, notify, ret, throw. simpl.
  destruct (metadata response) as [m|]; [|eexists; eexists; repeat split].
  destruct (alertCallback (simulator w)) as [f|];
    [|eexists; eexists; repeat split].
  destruct (alert m); [|eexists; eexists; repeat split].
  simpl. destruct (f _); eexists; eexists; repeat split.
Qed.

(** [addManualReading] behind a Guardian that gives the answer [a]. *)
Lemma addManualReading_answered env bgl trend iob w a :
  (forall req,
     guardian env req = FetchResponse 200 (body_analysis (JSONValue a))) ->
  exists w',
    addManualReading' env bgl trend iob w = (inr tt, w') /\
    store w' =
      guardianInteraction' env bgl (TrendType_toString trend) iob a
        (addGlucoseReading (now env)
           {| new_bgl := bgl; new_trend := TrendType_toString trend;
              new_insulinOnBoard := iob; new_notes := None |} (store w)) /\
    posted w' =
      posted w ++ requestsFor env bgl (TrendType_toString trend) a (store w).
Proof.
  intros Hanswer. unfold addManualReading.
  unfold bind at 1 2 3, onSimulator, onStore. simpl.
  unfold tryCatch, bind.
  match goal with
  | |- context [callGuardian _ _ ?e ?b ?t ?i ?w1] =>
      destruct (callGuardian_answered e b t i w1 Hanswer)
        as (w2 & E & Hs & Hp)
  end.
  rewrite E.
  destruct (raiseAlert_keeps_posted (responseOf a) w2) as (r & w3 & E3 & Hs3 & Hp3).
  rewrite E3.
  assert (Hreq : forall d0 reading,
            requestsFor env bgl (TrendType_toString trend) a
              (addGlucoseReading (now env) reading d0)
            = requestsFor env bgl (TrendType_toString trend) a d0).
  { intros d0 reading. unfold requestsFor, emergencyRequest,
      getUserProfile, getEmergencyDoctors.
    destruct (addGlucoseReading_frame (now env) reading d0) as (-> & -> & _).
    reflexivity. }
  simpl in Hs, Hp. rewrite Hreq in Hp.
  destruct r as [exn|[]]; eexists; (split; [reflexivity|]); simpl;
    rewrite Hs3, Hp3, Hs, Hp; split; reflexivity.
Qed.


End Manual.

